(** * Agentic debugger: instrument regions, session controller, log collector

    A shallow embedding of [src/instrumenter.ts], [src/session.ts],
    [src/server.ts] and the tool handlers of [src/index.ts].

    Text is [string]: a sequence of characters.  The program only ever
    tells apart the newline, the characters of its own markers and
    everything else, so one character of the model stands for one code
    unit of the JavaScript string. *)

From Stdlib Require Import ZArith Ascii String List Lia DecimalString.
From stdpp Require Import base option list strings gmap.

Set Default Proof Using "Type".

#[local] Arguments String.append !_ _ / : simpl nomatch.

(** ** Text *)

Definition newline : ascii := "010"%char.
Definition NL : string := String newline EmptyString.

(** [s.startsWith(p)], returning what follows [p]. *)
Fixpoint strip_prefix (p s : string) : option string :=
  match p with
  | EmptyString => Some s
  | String a p' =>
      match s with
      | EmptyString => None
      | String b s' => if Ascii.eqb a b then strip_prefix p' s' else None
      end
  end.

(** [s.includes(p)]. *)
Fixpoint occurs (p s : string) : bool :=
  match strip_prefix p s with
  | Some _ => true
  | None =>
      match s with
      | EmptyString => false
      | String _ s' => occurs p s'
      end
  end.

(** Whether the character [c] is absent from [s]. *)
Fixpoint lacks (c : ascii) (s : string) : bool :=
  match s with
  | EmptyString => true
  | String a s' => negb (Ascii.eqb a c) && lacks c s'
  end.

(** [s.split('\n')]: never empty, the last element is what follows the
    last newline. *)
Fixpoint split_lines (s : string) : list string :=
  match s with
  | EmptyString => [EmptyString]
  | String c s' =>
      if Ascii.eqb c newline then EmptyString :: split_lines s'
      else match split_lines s' with
           | l :: ls => String c l :: ls
           | [] => [String c EmptyString]
           end
  end.

(** [lines.join('\n')]. *)
Definition join_lines (lines : list string) : string := String.concat NL lines.

(** Decimal rendering of an integer, as string interpolation of a JavaScript
    number does for the integers below 10^21. *)
Definition show_Z (z : Z) : string := NilZero.string_of_int (Z.to_int z).

(** ** The region expressions of [instrumenter.ts]

    Every expression the Instrumenter builds has the shape

      OPEN [^\n]*\n [\s\S]*? CLOSE [^\n]*\n?

    with two literal markers.  [OPEN] embeds the region identifier as it
    is; the identifiers the Session Manager generates ([dbg-] and eight
    hexadecimal digits) hold no character that is special in a regular
    expression, and the model reads the identifier as a literal. *)

Record RegionPattern := { open_marker : string; close_marker : string }.

(** [[^\n]*\n]: the greedy run stops at the first newline, and no shorter
    run is followed by a newline. *)
Fixpoint after_newline (s : string) : option string :=
  match s with
  | EmptyString => None
  | String c s' => if Ascii.eqb c newline then Some s' else after_newline s'
  end.

(** [[\s\S]*?] followed by the literal [p]: the lazy run grows one
    character at a time until [p] matches. *)
Fixpoint find_after (p s : string) : option string :=
  match strip_prefix p s with
  | Some r => Some r
  | None =>
      match s with
      | EmptyString => None
      | String _ s' => find_after p s'
      end
  end.

(** [[^\n]*\n?]: the rest of the line and its newline when there is one. *)
Definition end_of_line (s : string) : string :=
  match after_newline s with
  | Some r => r
  | None => EmptyString
  end.

(** One attempt of the expression at the start of [s]: what follows the
    match, or [None] when the expression does not match here. *)
Definition exec (p : RegionPattern) (s : string) : option string :=
  match strip_prefix (open_marker p) s with
  | None => None
  | Some x =>
      match after_newline x with
      | None => None
      | Some y =>
          match find_after (close_marker p) y with
          | None => None
          | Some z => Some (end_of_line z)
          end
      end
  end.

(** [s.replace(pattern, '')] with the [g] flag: matches are searched from
    left to right, each search resuming where the previous match ended.
    The fuel bounds the number of steps; [String.length s] is enough. *)
Fixpoint replace_from (fuel : nat) (p : RegionPattern) (s : string) : string :=
  match fuel with
  | O => s
  | S fuel' =>
      match s with
      | EmptyString => EmptyString
      | String c s' =>
          match exec p s with
          | Some rest => replace_from fuel' p rest
          | None => String c (replace_from fuel' p s')
          end
      end
  end.

Definition replace (p : RegionPattern) (s : string) : string :=
  replace_from (String.length s) p s.

(** The number of elements of [s.match(pattern)] with the [g] flag (0 for
    [null]): the same left-to-right search. *)
Fixpoint match_from (fuel : nat) (p : RegionPattern) (s : string) : nat :=
  match fuel with
  | O => 0
  | S fuel' =>
      match s with
      | EmptyString => 0
      | String c s' =>
          match exec p s with
          | Some rest => S (match_from fuel' p rest)
          | None => match_from fuel' p s'
          end
      end
  end.

Definition match_count (p : RegionPattern) (s : string) : nat :=
  match_from (String.length s) p s.

(** ** Instruments ([types.ts]) *)

Inductive Language := javascript | typescript | python.

Record Instrument := {
  id : string;
  file : string;
  line : Z;
  language : Language;
  capture : list string;
  createdAt : Z
}.

(** ** Code generation ([instrumenter.ts]) *)

Record Instrumenter := { port : Z }.

Definition REGION_PREFIX : string := "claude-debug".

(** [a.join(sep)] *)
Definition join (sep : string) (a : list string) : string := String.concat sep a.

Definition js_capture (v : string) : string :=
  v +:+ ": typeof " +:+ v +:+ " !== 'undefined' ? " +:+ v +:+ " : undefined".

(** The lines between the two delimiter lines. *)
Definition js_payload (this : Instrumenter) (instrument : Instrument) : list string :=
  let dataObj :=
    match capture instrument with
    | [] => "{}"
    | _ => "{ " +:+ join ", " (map js_capture (capture instrument)) +:+ " }"
    end in
  [ "fetch('http://localhost:" +:+ show_Z (port this) +:+ "/log', {";
    "  method: 'POST',";
    "  headers: { 'Content-Type': 'application/json' },";
    "  body: JSON.stringify({";
    "    id: '" +:+ id instrument +:+ "',";
    "    location: '" +:+ file instrument +:+ ":" +:+ show_Z (line instrument) +:+ "',";
    "    timestamp: Date.now(),";
    "    data: " +:+ dataObj;
    "  })";
    "}).catch(() => {});" ].

Definition generateJSInstrument (this : Instrumenter) (instrument : Instrument) : string :=
  join_lines
    (("// #region " +:+ REGION_PREFIX +:+ "-" +:+ id instrument)
       :: js_payload this instrument
       ++ ["// #endregion " +:+ REGION_PREFIX +:+ "-" +:+ id instrument]).

Definition py_capture (v : string) : string :=
  "'" +:+ v +:+ "': " +:+ v +:+ " if '" +:+ v +:+ "' in dir() else None".

Definition py_payload (this : Instrumenter) (instrument : Instrument) : list string :=
  let dataDict :=
    match capture instrument with
    | [] => "{}"
    | _ => "{ " +:+ join ", " (map py_capture (capture instrument)) +:+ " }"
    end in
  [ "try:";
    "    import urllib.request as __dbg_req, json as __dbg_json";
    "    __dbg_req.urlopen(__dbg_req.Request(";
    "        'http://localhost:" +:+ show_Z (port this) +:+ "/log',";
    "        data=__dbg_json.dumps({";
    "            'id': '" +:+ id instrument +:+ "',";
    "            'location': '" +:+ file instrument +:+ ":" +:+ show_Z (line instrument) +:+ "',";
    "            'timestamp': __import__('time').time(),";
    "            'data': " +:+ dataDict;
    "        }).encode(),";
    "        headers={'Content-Type': 'application/json'}";
    "    ))";
    "except: pass" ].

Definition generatePythonInstrument (this : Instrumenter) (instrument : Instrument) : string :=
  join_lines
    (("# region " +:+ REGION_PREFIX +:+ "-" +:+ id instrument)
       :: py_payload this instrument
       ++ ["# endregion " +:+ REGION_PREFIX +:+ "-" +:+ id instrument]).

Definition generateInstrumentCode (this : Instrumenter) (instrument : Instrument) : string :=
  match language instrument with
  | javascript | typescript => generateJSInstrument this instrument
  | python => generatePythonInstrument this instrument
  end.

(** The two delimiter dialects. *)
Definition js_pattern (tag : string) : RegionPattern :=
  {| open_marker := "// #region " +:+ tag; close_marker := "// #endregion" |}.

Definition py_pattern (tag : string) : RegionPattern :=
  {| open_marker := "# region " +:+ tag; close_marker := "# endregion" |}.

Definition region_pattern (language : Language) (regionId : string) : RegionPattern :=
  match language with
  | python => py_pattern regionId
  | _ => js_pattern regionId
  end.

Definition removeRegion (content regionId : string) (language : Language) : string :=
  replace (region_pattern language regionId) content.

(** The [patterns] array of [removeAllInstrumentsFromFile]. *)
Definition wildcard_patterns : list RegionPattern :=
  [js_pattern (REGION_PREFIX +:+ "-"); py_pattern (REGION_PREFIX +:+ "-")].

(** The loop over [patterns]: the running [newContent] and [count]. *)
Definition remove_all_with (patterns : list RegionPattern) (content : string)
  : string * nat :=
  fold_left
    (fun acc pattern =>
       let '(newContent, count) := acc in
       match match_count pattern newContent with
       | O => (newContent, count)
       | S _ as n => (replace pattern newContent, count + n)
       end)
    patterns (content, 0).

(** ** Exceptions and the file system ([node:fs])

    A computation either returns or throws an [Error] with a message. *)

Inductive result (A : Type) : Type :=
  | Ok (a : A)
  | Throw (message : string).
Arguments Ok {A} a.
Arguments Throw {A} message.

Definition bind {A B : Type} (r : result A) (k : A -> result B) : result B :=
  match r with
  | Ok a => k a
  | Throw m => Throw m
  end.

Notation "'let*' x ':=' r 'in' k" := (bind r (fun x => k))
  (at level 10, x pattern, r at level 100, k at level 200).

(** What a path names: a regular file with its text, which the process may
    or may not be allowed to write, or a directory.  Creating a file that does
    not exist succeeds: the directories above it are taken to exist. *)
Inductive entry :=
  | RegularFile (content : string) (writable : bool)
  | Directory.

Abbreviation filesystem := (gmap string entry).

Definition existsSync (fs : filesystem) (path : string) : bool :=
  match fs !! path with
  | Some _ => true
  | None => false
  end.

Definition readFileSync (fs : filesystem) (path : string) : result string :=
  match fs !! path with
  | Some (RegularFile content _) => Ok content
  | Some Directory => Throw "EISDIR: illegal operation on a directory, read"
  | None => Throw ("ENOENT: no such file or directory, open '" +:+ path +:+ "'")
  end.

Definition writeFileSync (fs : filesystem) (path data : string) : result filesystem :=
  match fs !! path with
  | Some (RegularFile _ true) => Ok (<[path := RegularFile data true]> fs)
  | Some (RegularFile _ false) =>
      Throw ("EACCES: permission denied, open '" +:+ path +:+ "'")
  | Some Directory =>
      Throw ("EISDIR: illegal operation on a directory, open '" +:+ path +:+ "'")
  | None => Ok (<[path := RegularFile data true]> fs)
  end.

Definition appendFileSync (fs : filesystem) (path data : string) : result filesystem :=
  match fs !! path with
  | Some (RegularFile content true) =>
      Ok (<[path := RegularFile (content +:+ data) true]> fs)
  | Some (RegularFile _ false) =>
      Throw ("EACCES: permission denied, open '" +:+ path +:+ "'")
  | Some Directory =>
      Throw ("EISDIR: illegal operation on a directory, open '" +:+ path +:+ "'")
  | None => Ok (<[path := RegularFile data true]> fs)
  end.

Definition unlinkSync (fs : filesystem) (path : string) : result filesystem :=
  match fs !! path with
  | Some (RegularFile _ _) => Ok (delete path fs)
  | Some Directory =>
      Throw ("EPERM: operation not permitted, unlink '" +:+ path +:+ "'")
  | None => Throw ("ENOENT: no such file or directory, unlink '" +:+ path +:+ "'")
  end.

(** ** The Instrumenter's file operations ([instrumenter.ts]) *)

(** [lines.splice(start, 0, ...items)] for [0 <= start]. *)
Definition splice (lines : list string) (start : nat) (items : list string)
  : list string :=
  take start lines ++ items ++ drop start lines.

Definition addInstrument (this : Instrumenter) (instrument : Instrument)
    (fs : filesystem) : result filesystem :=
  if negb (existsSync fs (file instrument)) then
    Throw ("File not found: " +:+ file instrument)
  else
    let* content := readFileSync fs (file instrument) in
    let lines := split_lines content in
    if ((line instrument <? 1) || (line instrument >? Z.of_nat (length lines) + 1))%Z
    then
      Throw ("Line " +:+ show_Z (line instrument) +:+ " is out of range (file has "
             +:+ show_Z (Z.of_nat (length lines)) +:+ " lines)")
    else
      let code := generateInstrumentCode this instrument in
      let codeLines := split_lines code in
      let lines' := splice lines (Z.to_nat (line instrument - 1)) codeLines in
      writeFileSync fs (file instrument) (join_lines lines').

Definition removeInstrument (this : Instrumenter) (instrument : Instrument)
    (fs : filesystem) : result (filesystem * bool) :=
  if negb (existsSync fs (file instrument)) then Ok (fs, false)
  else
    let* content := readFileSync fs (file instrument) in
    let regionId := REGION_PREFIX +:+ "-" +:+ id instrument in
    let newContent := removeRegion content regionId (language instrument) in
    if negb (String.eqb newContent content) then
      let* fs' := writeFileSync fs (file instrument) newContent in
      Ok (fs', true)
    else Ok (fs, false).

Definition removeAllInstrumentsFromFile (this : Instrumenter) (path : string)
    (fs : filesystem) : result (filesystem * nat) :=
  if negb (existsSync fs path) then Ok (fs, 0)
  else
    let* content := readFileSync fs path in
    let '(newContent, count) := remove_all_with wildcard_patterns content in
    if (0 <? count) then
      let* fs' := writeFileSync fs path newContent in
      Ok (fs', count)
    else Ok (fs, count).

Definition hasInstruments (this : Instrumenter) (path : string) (fs : filesystem)
  : result bool :=
  if negb (existsSync fs path) then Ok false
  else
    let* content := readFileSync fs path in
    Ok (occurs ("#region " +:+ REGION_PREFIX +:+ "-") content
        || occurs ("# region " +:+ REGION_PREFIX +:+ "-") content).

(** ** Sessions ([types.ts], [session.ts])

    [instruments] is the [Map] of the session, in insertion order. *)

Record DebugSession := {
  session_id : string;
  session_port : Z;
  startedAt : Z;
  logFile : string;
  instruments : list (string * Instrument)
}.

Record InstrumentOptions := {
  options_file : string;
  options_line : Z;
  options_capture : list string
}.

(** [map.set(key, value)]: an existing key keeps its place. *)
Fixpoint map_set {V : Type} (key : string) (value : V) (m : list (string * V))
  : list (string * V) :=
  match m with
  | [] => [(key, value)]
  | (k, v) :: rest =>
      if String.eqb k key then (k, value) :: rest
      else (k, v) :: map_set key value rest
  end.

Fixpoint map_has {V : Type} (key : string) (m : list (string * V)) : bool :=
  match m with
  | [] => false
  | (k, _) :: rest => String.eqb k key || map_has key rest
  end.

(** [map.delete(key)] without its result. *)
Fixpoint map_delete {V : Type} (key : string) (m : list (string * V))
  : list (string * V) :=
  match m with
  | [] => []
  | (k, v) :: rest =>
      if String.eqb k key then rest else (k, v) :: map_delete key rest
  end.

(** [Array.from(map.values())] *)
Definition map_values {V : Type} (m : list (string * V)) : list V := map snd m.

(** The Log Collector object of [server.ts]: [http_server] is its [server]
    field, [None] for [null], otherwise whether the node server listens. *)
Record DebugLogServer := {
  http_server : option bool;
  server_port : Z;
  server_logFile : string
}.

Record SessionManager := {
  session : option DebugSession;
  server : option DebugLogServer;
  workingDirectory : string
}.

(** What the process holds: the two module-level variables of [index.ts]
    and the files. *)
Record World := {
  sessionManager : SessionManager;
  instrumenter : option Instrumenter;
  files : filesystem
}.

(** Functions of the runtime that the program calls and that are not
    modelled here: [path.resolve], the display of the log entries by
    [read_debug_logs] (lines 304 to 322 of [index.ts]), [JSON.parse]. *)
#[warnings="-register-all"]
Inductive json :=
  | JNull
  | JBool (b : bool)
  | JNumber (repr : string)
  | JString (s : string)
  | JArray (items : list json)
  | JObject (members : list (string * json)).

Record Runtime := {
  resolve : string -> string -> string;
  pretty_entries : string -> string;
  JSON_parse : string -> option json
}.

(** What one call draws from outside: [randomUUID()], [Date.now()], and
    whether the port can be bound. *)
Record Env := {
  uuid : string;
  now : Z;
  port_free : bool
}.

(** ** State and exceptions *)

Definition M (A : Type) : Type := World -> result A * World.

Definition ret {A : Type} (a : A) : M A := fun w => (Ok a, w).

Definition throw {A : Type} (message : string) : M A :=
  fun w => (Throw message, w).

Definition mbind {A B : Type} (m : M A) (k : A -> M B) : M B :=
  fun w =>
    match m w with
    | (Ok a, w') => k a w'
    | (Throw e, w') => (Throw e, w')
    end.

Notation "'let!' x ':=' m 'in' k" := (mbind m (fun x => k))
  (at level 10, x pattern, m at level 100, k at level 200).

Definition get_manager : M SessionManager :=
  fun w => (Ok (sessionManager w), w).

Definition set_manager (this : SessionManager) : M unit :=
  fun w => (Ok tt, {| sessionManager := this;
                      instrumenter := instrumenter w;
                      files := files w |}).

Definition get_instrumenter : M (option Instrumenter) :=
  fun w => (Ok (instrumenter w), w).

Definition set_instrumenter (i : option Instrumenter) : M unit :=
  fun w => (Ok tt, {| sessionManager := sessionManager w;
                      instrumenter := i;
                      files := files w |}).

Definition get_files : M filesystem := fun w => (Ok (files w), w).

(** A file operation that returns a value and the new files, or throws and
    leaves the files as they are. *)
Definition on_files {A : Type} (f : filesystem -> result (filesystem * A)) : M A :=
  fun w =>
    match f (files w) with
    | Ok (fs', a) => (Ok a, {| sessionManager := sessionManager w;
                               instrumenter := instrumenter w;
                               files := fs' |})
    | Throw e => (Throw e, w)
    end.

Definition write_files (f : filesystem -> result filesystem) : M unit :=
  on_files (fun fs => let* fs' := f fs in Ok (fs', tt)).

Definition read_files {A : Type} (f : filesystem -> result A) : M A :=
  on_files (fun fs => let* a := f fs in Ok (fs, a)).

(** ** The Log Collector's life ([server.ts]) *)

Module LogServer.
Definition create (port : Z) (logFile : string) : DebugLogServer :=
  {| http_server := None; server_port := port; server_logFile := logFile |}.

(** [start()]: the node server is created, then [listen] succeeds or the
    promise is rejected. *)
Definition start (this : DebugLogServer) (env : Env)
  : result DebugLogServer * DebugLogServer :=
  if port_free env then
    let this' := {| http_server := Some true;
                    server_port := server_port this;
                    server_logFile := server_logFile this |} in
    (Ok this', this')
  else
    (Throw ("listen EADDRINUSE: address already in use :::"
            +:+ show_Z (server_port this)),
     {| http_server := Some false;
        server_port := server_port this;
        server_logFile := server_logFile this |}).

Definition stop (this : DebugLogServer) : DebugLogServer :=
  {| http_server := None;
     server_port := server_port this;
     server_logFile := server_logFile this |}.

End LogServer.

(** ** The Session Manager ([session.ts]) *)

Definition dot : ascii := "."%char.

Fixpoint split_on (sep : ascii) (s : string) : list string :=
  match s with
  | EmptyString => [EmptyString]
  | String c s' =>
      if Ascii.eqb c sep then EmptyString :: split_on sep s'
      else match split_on sep s' with
           | l :: ls => String c l :: ls
           | [] => [String c EmptyString]
           end
  end.

Definition lower (c : ascii) : ascii :=
  let n := nat_of_ascii c in
  if (65 <=? n) && (n <=? 90) then ascii_of_nat (n + 32) else c.

Fixpoint toLowerCase (s : string) : string :=
  match s with
  | EmptyString => EmptyString
  | String c s' => String (lower c) (toLowerCase s')
  end.

Module Session.
Definition set_session (this : SessionManager) (s : option DebugSession)
  : SessionManager :=
  {| session := s; server := server this;
     workingDirectory := workingDirectory this |}.

Definition set_server (this : SessionManager) (s : option DebugLogServer)
  : SessionManager :=
  {| session := session this; server := s;
     workingDirectory := workingDirectory this |}.

Definition detectLanguage (path : string) : Language :=
  let ext := toLowerCase (List.last (split_on dot path) EmptyString) in
  if String.eqb ext "ts" || String.eqb ext "tsx" then typescript
  else if String.eqb ext "js" || String.eqb ext "jsx"
          || String.eqb ext "mjs" || String.eqb ext "cjs" then javascript
  else if String.eqb ext "py" then python
  else javascript.

Definition startSession (rt : Runtime) (env : Env) (port : Z) : M DebugSession :=
  let! this := get_manager in
  match session this with
  | Some _ => throw "Debug session already active. Stop it first."
  | None =>
      let logFile := resolve rt (workingDirectory this) "debug.log" in
      let! fs := get_files in
      let! _ := (if existsSync fs logFile
                 then write_files (fun fs => unlinkSync fs logFile)
                 else ret tt) in
      let! _ := write_files (fun fs => writeFileSync fs logFile EmptyString) in
      let created := LogServer.create port logFile in
      let '(started, created') := LogServer.start created env in
      let! _ := set_manager (set_server this (Some created')) in
      match started with
      | Throw e => throw e
      | Ok _ =>
          let! this := get_manager in
          let s := {| session_id := uuid env;
                      session_port := port;
                      startedAt := now env;
                      logFile := logFile;
                      instruments := [] |} in
          let! _ := set_manager (set_session this (Some s)) in
          ret s
      end
  end.

Definition stopSession : M unit :=
  let! this := get_manager in
  let this :=
    match server this with
    | Some _ => set_server this None
    | None => this
    end in
  set_manager (set_session this None).

Definition isActive (this : SessionManager) : bool :=
  match session this with Some _ => true | None => false end.

Definition addInstrument (rt : Runtime) (env : Env) (options : InstrumentOptions)
  : M Instrument :=
  let! this := get_manager in
  match session this with
  | None => throw "No active debug session"
  | Some s =>
      let language := detectLanguage (options_file options) in
      let instrument :=
        {| id := "dbg-" +:+ String.substring 0 8 (uuid env);
           file := resolve rt (workingDirectory this) (options_file options);
           line := options_line options;
           language := language;
           capture := options_capture options;
           createdAt := now env |} in
      let s' := {| session_id := session_id s;
                   session_port := session_port s;
                   startedAt := startedAt s;
                   logFile := logFile s;
                   instruments := map_set (id instrument) instrument (instruments s) |} in
      let! _ := set_manager (set_session this (Some s')) in
      ret instrument
  end.

Definition removeInstrument (key : string) : M bool :=
  let! this := get_manager in
  match session this with
  | None => throw "No active debug session"
  | Some s =>
      let s' := {| session_id := session_id s;
                   session_port := session_port s;
                   startedAt := startedAt s;
                   logFile := logFile s;
                   instruments := map_delete key (instruments s) |} in
      let! _ := set_manager (set_session this (Some s')) in
      ret (map_has key (instruments s))
  end.

Definition getInstruments (this : SessionManager) : list Instrument :=
  match session this with
  | None => []
  | Some s => map_values (instruments s)
  end.

Definition getInstrumentsByFile (rt : Runtime) (this : SessionManager)
    (path : string) : list Instrument :=
  let resolvedFile := resolve rt (workingDirectory this) path in
  List.filter (fun i => String.eqb (file i) resolvedFile) (getInstruments this).

Definition clearInstruments : M unit :=
  let! this := get_manager in
  match session this with
  | None => ret tt
  | Some s =>
      let s' := {| session_id := session_id s;
                   session_port := session_port s;
                   startedAt := startedAt s;
                   logFile := logFile s;
                   instruments := [] |} in
      set_manager (set_session this (Some s'))
  end.

Definition readLogs : M string :=
  let! this := get_manager in
  match session this with
  | None => throw "No active debug session"
  | Some s =>
      let! fs := get_files in
      if negb (existsSync fs (logFile s)) then ret EmptyString
      else read_files (fun fs => readFileSync fs (logFile s))
  end.

Definition clearLogs : M unit :=
  let! this := get_manager in
  match session this with
  | None => throw "No active debug session"
  | Some s => write_files (fun fs => writeFileSync fs (logFile s) EmptyString)
  end.
End Session.

(** [map.get(key)] *)
Fixpoint map_get {V : Type} (key : string) (m : list (string * V)) : option V :=
  match m with
  | [] => None
  | (k, v) :: rest => if String.eqb k key then Some v else map_get key rest
  end.

(** ** JSON text ([JSON.stringify]) and object spread

    A number is held as the text that prints it; the members of an object
    are held in the order of its properties. *)

Definition dquote : ascii := "034"%char.
Definition backslash : ascii := "092"%char.

Definition hex_digit (n : nat) : ascii :=
  if n <? 10 then ascii_of_nat (48 + n) else ascii_of_nat (87 + n).

Definition escape_char (c : ascii) : string :=
  let n := nat_of_ascii c in
  if n =? 34 then String backslash (String dquote EmptyString)
  else if n =? 92 then String backslash (String backslash EmptyString)
  else if n =? 8 then String backslash "b"
  else if n =? 9 then String backslash "t"
  else if n =? 10 then String backslash "n"
  else if n =? 12 then String backslash "f"
  else if n =? 13 then String backslash "r"
  else if n <? 32 then
    String backslash
      ("u00" +:+ String (hex_digit (n / 16)) (String (hex_digit (n mod 16)) EmptyString))
  else String c EmptyString.

Fixpoint escape (s : string) : string :=
  match s with
  | EmptyString => EmptyString
  | String c s' => escape_char c +:+ escape s'
  end.

Definition quote (s : string) : string :=
  String dquote (escape s +:+ String dquote EmptyString).

Fixpoint JSON_stringify (v : json) : string :=
  match v with
  | JNull => "null"
  | JBool true => "true"
  | JBool false => "false"
  | JNumber repr => repr
  | JString s => quote s
  | JArray items => "[" +:+ join "," (map JSON_stringify items) +:+ "]"
  | JObject members =>
      "{" +:+ join ","
                (map (fun kv => quote (fst kv) +:+ ":" +:+ JSON_stringify (snd kv))
                   members)
          +:+ "}"
  end.

Definition show_nat (n : nat) : string := show_Z (Z.of_nat n).

Fixpoint indexed {A : Type} (from : nat) (l : list A) : list (string * A) :=
  match l with
  | [] => []
  | x :: rest => (show_nat from, x) :: indexed (S from) rest
  end.

Fixpoint characters (s : string) : list json :=
  match s with
  | EmptyString => []
  | String c s' => JString (String c EmptyString) :: characters s'
  end.

(** The own enumerable properties that [{...v}] copies. *)
Definition spread (v : json) : list (string * json) :=
  match v with
  | JObject members => members
  | JArray items => indexed 0 items
  | JString s => indexed 0 (characters s)
  | _ => []
  end.

(** The texts that stand for the numbers of [v] hold no newline, as the
    text of a number never does. *)
Fixpoint one_line (v : json) : bool :=
  match v with
  | JNumber repr => lacks newline repr
  | JArray items => forallb one_line items
  | JObject members => forallb (fun kv => one_line (snd kv)) members
  | _ => true
  end.

(** ** Requests to the Log Collector ([server.ts]) *)

Record Request := {
  method : string;
  url : string;
  chunks : list string
}.

Record Response := {
  status : nat;
  headers : list (string * string);
  body : string
}.

Module Collector.
Definition cors : list (string * string) :=
  [ ("Access-Control-Allow-Origin", "*");
    ("Access-Control-Allow-Methods", "POST, GET, OPTIONS");
    ("Access-Control-Allow-Headers", "Content-Type") ].

Definition json_response (code : nat) (v : json) : Response :=
  {| status := code;
     headers := cors ++ [("Content-Type", "application/json")];
     body := JSON_stringify v |}.

(** The object that [writeLog] prints. *)
Definition logged (entry : json) (receivedAt : Z) : json :=
  JObject (map_set "receivedAt" (JNumber (show_Z receivedAt)) (spread entry)).

Definition writeLog (this : DebugLogServer) (entry : json) (env : Env)
    (fs : filesystem) : result filesystem :=
  let logLine := JSON_stringify (logged entry (now env)) +:+ NL in
  appendFileSync fs (server_logFile this) logLine.

(** The request with its whole body: the chunks are appended as they
    come and the body is parsed at the end. *)
Definition handleRequest (rt : Runtime) (this : DebugLogServer) (env : Env)
    (req : Request) (fs : filesystem) : Response * filesystem :=
  if String.eqb (method req) "OPTIONS" then
    ({| status := 204; headers := cors; body := EmptyString |}, fs)
  else if String.eqb (method req) "GET" && String.eqb (url req) "/health" then
    (json_response 200
       (JObject [("status", JString "ok");
                 ("port", JNumber (show_Z (server_port this)))]), fs)
  else if String.eqb (method req) "POST" && String.eqb (url req) "/log" then
    let body := String.concat EmptyString (chunks req) in
    match JSON_parse rt body with
    | Some logEntry =>
        match writeLog this logEntry env fs with
        | Ok fs' => (json_response 200 (JObject [("success", JBool true)]), fs')
        | Throw _ =>
            (json_response 400 (JObject [("error", JString "Invalid JSON")]), fs)
        end
    | None =>
        (json_response 400 (JObject [("error", JString "Invalid JSON")]), fs)
    end
  else
    (json_response 404 (JObject [("error", JString "Not found")]), fs).
End Collector.

(** ** The tools ([index.ts]) *)

Record ToolResult := { text : string; isError : bool }.

Inductive ToolCall :=
  | start_debug_session (port : option Z)
  | stop_debug_session
  | add_instrument (file : option string) (line : option Z)
      (capture : option (list string))
  | remove_instruments (file : option string)
  | list_instruments
  | read_debug_logs (format : option string)
  | clear_debug_logs
  | unknown_tool (name : string).

Definition success (message : string) : ToolResult :=
  {| text := message; isError := false |}.

Definition failure (message : string) : ToolResult :=
  {| text := message; isError := true |}.

(** [for (const x of items) body(x)] *)
Fixpoint for_each {A : Type} (items : list A) (body : A -> M unit) : M unit :=
  match items with
  | [] => ret tt
  | x :: rest => let! _ := body x in for_each rest body
  end.

(** The white space of the ASCII range. *)
Definition is_space (c : ascii) : bool :=
  let n := nat_of_ascii c in
  ((9 <=? n) && (n <=? 13)) || (n =? 32).

(** [!s.trim()] *)
Fixpoint blank (s : string) : bool :=
  match s with
  | EmptyString => true
  | String c s' => is_space c && blank s'
  end.

Definition truthy (s : option string) : option string :=
  match s with
  | Some EmptyString | None => None
  | Some s => Some s
  end.

Definition describe (i : Instrument) : string :=
  let captured := join ", " (capture i) in
  "- " +:+ id i +:+ ": " +:+ file i +:+ ":" +:+ show_Z (line i) +:+ " ["
  +:+ (if String.eqb captured EmptyString then "no capture" else captured)
  +:+ "]".

(** The port that [start_debug_session] uses: [(args?.port) || 9876]. *)
Definition chosen_port (port : option Z) : Z :=
  match port with Some 0%Z | None => 9876%Z | Some n => n end.

Definition handle (rt : Runtime) (env : Env) (call : ToolCall) : M ToolResult :=
  match call with
  | start_debug_session port =>
      let port := chosen_port port in
      let! session := Session.startSession rt env port in
      let! _ := set_instrumenter (Some {| port := port |}) in
      ret (success
             ("Debug session started!" +:+ NL +:+ NL
              +:+ "Session ID: " +:+ session_id session +:+ NL
              +:+ "Server: http://localhost:" +:+ show_Z port +:+ NL
              +:+ "Log file: " +:+ logFile session +:+ NL +:+ NL
              +:+ "You can now add instruments to capture variable values."))
  | stop_debug_session =>
      let! this := get_manager in
      if negb (Session.isActive this) then
        ret (success "No active debug session to stop.")
      else
        let instruments := Session.getInstruments this in
        let! current := get_instrumenter in
        let! _ :=
          match current with
          | Some i =>
              for_each instruments
                (fun instrument =>
                   let! _ := on_files (removeInstrument i instrument) in ret tt)
          | None => ret tt
          end in
        let! _ := Session.stopSession in
        let! _ := set_instrumenter None in
        ret (success
               ("Debug session stopped. Removed " +:+ show_nat (length instruments)
                +:+ " instrument(s) from code."))
  | add_instrument path line capture =>
      let! this := get_manager in
      let! current := get_instrumenter in
      match Session.isActive this, current with
      | true, Some i =>
          let capture := match capture with Some c => c | None => [] end in
          match truthy path, line with
          | Some path, Some line =>
              if (line =? 0)%Z then
                ret (failure "Missing required parameters: file and line")
              else
                let! instrument :=
                  Session.addInstrument rt env
                    {| options_file := path; options_line := line;
                       options_capture := capture |} in
                let! _ := write_files (addInstrument i instrument) in
                ret (success
                       ("Instrument added!" +:+ NL +:+ NL
                        +:+ "ID: " +:+ id instrument +:+ NL
                        +:+ "File: " +:+ file instrument +:+ NL
                        +:+ "Line: " +:+ show_Z line +:+ NL
                        +:+ "Capturing: "
                        +:+ (match capture with
                             | [] => "(no variables)"
                             | _ => join ", " capture
                             end) +:+ NL +:+ NL
                        +:+ "The instrument will log data when that line is executed."))
          | _, _ => ret (failure "Missing required parameters: file and line")
          end
      | _, _ =>
          ret (failure
                 "No active debug session. Start one first with start_debug_session.")
      end
  | remove_instruments path =>
      let! this := get_manager in
      let! current := get_instrumenter in
      match Session.isActive this, current with
      | true, Some i =>
          match truthy path with
          | Some path =>
              let instruments := Session.getInstrumentsByFile rt this path in
              let! _ :=
                for_each instruments
                  (fun instrument =>
                     let! _ := on_files (removeInstrument i instrument) in
                     let! _ := Session.removeInstrument (id instrument) in
                     ret tt) in
              ret (success
                     ("Removed " +:+ show_nat (length instruments)
                      +:+ " instrument(s) from " +:+ path))
          | None =>
              let instruments := Session.getInstruments this in
              let! _ :=
                for_each instruments
                  (fun instrument =>
                     let! _ := on_files (removeInstrument i instrument) in ret tt) in
              let! _ := Session.clearInstruments in
              ret (success
                     ("Removed " +:+ show_nat (length instruments)
                      +:+ " instrument(s) from all files"))
          end
      | _, _ => ret (failure "No active debug session.")
      end
  | list_instruments =>
      let! this := get_manager in
      let instruments := Session.getInstruments this in
      match instruments with
      | [] => ret (success "No active instruments.")
      | _ =>
          ret (success
                 ("Active instruments (" +:+ show_nat (length instruments) +:+ "):"
                  +:+ NL +:+ NL +:+ join NL (map describe instruments)))
      end
  | read_debug_logs format =>
      let! this := get_manager in
      if negb (Session.isActive this) then
        ret (failure "No active debug session.")
      else
        let format := match truthy format with Some f => f | None => "pretty" end in
        let! logs := Session.readLogs in
        if blank logs then
          ret (success
                 "No logs collected yet. Make sure to reproduce the bug to trigger the instruments.")
        else if String.eqb format "raw" then ret (success logs)
        else ret (success (pretty_entries rt logs))
  | clear_debug_logs =>
      let! this := get_manager in
      if negb (Session.isActive this) then
        ret (failure "No active debug session.")
      else
        let! _ := Session.clearLogs in
        ret (success "Debug logs cleared.")
  | unknown_tool name => ret (failure ("Unknown tool: " +:+ name))
  end.

(** The request handler: what is thrown becomes an error result. *)
Definition call_tool (rt : Runtime) (env : Env) (call : ToolCall) (w : World)
  : ToolResult * World :=
  match handle rt env call w with
  | (Ok r, w') => (r, w')
  | (Throw message, w') => (failure ("Error: " +:+ message), w')
  end.

(** The instrument that [add_instrument] builds from its arguments. *)
Definition requested (rt : Runtime) (env : Env) (this : SessionManager)
    (path : string) (line : Z) (capture : option (list string)) : Instrument :=
  {| id := "dbg-" +:+ String.substring 0 8 (uuid env);
     file := resolve rt (workingDirectory this) path;
     line := line;
     language := Session.detectLanguage path;
     capture := match capture with Some c => c | None => [] end;
     createdAt := now env |}.

Definition registered (this : SessionManager) (s : DebugSession)
    (instrument : Instrument) : SessionManager :=
  Session.set_session this
    (Some {| session_id := session_id s;
             session_port := session_port s;
             startedAt := startedAt s;
             logFile := logFile s;
             instruments := map_set (id instrument) instrument (instruments s) |}).

(** The session and the world that a successful start leaves. *)
Definition fresh_session (rt : Runtime) (env : Env) (port : option Z)
    (this : SessionManager) : DebugSession :=
  {| session_id := uuid env;
     session_port := chosen_port port;
     startedAt := now env;
     logFile := resolve rt (workingDirectory this) "debug.log";
     instruments := [] |}.

Definition fresh_world (rt : Runtime) (env : Env) (port : option Z) (w : World)
  : World :=
  let this := sessionManager w in
  let s := fresh_session rt env port this in
  {| sessionManager :=
       {| session := Some s;
          server := Some {| http_server := Some true;
                            server_port := chosen_port port;
                            server_logFile := logFile s |};
          workingDirectory := workingDirectory this |};
     instrumenter := Some {| port := chosen_port port |};
     files := <[logFile s := RegularFile EmptyString true]> (files w) |}.

(** ** What may be embedded in a region

    The identifiers of the Session Manager are made of letters, digits and
    dashes.  The file name and the captured names are spliced into the
    generated block as they are. *)

Definition hash : ascii := "#"%char.

Definition identifier_char (c : ascii) : bool :=
  let n := nat_of_ascii c in
  ((48 <=? n) && (n <=? 57)) || ((65 <=? n) && (n <=? 90))
  || ((97 <=? n) && (n <=? 122)) || (n =? 45) || (n =? 95).

Fixpoint plain_identifier (s : string) : bool :=
  match s with
  | EmptyString => true
  | String c s' => identifier_char c && plain_identifier s'
  end.

(** The instrument can be told apart from its own delimiters: a plain
    identifier, and no [#] in the file name or in a captured name. *)
Definition embeddable (instrument : Instrument) : bool :=
  plain_identifier (id instrument)
  && lacks hash (file instrument)
  && forallb (lacks hash) (capture instrument).

(** ** Texts made of lines and regions

    A region of either dialect: the rest of its opening line, the lines of
    its interior, the rest of its closing line. *)

Inductive Dialect := c_family | python_family.

Definition wildcard (d : Dialect) : RegionPattern :=
  match d with
  | c_family => js_pattern (REGION_PREFIX +:+ "-")
  | python_family => py_pattern (REGION_PREFIX +:+ "-")
  end.

Definition other (d : Dialect) : Dialect :=
  match d with c_family => python_family | python_family => c_family end.

Record Region := {
  dialect : Dialect;
  opening_rest : string;
  interior : list string;
  closing_rest : string
}.

Definition region_lines (r : Region) : list string :=
  (open_marker (wildcard (dialect r)) +:+ opening_rest r)
    :: interior r
    ++ [close_marker (wildcard (dialect r)) +:+ closing_rest r].

Inductive Piece :=
  | Plain (l : string)
  | Instrumented (r : Region).

Definition piece_lines (x : Piece) : list string :=
  match x with
  | Plain l => [l]
  | Instrumented r => region_lines r
  end.

Definition document_text (pieces : list Piece) : string :=
  join_lines (concat (map piece_lines pieces)).

(** A plain line holds no opening marker.  The interior of a region does
    not hold its closing marker, and none of its lines holds the opening
    marker of the other dialect. *)
Definition well_formed_region (r : Region) : bool :=
  lacks newline (opening_rest r)
  && lacks newline (closing_rest r)
  && forallb (lacks newline) (interior r)
  && forallb (fun l => negb (occurs (close_marker (wildcard (dialect r))) l))
       (interior r)
  && forallb (fun l => negb (occurs (open_marker (wildcard (other (dialect r)))) l))
       (region_lines r).

Definition well_formed_piece (x : Piece) : bool :=
  match x with
  | Plain l =>
      lacks newline l
      && negb (occurs (open_marker (wildcard c_family)) l)
      && negb (occurs (open_marker (wildcard python_family)) l)
  | Instrumented r => well_formed_region r
  end.

Definition is_region (x : Piece) : bool :=
  match x with Plain _ => false | Instrumented _ => true end.

Definition count_regions (pieces : list Piece) : nat :=
  length (List.filter is_region pieces).

(** The lines that are not part of a region, and one empty last line when
    the text ends with a region: the newline before it stays. *)
Fixpoint kept_lines (pieces : list Piece) : list string :=
  match pieces with
  | [] => []
  | [Instrumented _] => [EmptyString]
  | Plain l :: rest => l :: kept_lines rest
  | Instrumented _ :: rest => kept_lines rest
  end.

Definition is_dialect (d : Dialect) (x : Piece) : bool :=
  match x with
  | Plain _ => false
  | Instrumented r =>
      match d, dialect r with
      | c_family, c_family | python_family, python_family => true
      | _, _ => false
      end
  end.

(** The pieces left by one pass of the wildcard expression of dialect [d]. *)
Fixpoint remove_dialect (d : Dialect) (pieces : list Piece) : list Piece :=
  match pieces with
  | [] => []
  | x :: rest =>
      if is_dialect d x then
        match rest with
        | [] => [Plain EmptyString]
        | _ => remove_dialect d rest
        end
      else x :: remove_dialect d rest
  end.

(** Lines, each followed by its newline. *)
Fixpoint terminated (lines : list string) : string :=
  match lines with
  | [] => EmptyString
  | l :: rest => l +:+ NL +:+ terminated rest
  end.

(** No search for a match succeeds anywhere in [s]. *)
Fixpoint settled (p : RegionPattern) (s : string) : bool :=
  match exec p s with
  | Some _ => false
  | None =>
      match s with
      | EmptyString => true
      | String _ s' => settled p s'
      end
  end.

(** Every occurrence of the marker [q] in [s] starts a line; [bol] tells
    whether [s] itself starts at the beginning of a line. *)
Fixpoint marker_at_bol (q : string) (bol : bool) (s : string) : bool :=
  match s with
  | EmptyString => true
  | String c s' =>
      match strip_prefix q s with Some _ => bol | None => true end
      && marker_at_bol q (Ascii.eqb c newline) s'
  end.

(** The text of a region of the expression [p]: opening line, interior,
    closing line. *)
Definition delimited (p : RegionPattern) (orest : string) (body : list string)
    (crest : string) : string :=
  join_lines ((open_marker p +:+ orest) :: body ++ [close_marker p +:+ crest]).

(** The text between the delimiter lines of a generated block. *)
Definition payload (this : Instrumenter) (instrument : Instrument) : list string :=
  match language instrument with
  | python => py_payload this instrument
  | _ => js_payload this instrument
  end.

Definition regionId_of (instrument : Instrument) : string :=
  REGION_PREFIX +:+ "-" +:+ id instrument.

Definition pattern_of (instrument : Instrument) : RegionPattern :=
  region_pattern (language instrument) (regionId_of instrument).

Definition count_dialect (d : Dialect) (pieces : list Piece) : nat :=
  length (List.filter (is_dialect d) pieces).

(** The region that the generated block of an instrument is. *)
Definition dialect_of (l : Language) : Dialect :=
  match l with
  | python => python_family
  | _ => c_family
  end.

Definition region_of (this : Instrumenter) (instrument : Instrument) : Region :=
  {| dialect := dialect_of (language instrument);
     opening_rest := id instrument;
     interior := payload this instrument;
     closing_rest := " " +:+ regionId_of instrument |}.

(** The generated block is made of whole lines: no newline in the file
    name or in a captured name either. *)
Definition line_embeddable (instrument : Instrument) : bool :=
  embeddable instrument
  && lacks newline (file instrument)
  && forallb (lacks newline) (capture instrument).

(** ** A runtime for the examples

    [path.resolve] on an absolute name or on a plain relative one, and the
    values that [JSON.parse] returns on three bodies. *)

Definition example_resolve (wd path : string) : string :=
  match path with
  | String "/"%char _ => path
  | _ => wd +:+ "/" +:+ path
  end.

Definition example_entry : json :=
  JObject [("id", JString "x"); ("location", JString "a.js:1");
           ("timestamp", JNumber "123"); ("data", JObject [("a", JNumber "1")])].

Definition example_parse (body : string) : option json :=
  if String.eqb body (JSON_stringify example_entry) then Some example_entry
  else if String.eqb body "42" then Some (JNumber "42")
  else if String.eqb body "{}" then Some (JObject [])
  else None.

Definition example_runtime : Runtime :=
  {| resolve := example_resolve;
     pretty_entries := fun logs => logs;
     JSON_parse := example_parse |}.

(** ** Inputs of the examples *)

Definition example_instrumenter : Instrumenter := {| port := 9876 |}.

Definition two_lines : string := "a" +:+ NL +:+ "b".

Definition two_line_file : filesystem :=
  {[ "/w/a.js" := RegularFile two_lines true ]}.

(** An instrument for the line after the last one of [two_lines]. *)
Definition appended_instrument : Instrument :=
  {| id := "dbg-1a2b3c4d"; file := "/w/a.js"; line := 3;
     language := javascript; capture := ["x"]; createdAt := 0 |}.

(** A file in which an instrument was inserted before line 2. *)
Definition inserted_instrument : Instrument :=
  {| id := "dbg-1a2b3c4d"; file := "/w/a.js"; line := 2;
     language := javascript; capture := ["x"]; createdAt := 0 |}.

Definition instrumented_text : string :=
  "a" +:+ NL
  +:+ generateInstrumentCode example_instrumenter inserted_instrument +:+ NL
  +:+ "b".

Definition instrumented_file : filesystem :=
  {[ "/w/a.js" := RegularFile instrumented_text true ]}.

(** A JavaScript file and a Python block after it: two lines and two
    regions. *)
Definition python_instrument : Instrument :=
  {| id := "dbg-5e6f7a8b"; file := "/w/b.py"; line := 1;
     language := python; capture := []; createdAt := 0 |}.

Definition mixed_pieces : list Piece :=
  [ Plain "a";
    Instrumented (region_of example_instrumenter inserted_instrument);
    Plain "b";
    Instrumented (region_of example_instrumenter python_instrument) ].

Definition mixed_file : filesystem :=
  {[ "/w/a.js" := RegularFile (document_text mixed_pieces) true ]}.

(** The process before any call, in the directory [/w]. *)
Definition idle (fs : filesystem) : World :=
  {| sessionManager :=
       {| session := None; server := None; workingDirectory := "/w" |};
     instrumenter := None;
     files := fs |}.

Definition first_env : Env :=
  {| uuid := "1a2b3c4d-0000-4000-8000-000000000000"; now := 1000;
     port_free := true |}.

Definition second_env : Env :=
  {| uuid := "5e6f7a8b-0000-4000-8000-000000000000"; now := 2000;
     port_free := true |}.

Definition two_files : filesystem :=
  <[ "/w/b.js" := RegularFile two_lines true ]> two_line_file.

(** A session was started in [/w]. *)
Definition started : World :=
  snd (call_tool example_runtime first_env (start_debug_session None)
         (idle two_files)).

(** Then one instrument was added to [a.js] and one to [b.js]. *)
Definition instrumented : World :=
  snd (call_tool example_runtime second_env
         (add_instrument (Some "b.js") (Some 1%Z) None)
         (snd (call_tool example_runtime first_env
                 (add_instrument (Some "a.js") (Some 1%Z) None) started))).

(** [chmod a-w path], done by the user. *)
Definition write_protect (path : string) (w : World) : World :=
  {| sessionManager := sessionManager w;
     instrumenter := instrumenter w;
     files :=
       match files w !! path with
       | Some (RegularFile content _) =>
           <[path := RegularFile content false]> (files w)
       | _ => files w
       end |}.

(** The log file was deleted by the user. *)
Definition without_file (path : string) (w : World) : World :=
  {| sessionManager := sessionManager w;
     instrumenter := instrumenter w;
     files := delete path (files w) |}.

Definition log_request (chunks : list string) : Request :=
  {| method := "POST"; url := "/log"; chunks := chunks |}.

Definition example_server : DebugLogServer :=
  {| http_server := Some true; server_port := 9876;
     server_logFile := "/w/debug.log" |}.

(** A text in which a region sits between the two halves of an opening
    marker. *)
Definition split_marker_text : string :=
  "// #region claude-" +:+ "// #region claude-debug-X" +:+ NL
  +:+ "// #endregion" +:+ NL
  +:+ "debug-X" +:+ NL +:+ "keep" +:+ NL +:+ "// #endregion" +:+ NL.

(** The two texts that [hasInstruments] looks for. *)
Definition c_probe : string := "#region " +:+ REGION_PREFIX +:+ "-".
Definition python_probe : string := "# region " +:+ REGION_PREFIX +:+ "-".

(** ** The process between two calls

    The files as something other than the tools has left them: the Log
    Collector, the user, the program under debug. *)
Definition with_files (w : World) (fs : filesystem) : World :=
  {| sessionManager := sessionManager w;
     instrumenter := instrumenter w;
     files := fs |}.

(** The session of [started] after its Log Collector took one entry. *)
Definition posted : World :=
  with_files started
    (snd (Collector.handleRequest example_runtime example_server first_env
            (log_request [JSON_stringify example_entry]) (files started))).

(** ** What the tools keep

    [invariant P m]: whenever [P] holds of the world in which [m] starts,
    it holds of the world that [m] leaves, whether [m] returns or throws. *)
Definition invariant {A : Type} (P : World -> Prop) (m : M A) : Prop :=
  forall w, P w -> P (snd (m w)).

(** The two tools that begin and end a session. *)
Definition lifecycle (call : ToolCall) : bool :=
  match call with
  | start_debug_session _ | stop_debug_session => true
  | _ => false
  end.

(** The same session but for its instruments. *)
Definition same_session (a b : option DebugSession) : Prop :=
  match a, b with
  | None, None => True
  | Some s, Some s' =>
      session_id s' = session_id s
      /\ session_port s' = session_port s
      /\ startedAt s' = startedAt s
      /\ logFile s' = logFile s
  | _, _ => False
  end.

Definition same_setting (w w' : World) : Prop :=
  same_session (session (sessionManager w)) (session (sessionManager w'))
  /\ server (sessionManager w') = server (sessionManager w)
  /\ workingDirectory (sessionManager w') = workingDirectory (sessionManager w)
  /\ instrumenter w' = instrumenter w.

(** The Instrumenter exists exactly while a session is active, and it
    writes blocks that post to the port on which the Log Collector of the
    session listens; the Log Collector appends to the log file of the
    session, which is [debug.log] in the working directory. *)
Definition coherent (rt : Runtime) (w : World) : Prop :=
  match session (sessionManager w) with
  | Some s =>
      instrumenter w = Some {| port := session_port s |}
      /\ server (sessionManager w)
         = Some {| http_server := Some true;
                   server_port := session_port s;
                   server_logFile := logFile s |}
      /\ logFile s = resolve rt (workingDirectory (sessionManager w)) "debug.log"
  | None => instrumenter w = None
  end.

(** Every instrument of the map is held under its own identifier, and no
    identifier is held twice. *)
Definition keyed (m : list (string * Instrument)) : Prop :=
  NoDup (map fst m) /\ Forall (fun kv => fst kv = id (snd kv)) m.

Definition registry_ok (w : World) : Prop :=
  match session (sessionManager w) with
  | Some s => keyed (instruments s)
  | None => True
  end.

(** One call after the other, each with what it draws from outside. *)
Fixpoint run (rt : Runtime) (calls : list (Env * ToolCall)) (w : World) : World :=
  match calls with
  | [] => w
  | (env, call) :: rest => run rt rest (snd (call_tool rt env call w))
  end.


(** The file of the instrument is missing, or it is a regular file that can
    be written: [removeInstrument] has nothing to throw. *)
Definition removable (fs : filesystem) (instrument : Instrument) : bool :=
  match fs !! file instrument with
  | Some (RegularFile _ true) | None => true
  | _ => false
  end.

(** * Properties *)

(** ** Text *)

Lemma append_nil_r (s : string) : s +:+ EmptyString = s.
Proof. induction s as [|c s IH]; simpl; [reflexivity | now f_equal]. Qed.

Lemma append_assoc (a b c : string) : (a +:+ b) +:+ c = a +:+ (b +:+ c).
Proof. induction a as [|x a IH]; simpl; [reflexivity | now f_equal]. Qed.

Lemma length_append (a b : string) :
  String.length (a +:+ b) = String.length a + String.length b.
Proof. induction a as [|x a IH]; simpl; [reflexivity | now f_equal]. Qed.

Lemma strip_prefix_app (p s : string) : strip_prefix p (p +:+ s) = Some s.
Proof.
  induction p as [|a p IH]; simpl; [reflexivity|].
  now rewrite Ascii.eqb_refl.
Qed.

Lemma strip_prefix_Some (p s r : string) :
  strip_prefix p s = Some r -> s = p +:+ r.
Proof.
  revert s. induction p as [|a p IH]; intros s H; simpl in *.
  - congruence.
  - destruct s as [|b s]; [discriminate|].
    destruct (Ascii.eqb_spec a b) as [->|]; [|discriminate].
    now rewrite (IH _ H).
Qed.

Lemma lacks_append (c : ascii) (a b : string) :
  lacks c (a +:+ b) = lacks c a && lacks c b.
Proof.
  induction a as [|x a IH]; simpl; [reflexivity|].
  rewrite IH. now rewrite andb_assoc.
Qed.

Lemma after_newline_line (a s : string) :
  lacks newline a = true -> after_newline (a +:+ NL +:+ s) = Some s.
Proof.
  induction a as [|x a IH]; simpl; intros H.
  - reflexivity.
  - apply andb_prop in H as [Hx Ha].
    destruct (Ascii.eqb x newline); [discriminate|]. auto.
Qed.

Lemma after_newline_None (s : string) :
  after_newline s = None <-> lacks newline s = true.
Proof.
  induction s as [|x s IH]; simpl; [tauto|].
  destruct (Ascii.eqb x newline); simpl; [split; discriminate | exact IH].
Qed.

Lemma after_newline_Some (s r : string) :
  after_newline s = Some r ->
  exists a, lacks newline a = true /\ s = a +:+ NL +:+ r.
Proof.
  induction s as [|x s IH]; simpl; [discriminate|].
  destruct (Ascii.eqb_spec x newline) as [->|Hx]; intros H.
  - injection H as ->. exists EmptyString. split; reflexivity.
  - destruct (IH H) as (a & Ha & ->).
    exists (String x a). simpl. split; [|reflexivity].
    apply Ascii.eqb_neq in Hx. now rewrite Hx.
Qed.

Lemma find_after_Some (p s r : string) :
  find_after p s = Some r -> exists b, s = b +:+ p +:+ r.
Proof.
  induction s as [|x s IH]; simpl.
  - destruct (strip_prefix p EmptyString) eqn:E; [|discriminate].
    intros [= ->]. exists EmptyString. simpl. now apply strip_prefix_Some.
  - destruct (strip_prefix p (String x s)) eqn:E.
    + intros [= ->]. exists EmptyString. simpl. now apply strip_prefix_Some.
    + intros H. destruct (IH H) as [b ->]. now exists (String x b).
Qed.

Lemma find_after_occurs (p s : string) :
  find_after p s = None <-> occurs p s = false.
Proof.
  induction s as [|x s IH]; simpl.
  - destruct (strip_prefix p EmptyString); split; congruence.
  - destruct (strip_prefix p (String x s)); [split; congruence | exact IH].
Qed.

Lemma end_of_line_length (s : string) :
  String.length (end_of_line s) <= String.length s.
Proof.
  unfold end_of_line. destruct (after_newline s) as [r|] eqn:E; simpl; [|lia].
  destruct (after_newline_Some _ _ E) as (a & _ & ->).
  rewrite !length_append. simpl. lia.
Qed.

(** A match is never empty: the search for the next one makes progress. *)
Lemma exec_shorter (p : RegionPattern) (s r : string) :
  exec p s = Some r -> String.length r < String.length s.
Proof.
  unfold exec.
  destruct (strip_prefix (open_marker p) s) as [x|] eqn:E1; [|discriminate].
  destruct (after_newline x) as [y|] eqn:E2; [|discriminate].
  destruct (find_after (close_marker p) y) as [z|] eqn:E3; [|discriminate].
  intros [= <-].
  apply strip_prefix_Some in E1 as ->.
  apply after_newline_Some in E2 as (a & _ & ->).
  apply find_after_Some in E3 as (b & ->).
  pose proof (end_of_line_length z).
  rewrite !length_append. simpl. lia.
Qed.

Lemma replace_from_enough (p : RegionPattern) (n : nat) (s : string) :
  String.length s <= n -> replace_from n p s = replace p s.
Proof.
  unfold replace. revert s.
  induction n as [n IH] using lt_wf_ind. intros s Hn.
  destruct s as [|c s]; [now destruct n|].
  destruct n as [|n]; [simpl in Hn; lia|]. simpl in *.
  destruct (exec p (String c s)) as [r|] eqn:E.
  - apply exec_shorter in E. simpl in E.
    rewrite (IH n) by lia. now rewrite (IH (String.length s)) by lia.
  - f_equal. apply IH; lia.
Qed.

Lemma replace_nil (p : RegionPattern) : replace p EmptyString = EmptyString.
Proof. reflexivity. Qed.

Lemma replace_cons (p : RegionPattern) (c : ascii) (s : string) :
  replace p (String c s) =
  match exec p (String c s) with
  | Some rest => replace p rest
  | None => String c (replace p s)
  end.
Proof.
  unfold replace at 1. simpl.
  destruct (exec p (String c s)) as [r|] eqn:E.
  - apply exec_shorter in E. simpl in E. apply replace_from_enough. lia.
  - reflexivity.
Qed.

Lemma match_from_enough (p : RegionPattern) (n : nat) (s : string) :
  String.length s <= n -> match_from n p s = match_count p s.
Proof.
  unfold match_count. revert s.
  induction n as [n IH] using lt_wf_ind. intros s Hn.
  destruct s as [|c s]; [now destruct n|].
  destruct n as [|n]; [simpl in Hn; lia|]. simpl in *.
  destruct (exec p (String c s)) as [r|] eqn:E.
  - apply exec_shorter in E. simpl in E.
    rewrite (IH n) by lia. now rewrite (IH (String.length s)) by lia.
  - apply IH; lia.
Qed.

Lemma match_count_cons (p : RegionPattern) (c : ascii) (s : string) :
  match_count p (String c s) =
  match exec p (String c s) with
  | Some rest => S (match_count p rest)
  | None => match_count p s
  end.
Proof.
  unfold match_count at 1. simpl.
  destruct (exec p (String c s)) as [r|] eqn:E.
  - apply exec_shorter in E. simpl in E. f_equal. apply match_from_enough. lia.
  - reflexivity.
Qed.

Lemma occurs_true (q s : string) :
  occurs q s = true -> exists x y, s = x +:+ q +:+ y.
Proof.
  induction s as [|c s IH]; simpl.
  - destruct (strip_prefix q EmptyString) as [r|] eqn:E; [|discriminate].
    intros _. exists EmptyString, r. simpl. now apply strip_prefix_Some.
  - destruct (strip_prefix q (String c s)) as [r|] eqn:E.
    + intros _. exists EmptyString, r. simpl. now apply strip_prefix_Some.
    + intros H. destruct (IH H) as (x & y & ->). now exists (String c x), y.
Qed.

Lemma occurs_append_r (q x y : string) :
  occurs q y = true -> occurs q (x +:+ y) = true.
Proof.
  intros H. induction x as [|c x IH]; simpl; [exact H|].
  rewrite IH. now destruct (strip_prefix q (String c (x +:+ y))).
Qed.

(** A text that lacks one of the characters of [q] does not hold [q]. *)
Lemma occurs_lacks (c : ascii) (q s : string) :
  lacks c s = true -> lacks c q = false -> occurs q s = false.
Proof.
  intros Hs Hq. destruct (occurs q s) eqn:E; [|reflexivity].
  apply occurs_true in E as (x & y & ->).
  rewrite !lacks_append, Hq in Hs.
  now rewrite andb_false_r in Hs.
Qed.

Lemma occurs_nil (q : string) :
  q <> EmptyString -> occurs q EmptyString = false.
Proof. destruct q; [congruence | reflexivity]. Qed.

Lemma strip_prefix_append (q u r z : string) :
  strip_prefix q u = Some r -> strip_prefix q (u +:+ z) = Some (r +:+ z).
Proof.
  revert u. induction q as [|a q IH]; intros u; simpl.
  - now intros [= ->].
  - destruct u as [|b u]; [discriminate|]. simpl.
    destruct (Ascii.eqb a b); [apply IH | discriminate].
Qed.

(** ** Markers and lines

    A marker holds no newline, so whether it starts at some place of a line
    does not depend on the lines that follow. *)

Section Markers.
Variable q : string.
Hypothesis q_line : lacks newline q = true.
Hypothesis q_nonempty : q <> EmptyString.

Lemma strip_prefix_newline (u x : string) :
  strip_prefix q u = None -> strip_prefix q (u +:+ NL +:+ x) = None.
Proof using q_line.
  clear q_nonempty. revert u q_line.
  induction q as [|a q' IH]; intros u Hq; simpl; [discriminate|].
  simpl in Hq. apply andb_prop in Hq as [Ha Hq].
  destruct u as [|b u]; simpl.
  - intros _. apply negb_true_iff in Ha. now rewrite Ha.
  - destruct (Ascii.eqb a b); [now apply IH | reflexivity].
Qed.

Lemma occurs_line (u v : string) :
  occurs q (u +:+ NL +:+ v) = occurs q u || occurs q v.
Proof using q_line q_nonempty.
  induction u as [|b u IH].
  - rewrite occurs_nil by assumption. simpl.
    destruct q as [|a q']; [congruence|]. simpl in *.
    apply andb_prop in q_line as [Ha _]. apply negb_true_iff in Ha.
    now rewrite Ha.
  - change (String b u +:+ NL +:+ v) with (String b (u +:+ NL +:+ v)).
    cbn [occurs]. rewrite IH.
    destruct (strip_prefix q (String b u)) as [r|] eqn:E.
    + change (String b (u +:+ NL +:+ v)) with (String b u +:+ NL +:+ v).
      now rewrite (strip_prefix_append _ _ _ _ E).
    + change (String b (u +:+ NL +:+ v)) with (String b u +:+ NL +:+ v).
      now rewrite (strip_prefix_newline _ _ E).
Qed.

Lemma find_after_line (u v : string) :
  occurs q u = false -> find_after q (u +:+ NL +:+ v) = find_after q v.
Proof using q_line q_nonempty.
  induction u as [|b u IH]; intros H.
  - simpl. destruct q as [|a q']; [congruence|]. simpl in *.
    apply andb_prop in q_line as [Ha _]. apply negb_true_iff in Ha.
    now rewrite Ha.
  - cbn [occurs] in H.
    destruct (strip_prefix q (String b u)) as [r|] eqn:E; [discriminate|].
    change (String b u +:+ NL +:+ v) with (String b (u +:+ NL +:+ v)).
    cbn [find_after].
    change (String b (u +:+ NL +:+ v)) with (String b u +:+ NL +:+ v).
    rewrite (strip_prefix_newline _ _ E). now apply IH.
Qed.
End Markers.

(** ** One region expression over the lines of a text *)

Lemma line_cases (s : string) :
  lacks newline s = true \/
  exists l rest, lacks newline l = true /\ s = l +:+ NL +:+ rest.
Proof.
  destruct (after_newline s) as [r|] eqn:E.
  - right. apply after_newline_Some in E as (a & Ha & ->). eauto.
  - left. now apply after_newline_None.
Qed.

Lemma replace_settled (p : RegionPattern) (s : string) :
  settled p s = true -> replace p s = s.
Proof.
  induction s as [|c s IH]; [reflexivity|].
  rewrite replace_cons. cbn [settled].
  destruct (exec p (String c s)); [discriminate|].
  intros H. now rewrite IH.
Qed.

Lemma match_count_settled (p : RegionPattern) (s : string) :
  settled p s = true -> match_count p s = 0.
Proof.
  induction s as [|c s IH]; [reflexivity|].
  rewrite match_count_cons. cbn [settled].
  destruct (exec p (String c s)); [discriminate | exact IH].
Qed.

Lemma exec_open (p : RegionPattern) (s : string) :
  strip_prefix (open_marker p) s = None -> exec p s = None.
Proof. unfold exec. now intros ->. Qed.

Lemma settled_not_occurs (p : RegionPattern) (s : string) :
  occurs (open_marker p) s = false -> settled p s = true.
Proof.
  induction s as [|c s IH]; cbn [occurs settled].
  - destruct (strip_prefix (open_marker p) EmptyString) eqn:E; [discriminate|].
    now rewrite (exec_open _ _ E).
  - destruct (strip_prefix (open_marker p) (String c s)) eqn:E; [discriminate|].
    now rewrite (exec_open _ _ E).
Qed.

Section Regions.
Variable p : RegionPattern.
Hypothesis open_line : lacks newline (open_marker p) = true.
Hypothesis open_nonempty : open_marker p <> EmptyString.
Hypothesis close_line : lacks newline (close_marker p) = true.
Hypothesis close_nonempty : close_marker p <> EmptyString.

(** The match needs a newline after the opening marker. *)
Lemma exec_no_newline (s : string) :
  lacks newline s = true -> exec p s = None.
Proof.
  intros H. unfold exec.
  destruct (strip_prefix (open_marker p) s) as [x|] eqn:E; [|reflexivity].
  apply strip_prefix_Some in E as ->.
  rewrite lacks_append in H. apply andb_prop in H as [_ H].
  apply after_newline_None in H. now rewrite H.
Qed.

(** At the start of a line only that line and the text that follows it
    matter: the line must open a region and the rest must close it. *)
Lemma exec_line (l rest : string) :
  lacks newline l = true ->
  exec p (l +:+ NL +:+ rest) =
  match strip_prefix (open_marker p) l with
  | None => None
  | Some _ =>
      match find_after (close_marker p) rest with
      | None => None
      | Some z => Some (end_of_line z)
      end
  end.
Proof using open_line open_nonempty.
  intros Hl. unfold exec.
  destruct (strip_prefix (open_marker p) l) as [r|] eqn:E.
  - rewrite (strip_prefix_append _ _ _ _ E).
    apply strip_prefix_Some in E. rewrite E, lacks_append in Hl.
    apply andb_prop in Hl as [_ Hr].
    now rewrite (after_newline_line _ _ Hr).
  - now rewrite (strip_prefix_newline _ open_line _ _ E).
Qed.

Lemma settled_no_newline (s : string) :
  lacks newline s = true -> settled p s = true.
Proof.
  induction s as [|c s IH]; intros H; cbn [settled].
  - now rewrite exec_no_newline.
  - rewrite (exec_no_newline _ H). simpl in H.
    apply andb_prop in H as [_ H]. auto.
Qed.

(** A stretch of a line that does not hold the opening marker is passed
    over, character by character. *)
Lemma exec_skip (u x : string) :
  occurs (open_marker p) u = false -> exec p (u +:+ NL +:+ x) = None.
Proof using open_line open_nonempty.
  intros H. apply exec_open. apply strip_prefix_newline; [assumption|].
  destruct u; cbn [occurs] in H;
    destruct (strip_prefix (open_marker p) _); congruence.
Qed.

Lemma occurs_tail (q : string) (c : ascii) (u : string) :
  occurs q (String c u) = false -> occurs q u = false.
Proof.
  cbn [occurs]. now destruct (strip_prefix q (String c u)).
Qed.

Lemma replace_skip (u x : string) :
  occurs (open_marker p) u = false ->
  replace p (u +:+ NL +:+ x) = u +:+ NL +:+ replace p x.
Proof using open_line open_nonempty.
  induction u as [|c u IH]; intros H.
  - change (EmptyString +:+ NL +:+ x) with (String newline x).
    rewrite replace_cons.
    change (String newline x) with (EmptyString +:+ NL +:+ x).
    now rewrite (exec_skip _ _ H).
  - change (String c u +:+ NL +:+ x) with (String c (u +:+ NL +:+ x)).
    rewrite replace_cons.
    change (String c (u +:+ NL +:+ x)) with (String c u +:+ NL +:+ x).
    rewrite (exec_skip _ _ H). simpl. f_equal.
    apply IH. now apply occurs_tail in H.
Qed.

Lemma match_count_skip (u x : string) :
  occurs (open_marker p) u = false ->
  match_count p (u +:+ NL +:+ x) = match_count p x.
Proof using open_line open_nonempty.
  induction u as [|c u IH]; intros H.
  - change (EmptyString +:+ NL +:+ x) with (String newline x).
    rewrite match_count_cons.
    change (String newline x) with (EmptyString +:+ NL +:+ x).
    now rewrite (exec_skip _ _ H).
  - change (String c u +:+ NL +:+ x) with (String c (u +:+ NL +:+ x)).
    rewrite match_count_cons.
    change (String c (u +:+ NL +:+ x)) with (String c u +:+ NL +:+ x).
    rewrite (exec_skip _ _ H).
    apply IH. now apply occurs_tail in H.
Qed.

Lemma settled_skip (u x : string) :
  occurs (open_marker p) u = false ->
  settled p (u +:+ NL +:+ x) = settled p x.
Proof using open_line open_nonempty.
  induction u as [|c u IH]; intros H.
  - change (EmptyString +:+ NL +:+ x) with (String newline x).
    cbn [settled].
    change (String newline x) with (EmptyString +:+ NL +:+ x).
    now rewrite (exec_skip _ _ H).
  - change (String c u +:+ NL +:+ x) with (String c (u +:+ NL +:+ x)).
    cbn [settled].
    change (String c (u +:+ NL +:+ x)) with (String c u +:+ NL +:+ x).
    rewrite (exec_skip _ _ H).
    apply IH. now apply occurs_tail in H.
Qed.
End Regions.

(** ** Removing twice *)

Lemma end_of_line_suffix (z : string) : exists t, z = t +:+ end_of_line z.
Proof.
  unfold end_of_line. destruct (after_newline z) as [r|] eqn:E.
  - apply after_newline_Some in E as (a & _ & ->).
    exists (a +:+ NL). now rewrite append_assoc.
  - exists z. now rewrite append_nil_r.
Qed.

Lemma exec_Some_suffix (p : RegionPattern) (s r : string) :
  exec p s = Some r -> exists t, s = t +:+ r.
Proof.
  unfold exec.
  destruct (strip_prefix (open_marker p) s) as [x|] eqn:E1; [|discriminate].
  destruct (after_newline x) as [y|] eqn:E2; [|discriminate].
  destruct (find_after (close_marker p) y) as [z|] eqn:E3; [|discriminate].
  intros [= <-].
  apply strip_prefix_Some in E1 as ->.
  apply after_newline_Some in E2 as (a & _ & ->).
  apply find_after_Some in E3 as (b & ->).
  destruct (end_of_line_suffix z) as [t Ht].
  exists (open_marker p +:+ a +:+ NL +:+ b +:+ close_marker p +:+ t).
  rewrite Ht at 1. now rewrite !append_assoc.
Qed.

Lemma marker_at_bol_weaken (q : string) (b : bool) (s : string) :
  marker_at_bol q b s = true -> marker_at_bol q true s = true.
Proof.
  destruct s as [|c s]; [reflexivity|]. cbn [marker_at_bol].
  intros H. apply andb_prop in H as [_ ->].
  now destruct (strip_prefix q (String c s)).
Qed.

Lemma marker_at_bol_suffix (q : string) (x y : string) (b : bool) :
  marker_at_bol q b (x +:+ y) = true -> marker_at_bol q true y = true.
Proof.
  revert b. induction x as [|c x IH]; intros b; simpl.
  - apply marker_at_bol_weaken.
  - intros H. apply andb_prop in H as [_ H]. eauto.
Qed.

Lemma marker_at_bol_after_newline (q : string) (s r : string) (b : bool) :
  marker_at_bol q b s = true -> after_newline s = Some r ->
  marker_at_bol q true r = true.
Proof.
  revert b. induction s as [|c s IH]; intros b; simpl; [discriminate|].
  intros H. apply andb_prop in H as [_ H].
  destruct (Ascii.eqb c newline); [now intros [= <-] | eauto].
Qed.

Lemma marker_at_bol_end_of_line (q : string) (z : string) (b : bool) :
  marker_at_bol q b z = true -> marker_at_bol q true (end_of_line z) = true.
Proof.
  intros H. unfold end_of_line.
  destruct (after_newline z) as [r|] eqn:E; [|reflexivity].
  eapply marker_at_bol_after_newline; eauto.
Qed.

Section Idempotence.
Variable p : RegionPattern.
Hypothesis open_line : lacks newline (open_marker p) = true.
Hypothesis open_nonempty : open_marker p <> EmptyString.
Hypothesis close_line : lacks newline (close_marker p) = true.
Hypothesis close_nonempty : close_marker p <> EmptyString.

Let q := open_marker p.

(** Inside a line the marker does not occur. *)
Lemma marker_at_bol_inside (u rest : string) :
  lacks newline u = true ->
  marker_at_bol q false (u +:+ NL +:+ rest) = true ->
  occurs q u = false /\ marker_at_bol q true rest = true.
Proof using open_line open_nonempty.
  induction u as [|c u IH]; intros Hu H.
  - split; [now apply occurs_nil|].
    simpl in H. apply andb_prop in H as [_ H]. exact H.
  - change (String c u +:+ NL +:+ rest) with (String c (u +:+ NL +:+ rest)) in H.
    cbn [marker_at_bol] in H. apply andb_prop in H as [H1 H2].
    simpl in Hu. apply andb_prop in Hu as [Hc Hu].
    apply negb_true_iff in Hc. rewrite Hc in H2.
    destruct (IH Hu H2) as [Ho Hr]. split; [|exact Hr].
    cbn [occurs]. rewrite Ho.
    destruct (strip_prefix q (String c u)) as [r|] eqn:E; [|reflexivity].
    change (String c (u +:+ NL +:+ rest)) with (String c u +:+ NL +:+ rest) in H1.
    now rewrite (strip_prefix_append _ _ _ _ E) in H1.
Qed.

Lemma marker_at_bol_first (c : ascii) (u rest : string) :
  lacks newline (String c u) = true ->
  marker_at_bol q true (String c u +:+ NL +:+ rest) = true ->
  occurs q u = false /\ marker_at_bol q true rest = true.
Proof using open_line open_nonempty.
  intros Hu H.
  change (String c u +:+ NL +:+ rest) with (String c (u +:+ NL +:+ rest)) in H.
  cbn [marker_at_bol] in H. apply andb_prop in H as [_ H].
  simpl in Hu. apply andb_prop in Hu as [Hc Hu].
  apply negb_true_iff in Hc. rewrite Hc in H.
  now apply marker_at_bol_inside.
Qed.

(** A line that is kept is followed by what is kept of the rest. *)
Lemma replace_line_kept (l rest : string) :
  lacks newline l = true ->
  marker_at_bol q true (l +:+ NL +:+ rest) = true ->
  exec p (l +:+ NL +:+ rest) = None ->
  replace p (l +:+ NL +:+ rest) = l +:+ NL +:+ replace p rest.
Proof using open_line open_nonempty.
  intros Hl Hb He. destruct l as [|c l].
  - change (EmptyString +:+ NL +:+ rest) with (String newline rest) in *.
    now rewrite replace_cons, He.
  - destruct (marker_at_bol_first _ _ _ Hl Hb) as [Ho _].
    change (String c l +:+ NL +:+ rest) with (String c (l +:+ NL +:+ rest)) in *.
    rewrite replace_cons, He.
    now rewrite (replace_skip p open_line open_nonempty _ _ Ho).
Qed.

Lemma settled_line_kept (l x : string) :
  lacks newline l = true ->
  (forall c u, l = String c u -> occurs q u = false) ->
  exec p (l +:+ NL +:+ x) = None ->
  settled p (l +:+ NL +:+ x) = settled p x.
Proof using open_line open_nonempty.
  intros Hl Ho He. destruct l as [|c l].
  - change (EmptyString +:+ NL +:+ x) with (String newline x) in *.
    cbn [settled]. now rewrite He.
  - change (String c l +:+ NL +:+ x) with (String c (l +:+ NL +:+ x)) in *.
    cbn [settled]. rewrite He.
    apply (settled_skip p open_line open_nonempty). now apply (Ho c l).
Qed.

Lemma replace_stable_aux (n : nat) (s : string) :
  String.length s <= n ->
  marker_at_bol q true s = true ->
  settled p (replace p s) = true /\
  (occurs (close_marker p) s = false ->
   occurs (close_marker p) (replace p s) = false).
Proof using open_line open_nonempty close_line close_nonempty.
  revert s. induction n as [n IH] using lt_wf_ind. intros s Hn Hb.
  destruct (line_cases s) as [Hs | (l & rest & Hl & ->)].
  - pose proof (settled_no_newline p s Hs) as Hset.
    rewrite (replace_settled _ _ Hset). auto.
  - assert (Hrest : marker_at_bol q true rest = true).
    { eapply marker_at_bol_suffix with (x := l +:+ NL).
      rewrite append_assoc. exact Hb. }
    assert (Hin : forall c u, l = String c u -> occurs q u = false).
    { intros c u ->. now destruct (marker_at_bol_first _ _ _ Hl Hb). }
    assert (Hlen : String.length rest < String.length (l +:+ NL +:+ rest)).
    { rewrite !length_append. simpl. lia. }
    destruct (exec p (l +:+ NL +:+ rest)) as [r|] eqn:He.
    + pose proof (exec_shorter _ _ _ He) as Hr.
      pose proof (exec_Some_suffix _ _ _ He) as [t Ht].
      assert (Hrb : marker_at_bol q true r = true).
      { rewrite (exec_line p open_line open_nonempty _ _ Hl) in He.
        destruct (strip_prefix (open_marker p) l); [|discriminate].
        destruct (find_after (close_marker p) rest) as [z|] eqn:Ez; [|discriminate].
        injection He as <-.
        apply find_after_Some in Ez as (b & ->).
        eapply marker_at_bol_end_of_line.
        eapply marker_at_bol_suffix with (x := b +:+ close_marker p).
        rewrite append_assoc. exact Hrest. }
      assert (Hrep : replace p (l +:+ NL +:+ rest) = replace p r).
      { destruct l; simpl in *; now rewrite replace_cons, He. }
      rewrite Hrep.
      destruct (IH (String.length r) ltac:(lia) r (le_n _) Hrb) as [H1 H2].
      split; [exact H1|]. intros Hc. apply H2.
      destruct (occurs (close_marker p) r) eqn:Er; [|reflexivity].
      rewrite Ht in Hc. now rewrite (occurs_append_r _ t _ Er) in Hc.
    + rewrite (replace_line_kept _ _ Hl Hb He).
      destruct (IH (String.length rest) ltac:(lia) rest (le_n _) Hrest) as [H1 H2].
      split.
      * rewrite settled_line_kept; [exact H1 | exact Hl | exact Hin |].
        rewrite (exec_line p open_line open_nonempty l rest Hl) in He.
        rewrite (exec_line p open_line open_nonempty l _ Hl).
        destruct (strip_prefix (open_marker p) l); [|reflexivity].
        destruct (find_after (close_marker p) rest) as [z|] eqn:Ez; [discriminate|].
        apply find_after_occurs in Ez. apply H2 in Ez.
        apply find_after_occurs in Ez. now rewrite Ez.
      * rewrite !(occurs_line _ close_line close_nonempty).
        intros Hc. apply orb_false_elim in Hc as [-> Hc].
        now rewrite (H2 Hc).
Qed.

(** What one removal leaves holds no region any more. *)
Lemma replace_stable (s : string) :
  marker_at_bol q true s = true -> settled p (replace p s) = true.
Proof using open_line open_nonempty close_line close_nonempty.
  intros H. now apply (replace_stable_aux (String.length s) s (le_n _)).
Qed.

Lemma replace_idempotent (s : string) :
  marker_at_bol q true s = true -> replace p (replace p s) = replace p s.
Proof using open_line open_nonempty close_line close_nonempty.
  intros H. apply replace_settled. now apply replace_stable.
Qed.
End Idempotence.

(** ** Lines *)

Lemma join_lines_cons (x y : string) (ls : list string) :
  join_lines (x :: y :: ls) = x +:+ NL +:+ join_lines (y :: ls).
Proof. reflexivity. Qed.

Lemma join_lines_app (xs ys : list string) :
  ys <> [] -> join_lines (xs ++ ys) = terminated xs +:+ join_lines ys.
Proof.
  intros Hys. induction xs as [|x xs IH]; [reflexivity|].
  cbn [app terminated]. rewrite !append_assoc, <- IH.
  destruct (xs ++ ys) as [|z zs] eqn:E.
  - apply app_eq_nil in E as [_ ->]. congruence.
  - now rewrite join_lines_cons.
Qed.

Lemma terminated_join (ls : list string) :
  ls <> [] -> terminated ls = join_lines ls +:+ NL.
Proof.
  induction ls as [|x ls IH]; [congruence|]. intros _.
  destruct ls as [|y ls].
  - cbn. now rewrite ?append_nil_r.
  - rewrite join_lines_cons. cbn [terminated] in *.
    rewrite IH by congruence. now rewrite !append_assoc.
Qed.

Lemma split_lines_nonempty (s : string) : split_lines s <> [].
Proof.
  induction s as [|c s IH]; simpl; [congruence|].
  destruct (Ascii.eqb c newline); [congruence|].
  destruct (split_lines s); congruence.
Qed.

Lemma join_split (s : string) : join_lines (split_lines s) = s.
Proof.
  induction s as [|c s IH]; [reflexivity|]. simpl.
  destruct (Ascii.eqb_spec c newline) as [->|Hc].
  - pose proof (split_lines_nonempty s) as Hne.
    destruct (split_lines s) as [|l ls]; [congruence|].
    rewrite join_lines_cons, IH. reflexivity.
  - pose proof (split_lines_nonempty s) as Hne.
    destruct (split_lines s) as [|l ls]; [congruence|].
    destruct ls as [|l' ls].
    + cbn in *. now rewrite IH.
    + rewrite join_lines_cons in *.
      change (String c l +:+ NL +:+ join_lines (l' :: ls))
        with (String c (l +:+ NL +:+ join_lines (l' :: ls))).
      now rewrite IH.
Qed.

Lemma split_lines_lacks (s : string) :
  Forall (fun l => lacks newline l = true) (split_lines s).
Proof.
  induction s as [|c s IH]; simpl; [repeat constructor|].
  destruct (Ascii.eqb c newline) eqn:Hc.
  - constructor; [reflexivity | exact IH].
  - destruct (split_lines s) as [|l ls]; [repeat constructor; simpl; now rewrite Hc|].
    inversion IH; subst. constructor; [|assumption].
    simpl. now rewrite Hc.
Qed.

Section MarkerLines.
Variable q : string.
Hypothesis q_line : lacks newline q = true.
Hypothesis q_nonempty : q <> EmptyString.

Lemma occurs_terminated (ls : list string) (x : string) :
  occurs q (terminated ls +:+ x) = false <->
  Forall (fun l => occurs q l = false) ls /\ occurs q x = false.
Proof using q_line q_nonempty.
  induction ls as [|l ls IH]; cbn [terminated].
  - simpl. split; [intros H; split; [constructor | exact H] | tauto].
  - rewrite !append_assoc, (occurs_line q q_line q_nonempty).
    rewrite orb_false_iff, IH, Forall_cons. tauto.
Qed.

Lemma occurs_join_lines (ls : list string) :
  occurs q (join_lines ls) = false <-> Forall (fun l => occurs q l = false) ls.
Proof using q_line q_nonempty.
  destruct ls as [|l ls] using rev_ind.
  - change (join_lines []) with EmptyString.
    rewrite occurs_nil by assumption. split; [constructor | reflexivity].
  - rewrite join_lines_app by congruence. cbn [join_lines String.concat].
    rewrite occurs_terminated, Forall_app, Forall_singleton. tauto.
Qed.
End MarkerLines.

(** ** One pass of a region expression over lines and regions *)

Section Pass.
Variable p : RegionPattern.
Hypothesis open_line : lacks newline (open_marker p) = true.
Hypothesis open_nonempty : open_marker p <> EmptyString.
Hypothesis close_line : lacks newline (close_marker p) = true.
Hypothesis close_nonempty : close_marker p <> EmptyString.

Lemma delimited_eq (orest : string) (body : list string) (crest : string) :
  delimited p orest body crest =
  (open_marker p +:+ orest) +:+ NL +:+ terminated body
    +:+ close_marker p +:+ crest.
Proof.
  unfold delimited.
  change ((open_marker p +:+ orest) :: body ++ [close_marker p +:+ crest])
    with ([open_marker p +:+ orest] ++ body ++ [close_marker p +:+ crest]).
  rewrite !join_lines_app by (try congruence; now destruct body).
  cbn [terminated join_lines String.concat].
  now rewrite !append_assoc.
Qed.

Lemma replace_terminated (ls : list string) (x : string) :
  Forall (fun l => occurs (open_marker p) l = false) ls ->
  replace p (terminated ls +:+ x) = terminated ls +:+ replace p x.
Proof using open_line open_nonempty.
  induction 1 as [|l ls Hl _ IH]; [reflexivity|].
  cbn [terminated]. rewrite !append_assoc.
  rewrite (replace_skip p open_line open_nonempty _ _ Hl). now rewrite IH.
Qed.

Lemma match_count_terminated (ls : list string) (x : string) :
  Forall (fun l => occurs (open_marker p) l = false) ls ->
  match_count p (terminated ls +:+ x) = match_count p x.
Proof using open_line open_nonempty.
  induction 1 as [|l ls Hl _ IH]; [reflexivity|].
  cbn [terminated]. rewrite !append_assoc.
  rewrite (match_count_skip p open_line open_nonempty _ _ Hl). now rewrite IH.
Qed.

Lemma find_after_terminated (body : list string) (x : string) :
  Forall (fun l => occurs (close_marker p) l = false) body ->
  find_after (close_marker p) (terminated body +:+ x)
  = find_after (close_marker p) x.
Proof using close_line close_nonempty.
  induction 1 as [|l ls Hl _ IH]; [reflexivity|].
  cbn [terminated]. rewrite !append_assoc.
  rewrite (find_after_line _ close_line close_nonempty _ _ Hl). exact IH.
Qed.

Lemma find_after_here (q x : string) : find_after q (q +:+ x) = Some x.
Proof.
  destruct (q +:+ x) eqn:E; cbn [find_after]; rewrite <- E;
    now rewrite strip_prefix_app.
Qed.

(** A region followed by a newline is matched with that newline. *)
Lemma exec_delimited (orest : string) (body : list string) (crest x : string) :
  lacks newline orest = true ->
  lacks newline crest = true ->
  Forall (fun l => occurs (close_marker p) l = false) body ->
  exec p (delimited p orest body crest +:+ NL +:+ x) = Some x.
Proof using open_line open_nonempty close_line close_nonempty.
  intros Ho Hc Hb. rewrite delimited_eq, !append_assoc.
  rewrite <- (append_assoc (open_marker p) orest).
  rewrite (exec_line p open_line open_nonempty).
  2:{ rewrite lacks_append. now rewrite open_line, Ho. }
  rewrite strip_prefix_app.
  rewrite (find_after_terminated _ _ Hb), find_after_here.
  unfold end_of_line. now rewrite (after_newline_line _ _ Hc).
Qed.

(** A region at the very end of the text is matched up to the end. *)
Lemma exec_delimited_last (orest : string) (body : list string) (crest : string) :
  lacks newline orest = true ->
  lacks newline crest = true ->
  Forall (fun l => occurs (close_marker p) l = false) body ->
  exec p (delimited p orest body crest) = Some EmptyString.
Proof using open_line open_nonempty close_line close_nonempty.
  intros Ho Hc Hb. rewrite delimited_eq, !append_assoc.
  rewrite <- (append_assoc (open_marker p) orest).
  rewrite (exec_line p open_line open_nonempty).
  2:{ rewrite lacks_append. now rewrite open_line, Ho. }
  rewrite strip_prefix_app.
  rewrite (find_after_terminated _ _ Hb), find_after_here.
  unfold end_of_line. apply after_newline_None in Hc. now rewrite Hc.
Qed.

Lemma exec_replace (s r : string) :
  exec p s = Some r -> replace p s = replace p r.
Proof.
  intros H. destruct s as [|c s].
  - apply exec_shorter in H. simpl in H. lia.
  - now rewrite replace_cons, H.
Qed.

Lemma exec_match_count (s r : string) :
  exec p s = Some r -> match_count p s = S (match_count p r).
Proof.
  intros H. destruct s as [|c s].
  - apply exec_shorter in H. simpl in H. lia.
  - now rewrite match_count_cons, H.
Qed.
End Pass.

(** ** The generated block is a region *)

Lemma lacks_string_of_uint (d : Decimal.uint) :
  lacks hash (NilEmpty.string_of_uint d) = true.
Proof. induction d; simpl; auto. Qed.

Lemma lacks_show_Z (z : Z) : lacks hash (show_Z z) = true.
Proof.
  unfold show_Z, NilZero.string_of_int, NilZero.string_of_uint.
  destruct (Z.to_int z) as [d|d]; destruct d; simpl;
    auto using lacks_string_of_uint.
Qed.

Lemma plain_identifier_lacks (c : ascii) (s : string) :
  identifier_char c = false -> plain_identifier s = true -> lacks c s = true.
Proof.
  intros Hc. induction s as [|a s IH]; simpl; [reflexivity|].
  intros H. apply andb_prop in H as [Ha Hs]. rewrite (IH Hs), andb_true_r.
  destruct (Ascii.eqb_spec a c) as [->|]; [congruence | reflexivity].
Qed.

Lemma lacks_join (c : ascii) (sep : string) (ls : list string) :
  lacks c sep = true -> forallb (lacks c) ls = true ->
  lacks c (join sep ls) = true.
Proof.
  intros Hsep. induction ls as [|l ls IH]; [reflexivity|].
  cbn [forallb]. intros H. apply andb_prop in H as [Hl Hls].
  destruct ls as [|l' ls]; [exact Hl|].
  unfold join in *. cbn [String.concat] in *.
  rewrite !lacks_append, Hl, Hsep. simpl. now apply IH.
Qed.

Lemma forallb_map_lacks (c : ascii) (f : string -> string) (ls : list string) :
  (forall v, lacks c v = true -> lacks c (f v) = true) ->
  forallb (lacks c) ls = true -> forallb (lacks c) (map f ls) = true.
Proof.
  intros Hf. induction ls as [|l ls IH]; [reflexivity|]. cbn [forallb map].
  intros H. apply andb_prop in H as [Hl Hls]. now rewrite (Hf _ Hl), IH.
Qed.

Lemma lacks_js_capture (v : string) :
  lacks hash v = true -> lacks hash (js_capture v) = true.
Proof. intros H. unfold js_capture. rewrite !lacks_append, !H. reflexivity. Qed.

Lemma lacks_py_capture (v : string) :
  lacks hash v = true -> lacks hash (py_capture v) = true.
Proof. intros H. unfold py_capture. rewrite !lacks_append, !H. reflexivity. Qed.

Lemma embeddable_parts (instrument : Instrument) :
  embeddable instrument = true ->
  lacks newline (id instrument) = true /\
  lacks hash (id instrument) = true /\
  lacks hash (file instrument) = true /\
  forallb (lacks hash) (capture instrument) = true.
Proof.
  unfold embeddable. intros H.
  apply andb_prop in H as [H Hc]. apply andb_prop in H as [Hi Hf].
  repeat split; try assumption;
    now apply plain_identifier_lacks.
Qed.

Lemma js_payload_lacks (this : Instrumenter) (instrument : Instrument) :
  embeddable instrument = true ->
  forallb (lacks hash) (js_payload this instrument) = true.
Proof.
  intros H. apply embeddable_parts in H as (_ & Hi & Hf & Hc).
  unfold js_payload. cbn [forallb].
  assert (Hd : lacks hash
    match capture instrument with
    | [] => "{}"
    | _ :: _ => "{ " +:+ join ", " (map js_capture (capture instrument)) +:+ " }"
    end = true).
  { destruct (capture instrument) as [|v vs]; [reflexivity|].
    rewrite !lacks_append, lacks_join;
      [reflexivity | reflexivity |].
    apply forallb_map_lacks; [apply lacks_js_capture | exact Hc]. }
  rewrite !lacks_append, Hd, Hi, Hf, !lacks_show_Z. reflexivity.
Qed.

Lemma py_payload_lacks (this : Instrumenter) (instrument : Instrument) :
  embeddable instrument = true ->
  forallb (lacks hash) (py_payload this instrument) = true.
Proof.
  intros H. apply embeddable_parts in H as (_ & Hi & Hf & Hc).
  unfold py_payload. cbn [forallb].
  assert (Hd : lacks hash
    match capture instrument with
    | [] => "{}"
    | _ :: _ => "{ " +:+ join ", " (map py_capture (capture instrument)) +:+ " }"
    end = true).
  { destruct (capture instrument) as [|v vs]; [reflexivity|].
    rewrite !lacks_append, lacks_join;
      [reflexivity | reflexivity |].
    apply forallb_map_lacks; [apply lacks_py_capture | exact Hc]. }
  rewrite !lacks_append, Hd, Hi, Hf, !lacks_show_Z. reflexivity.
Qed.

Lemma generated_delimited (this : Instrumenter) (instrument : Instrument) :
  generateInstrumentCode this instrument =
  delimited (pattern_of instrument) EmptyString (payload this instrument)
    (" " +:+ regionId_of instrument).
Proof.
  unfold generateInstrumentCode, pattern_of, payload, delimited, regionId_of.
  destruct (language instrument); cbn [region_pattern];
    unfold generateJSInstrument, generatePythonInstrument, js_pattern, py_pattern;
    cbn [open_marker close_marker]; rewrite append_nil_r; reflexivity.
Qed.

Lemma pattern_of_open_line (instrument : Instrument) :
  embeddable instrument = true ->
  lacks newline (open_marker (pattern_of instrument)) = true.
Proof.
  intros H. apply embeddable_parts in H as (Hn & _).
  unfold pattern_of, regionId_of.
  destruct (language instrument); cbn [region_pattern js_pattern py_pattern open_marker];
    rewrite !lacks_append, Hn; reflexivity.
Qed.

Lemma pattern_of_open_nonempty (instrument : Instrument) :
  open_marker (pattern_of instrument) <> EmptyString.
Proof.
  unfold pattern_of. destruct (language instrument); simpl; discriminate.
Qed.

Lemma pattern_of_close_line (instrument : Instrument) :
  lacks newline (close_marker (pattern_of instrument)) = true.
Proof. unfold pattern_of. now destruct (language instrument). Qed.

Lemma pattern_of_close_nonempty (instrument : Instrument) :
  close_marker (pattern_of instrument) <> EmptyString.
Proof. unfold pattern_of. now destruct (language instrument). Qed.

Lemma pattern_of_close_hash (instrument : Instrument) :
  lacks hash (close_marker (pattern_of instrument)) = false.
Proof. unfold pattern_of. now destruct (language instrument). Qed.

Lemma payload_closed (this : Instrumenter) (instrument : Instrument) :
  embeddable instrument = true ->
  Forall (fun l => occurs (close_marker (pattern_of instrument)) l = false)
    (payload this instrument).
Proof.
  intros H.
  assert (Hp : forallb (lacks hash) (payload this instrument) = true).
  { unfold payload. destruct (language instrument);
      auto using js_payload_lacks, py_payload_lacks. }
  pose proof (proj1 (forallb_forall _ _) Hp) as Hall.
  apply List.Forall_forall. intros l Hl.
  eapply occurs_lacks; [now apply Hall | apply pattern_of_close_hash].
Qed.

(** ** Inserting a block and removing it *)

Section InsertRemove.
Variable this : Instrumenter.
Variable instrument : Instrument.
Hypothesis Hemb : embeddable instrument = true.

Let p := pattern_of instrument.
Let code := generateInstrumentCode this instrument.

Lemma exec_generated (x : string) : exec p (code +:+ NL +:+ x) = Some x.
Proof using Hemb.
  subst p code. rewrite generated_delimited.
  apply exec_delimited;
    auto using pattern_of_open_line, pattern_of_open_nonempty,
      pattern_of_close_line, pattern_of_close_nonempty, payload_closed.
  apply embeddable_parts in Hemb as (Hn & _).
  unfold regionId_of. rewrite !lacks_append, Hn. reflexivity.
Qed.

Lemma exec_generated_last : exec p code = Some EmptyString.
Proof using Hemb.
  subst p code. rewrite generated_delimited.
  apply exec_delimited_last;
    auto using pattern_of_open_line, pattern_of_open_nonempty,
      pattern_of_close_line, pattern_of_close_nonempty, payload_closed.
  apply embeddable_parts in Hemb as (Hn & _).
  unfold regionId_of. rewrite !lacks_append, Hn. reflexivity.
Qed.

Lemma replace_unmarked (s : string) :
  occurs (open_marker p) s = false -> replace p s = s.
Proof. intros H. apply replace_settled. now apply settled_not_occurs. Qed.

Lemma unmarked_lines (content : string) :
  occurs (open_marker p) content = false ->
  Forall (fun l => occurs (open_marker p) l = false) (split_lines content).
Proof using Hemb.
  intros H. rewrite <- (join_split content) in H.
  apply (occurs_join_lines _ (pattern_of_open_line _ Hemb)
           (pattern_of_open_nonempty _)) in H. exact H.
Qed.

(** Inserting before an existing line: the removal gives the text back. *)
Lemma insert_remove_inside (content : string) (k : nat) :
  occurs (open_marker p) content = false ->
  k < length (split_lines content) ->
  replace p (join_lines (splice (split_lines content) k (split_lines code)))
  = content.
Proof using Hemb.
  intros Hocc Hk. pose proof (unmarked_lines _ Hocc) as Hall.
  set (lines := split_lines content) in *.
  assert (Hdrop : drop k lines <> []).
  { intros E. apply (f_equal length) in E. rewrite length_drop in E.
    simpl in E. lia. }
  unfold splice.
  rewrite join_lines_app by (destruct (split_lines code) eqn:E;
    [now apply split_lines_nonempty in E | discriminate]).
  rewrite join_lines_app by exact Hdrop.
  rewrite (terminated_join _ (split_lines_nonempty code)), join_split.
  rewrite (replace_terminated p (pattern_of_open_line _ Hemb)
             (pattern_of_open_nonempty _)) by now apply Forall_take.
  rewrite append_assoc.
  rewrite (exec_replace _ _ _ (exec_generated _)).
  rewrite replace_unmarked.
  - rewrite <- join_lines_app by exact Hdrop.
    rewrite take_drop. apply join_split.
  - apply (occurs_join_lines _ (pattern_of_open_line _ Hemb)
             (pattern_of_open_nonempty _)).
    now apply Forall_drop.
Qed.

(** Inserting after the last line: the newline that was added in front of
    the block stays behind. *)
Lemma insert_remove_last (content : string) :
  occurs (open_marker p) content = false ->
  replace p (join_lines (splice (split_lines content)
                           (length (split_lines content)) (split_lines code)))
  = content +:+ NL.
Proof using Hemb.
  intros Hocc. pose proof (unmarked_lines _ Hocc) as Hall.
  set (lines := split_lines content) in *.
  unfold splice. rewrite drop_all, take_ge, app_nil_r by lia.
  rewrite join_lines_app by apply split_lines_nonempty.
  rewrite join_split.
  rewrite (replace_terminated p (pattern_of_open_line _ Hemb)
             (pattern_of_open_nonempty _)) by exact Hall.
  rewrite (exec_replace _ _ _ exec_generated_last), replace_nil, append_nil_r.
  rewrite terminated_join by apply split_lines_nonempty.
  subst lines. now rewrite join_split.
Qed.
End InsertRemove.

(** ** The wildcard expressions over a text of lines and regions *)

Lemma wildcard_open_line (d : Dialect) :
  lacks newline (open_marker (wildcard d)) = true.
Proof. now destruct d. Qed.

Lemma wildcard_open_nonempty (d : Dialect) :
  open_marker (wildcard d) <> EmptyString.
Proof. now destruct d. Qed.

Lemma wildcard_close_line (d : Dialect) :
  lacks newline (close_marker (wildcard d)) = true.
Proof. now destruct d. Qed.

Lemma wildcard_close_nonempty (d : Dialect) :
  close_marker (wildcard d) <> EmptyString.
Proof. now destruct d. Qed.

Lemma piece_lines_nonempty (x : Piece) : piece_lines x <> [].
Proof. destruct x; discriminate. Qed.

Lemma document_text_one (x : Piece) :
  document_text [x] = join_lines (piece_lines x).
Proof. unfold document_text. cbn [map concat]. now rewrite app_nil_r. Qed.

Lemma document_text_cons (x y : Piece) (rest : list Piece) :
  document_text (x :: y :: rest)
  = terminated (piece_lines x) +:+ document_text (y :: rest).
Proof.
  unfold document_text. cbn [map concat].
  apply join_lines_app.
  pose proof (piece_lines_nonempty y). now destruct (piece_lines y).
Qed.

Lemma remove_dialect_nonempty (d : Dialect) (x : Piece) (rest : list Piece) :
  remove_dialect d (x :: rest) <> [].
Proof.
  revert x. induction rest as [|y rest IH]; intros x; cbn [remove_dialect].
  - now destruct (is_dialect d x).
  - destruct (is_dialect d x); [apply IH | discriminate].
Qed.

Lemma forallb_negb_occurs (q : string) (ls : list string) :
  forallb (fun l => negb (occurs q l)) ls = true ->
  Forall (fun l => occurs q l = false) ls.
Proof.
  induction ls as [|l ls IH]; cbn [forallb]; [constructor|].
  intros H. apply andb_prop in H as [Hl Hls].
  constructor; [now apply negb_true_iff | auto].
Qed.

Lemma is_dialect_false_other (d : Dialect) (r : Region) :
  is_dialect d (Instrumented r) = false -> other (dialect r) = d.
Proof. simpl. now destruct d, (dialect r). Qed.

Lemma is_dialect_true (d : Dialect) (x : Piece) :
  is_dialect d x = true -> exists r, x = Instrumented r /\ dialect r = d.
Proof.
  destruct x as [l|r]; simpl; [discriminate|].
  intros H. exists r. split; [reflexivity|]. now destruct d, (dialect r).
Qed.

(** The lines of a piece that is not a region of dialect [d] do not hold
    the opening marker of [d]. *)
Lemma unmarked_piece (d : Dialect) (x : Piece) :
  well_formed_piece x = true -> is_dialect d x = false ->
  Forall (fun l => occurs (open_marker (wildcard d)) l = false) (piece_lines x).
Proof.
  destruct x as [l|r]; cbn [well_formed_piece piece_lines].
  - intros H _. apply andb_prop in H as [H H2]. apply andb_prop in H as [_ H1].
    apply negb_true_iff in H1, H2. constructor; [|constructor].
    now destruct d.
  - unfold well_formed_region. intros H Hd.
    apply andb_prop in H as [_ H].
    rewrite (is_dialect_false_other _ _ Hd) in H.
    now apply forallb_negb_occurs.
Qed.

Lemma region_parts (r : Region) :
  well_formed_region r = true ->
  lacks newline (opening_rest r) = true /\
  lacks newline (closing_rest r) = true /\
  Forall (fun l => occurs (close_marker (wildcard (dialect r))) l = false)
    (interior r).
Proof.
  unfold well_formed_region. intros H.
  apply andb_prop in H as [H _]. apply andb_prop in H as [H H4].
  apply andb_prop in H as [H _]. apply andb_prop in H as [H1 H2].
  auto using forallb_negb_occurs.
Qed.

Lemma well_formed_remove_dialect (d : Dialect) (pieces : list Piece) :
  forallb well_formed_piece pieces = true ->
  forallb well_formed_piece (remove_dialect d pieces) = true.
Proof.
  induction pieces as [|x rest IH]; [reflexivity|].
  cbn [forallb remove_dialect]. intros H. apply andb_prop in H as [Hx Hr].
  destruct (is_dialect d x).
  - destruct rest; [reflexivity | auto].
  - cbn [forallb]. now rewrite Hx, IH.
Qed.

(** One pass removes the regions of its dialect and counts them. *)
Lemma pass_document (d : Dialect) (pieces : list Piece) :
  forallb well_formed_piece pieces = true ->
  replace (wildcard d) (document_text pieces)
  = document_text (remove_dialect d pieces)
  /\ match_count (wildcard d) (document_text pieces) = count_dialect d pieces.
Proof.
  pose proof (wildcard_open_line d) as Ho.
  pose proof (wildcard_open_nonempty d) as Hon.
  pose proof (wildcard_close_line d) as Hc.
  pose proof (wildcard_close_nonempty d) as Hcn.
  induction pieces as [|x rest IH]; [split; reflexivity|].
  cbn [forallb]. intros H. apply andb_prop in H as [Hx Hr].
  specialize (IH Hr). destruct IH as [IH1 IH2].
  unfold count_dialect in *. cbn [List.filter remove_dialect].
  destruct (is_dialect d x) eqn:Hd.
  - cbn [length].
    apply is_dialect_true in Hd as (r & -> & <-).
    cbn [well_formed_piece] in Hx.
    destruct (region_parts _ Hx) as (H1 & H2 & H3).
    destruct rest as [|y rest].
    + rewrite document_text_one. cbn [piece_lines].
      change (join_lines (region_lines r))
        with (delimited (wildcard (dialect r)) (opening_rest r) (interior r)
                (closing_rest r)).
      pose proof (exec_delimited_last _ Ho Hon Hc Hcn _ _ _ H1 H2 H3) as E.
      rewrite (exec_replace _ _ _ E), (exec_match_count _ _ _ E).
      split; reflexivity.
    + rewrite document_text_cons.
      rewrite (terminated_join _ (piece_lines_nonempty (Instrumented r))).
      cbn [piece_lines].
      change (join_lines (region_lines r))
        with (delimited (wildcard (dialect r)) (opening_rest r) (interior r)
                (closing_rest r)).
      rewrite append_assoc.
      pose proof (exec_delimited _ Ho Hon Hc Hcn _ _ _ (document_text (y :: rest))
                    H1 H2 H3) as E.
      rewrite (exec_replace _ _ _ E), (exec_match_count _ _ _ E).
      split; [exact IH1 | now rewrite IH2].
  - pose proof (unmarked_piece _ _ Hx Hd) as Hall.
    destruct rest as [|y rest].
    + rewrite document_text_one.
      assert (Hs : settled (wildcard d) (join_lines (piece_lines x)) = true).
      { apply settled_not_occurs. now apply (occurs_join_lines _ Ho Hon). }
      rewrite (replace_settled _ _ Hs), (match_count_settled _ _ Hs).
      split; [|reflexivity]. cbn [remove_dialect]. now rewrite document_text_one.
    + rewrite document_text_cons.
      rewrite (replace_terminated _ Ho Hon _ _ Hall).
      rewrite (match_count_terminated _ Ho Hon _ _ Hall).
      split; [|exact IH2]. rewrite IH1.
      pose proof (remove_dialect_nonempty d y rest) as Hne.
      destruct (remove_dialect d (y :: rest)) as [|z zs]; [congruence|].
      now rewrite document_text_cons.
Qed.

Lemma is_dialect_other (d : Dialect) (r : Region) :
  is_dialect (other d) (Instrumented r) = negb (is_dialect d (Instrumented r)).
Proof. simpl. now destruct d, (dialect r). Qed.

(** After both passes the lines outside the regions are left, in order. *)
Lemma remove_both (d : Dialect) (pieces : list Piece) :
  remove_dialect (other d) (remove_dialect d pieces)
  = map Plain (kept_lines pieces).
Proof.
  induction pieces as [|x rest IH]; [reflexivity|].
  destruct x as [l|r].
  - cbn [remove_dialect is_dialect kept_lines map]. now rewrite IH.
  - pose proof (is_dialect_other d r) as Ho.
    destruct rest as [|y rest].
    + cbn [remove_dialect kept_lines map].
      destruct (is_dialect d (Instrumented r)); cbn [remove_dialect];
        [reflexivity|]. now rewrite Ho.
    + change (kept_lines (Instrumented r :: y :: rest))
        with (kept_lines (y :: rest)).
      rewrite <- IH.
      change (remove_dialect d (Instrumented r :: y :: rest))
        with (if is_dialect d (Instrumented r)
              then remove_dialect d (y :: rest)
              else Instrumented r :: remove_dialect d (y :: rest)).
      destruct (is_dialect d (Instrumented r)); [reflexivity|].
      pose proof (remove_dialect_nonempty d y rest) as Hne.
      destruct (remove_dialect d (y :: rest)) as [|z zs] eqn:E; [congruence|].
      cbn [remove_dialect]. now rewrite Ho.
Qed.

Lemma document_text_plain (ls : list string) :
  document_text (map Plain ls) = join_lines ls.
Proof.
  unfold document_text. f_equal.
  induction ls as [|l ls IH]; [reflexivity|]. cbn [map concat piece_lines].
  now rewrite IH.
Qed.

Lemma count_dialect_remove (d : Dialect) (pieces : list Piece) :
  count_dialect (other d) (remove_dialect d pieces)
  = count_dialect (other d) pieces.
Proof.
  unfold count_dialect.
  induction pieces as [|x rest IH]; [reflexivity|].
  cbn [remove_dialect List.filter].
  destruct x as [l|r].
  - cbn [is_dialect List.filter length]. exact IH.
  - rewrite is_dialect_other.
    destruct (is_dialect d (Instrumented r)) eqn:Hd; cbn [negb].
    + destruct rest; [reflexivity | exact IH].
    + cbn [List.filter]. rewrite is_dialect_other, Hd. cbn [negb length].
      now rewrite IH.
Qed.

Lemma count_dialect_split (d : Dialect) (pieces : list Piece) :
  count_dialect d pieces + count_dialect (other d) pieces
  = count_regions pieces.
Proof.
  unfold count_dialect, count_regions.
  induction pieces as [|x rest IH]; [reflexivity|].
  cbn [List.filter]. destruct x as [l|r].
  - cbn [is_dialect is_region]. exact IH.
  - rewrite is_dialect_other. cbn [is_region length].
    destruct (is_dialect d (Instrumented r)); cbn [negb length]; lia.
Qed.

Lemma match_count_zero (p : RegionPattern) (s : string) :
  match_count p s = 0 -> replace p s = s.
Proof.
  intros H. apply replace_settled. revert H.
  induction s as [|c s IH].
  - intros _. cbn [settled]. unfold exec.
    destruct (strip_prefix (open_marker p) EmptyString) as [x|] eqn:E;
      [|reflexivity].
    destruct (open_marker p); [|discriminate]. now injection E as <-.
  - rewrite match_count_cons. cbn [settled].
    destruct (exec p (String c s)); [discriminate | exact IH].
Qed.

(** One turn of the loop over the patterns. *)
Lemma remove_all_step (p : RegionPattern) (content : string) (count : nat) :
  match match_count p content with
  | O => (content, count)
  | S _ as n => (replace p content, count + n)
  end = (replace p content, count + match_count p content).
Proof.
  destruct (match_count p content) eqn:E; [|reflexivity].
  now rewrite (match_count_zero _ _ E), Nat.add_0_r.
Qed.

Lemma remove_all_two (d : Dialect) (pieces : list Piece) :
  forallb well_formed_piece pieces = true ->
  remove_all_with [wildcard d; wildcard (other d)] (document_text pieces)
  = (join_lines (kept_lines pieces), count_regions pieces).
Proof.
  intros Hwf. unfold remove_all_with. cbn [fold_left].
  rewrite !remove_all_step.
  destruct (pass_document d pieces Hwf) as [-> ->].
  destruct (pass_document (other d) _ (well_formed_remove_dialect d _ Hwf))
    as [-> ->].
  rewrite remove_both, document_text_plain, count_dialect_remove.
  now rewrite Nat.add_0_l, count_dialect_split.
Qed.

(** ** Removing an instrument from its file *)

Lemma occurs_here (q x : string) : occurs q (q +:+ x) = true.
Proof.
  destruct (q +:+ x) eqn:E; cbn [occurs]; rewrite <- E;
    now rewrite strip_prefix_app.
Qed.

Lemma eqb_false_neq (a b : string) : a <> b -> String.eqb a b = false.
Proof. now intros H; apply String.eqb_neq. Qed.


(** The text does not change: nothing is written. *)
Lemma removeInstrument_unchanged (this : Instrumenter) (instrument : Instrument)
    (fs : filesystem) (content : string) (writable : bool) :
  fs !! file instrument = Some (RegularFile content writable) ->
  replace (pattern_of instrument) content = content ->
  removeInstrument this instrument fs = Ok (fs, false).
Proof.
  intros H E. unfold removeInstrument, existsSync, readFileSync. rewrite H.
  cbn [negb bind]. unfold removeRegion.
  change (region_pattern (language instrument) (REGION_PREFIX +:+ "-" +:+ id instrument))
    with (pattern_of instrument).
  now rewrite E, String.eqb_refl.
Qed.

(** The text changes and the file can be written. *)
Lemma removeInstrument_changed (this : Instrumenter) (instrument : Instrument)
    (fs : filesystem) (content : string) :
  fs !! file instrument = Some (RegularFile content true) ->
  replace (pattern_of instrument) content <> content ->
  removeInstrument this instrument fs
  = Ok (<[file instrument :=
            RegularFile (replace (pattern_of instrument) content) true]> fs, true).
Proof.
  intros H E. unfold removeInstrument, existsSync, readFileSync. rewrite H.
  cbn [negb bind]. unfold removeRegion.
  change (region_pattern (language instrument) (REGION_PREFIX +:+ "-" +:+ id instrument))
    with (pattern_of instrument).
  rewrite (eqb_false_neq _ _ E). cbn [negb].
  unfold writeFileSync. now rewrite H.
Qed.

Lemma removeInstrument_Ok (this : Instrumenter) (instrument : Instrument)
    (fs fs1 : filesystem) (b : bool) (content : string) (writable : bool) :
  fs !! file instrument = Some (RegularFile content writable) ->
  removeInstrument this instrument fs = Ok (fs1, b) ->
  fs1 !! file instrument
  = Some (RegularFile (replace (pattern_of instrument) content)
            (if b then true else writable)).
Proof.
  intros H. destruct (string_dec (replace (pattern_of instrument) content) content)
    as [E|E].
  - rewrite (removeInstrument_unchanged _ _ _ _ _ H E).
    intros [= <- <-]. now rewrite E.
  - unfold removeInstrument, existsSync, readFileSync. rewrite H.
    cbn [negb bind]. unfold removeRegion.
    change (region_pattern (language instrument) (REGION_PREFIX +:+ "-" +:+ id instrument))
      with (pattern_of instrument).
    rewrite (eqb_false_neq _ _ E). cbn [negb].
    unfold writeFileSync. rewrite H. destruct writable; [|discriminate].
    cbn [bind]. intros [= <- <-]. now rewrite lookup_insert_eq.
Qed.

Lemma plain_identifier_region (instrument : Instrument) :
  plain_identifier (id instrument) = true ->
  lacks newline (open_marker (pattern_of instrument)) = true.
Proof.
  intros H. pose proof (plain_identifier_lacks newline _ eq_refl H) as Hn.
  unfold pattern_of, regionId_of.
  destruct (language instrument);
    cbn [region_pattern js_pattern py_pattern open_marker];
    rewrite !lacks_append, Hn; reflexivity.
Qed.

(** C3 as the specification states it fails: the first removal can join
    the two halves of an opening marker and so bring a region about that
    the second removal deletes. *)
Lemma C3_counterexample :
  removeRegion split_marker_text "claude-debug-X" javascript
  = "// #region claude-debug-X" +:+ NL +:+ "keep" +:+ NL
    +:+ "// #endregion" +:+ NL
  /\ removeRegion (removeRegion split_marker_text "claude-debug-X" javascript)
       "claude-debug-X" javascript = EmptyString
  /\ removeRegion (removeRegion split_marker_text "claude-debug-X" javascript)
       "claude-debug-X" javascript
     <> removeRegion split_marker_text "claude-debug-X" javascript.
Proof. vm_compute. repeat split; discriminate. Qed.

(** C3 (amended): removing the region of an instrument from a text that
    does not hold its opening marker returns the text as it is and writes
    nothing; and in a text where that marker occurs at the start of lines
    only, as the Instrumenter writes it, the second removal in a row returns
    what the first returned, reports that nothing was removed and does not
    throw. *)
Theorem C3_removal_absent_and_repeated
    (this : Instrumenter) (instrument : Instrument) (fs : filesystem)
    (content : string) (writable : bool) :
  plain_identifier (id instrument) = true ->
  fs !! file instrument = Some (RegularFile content writable) ->
  marker_at_bol (open_marker (pattern_of instrument)) true content = true ->
  let removed :=
    removeRegion content (regionId_of instrument) (language instrument) in
  (occurs (open_marker (pattern_of instrument)) content = false ->
   removed = content /\ removeInstrument this instrument fs = Ok (fs, false))
  /\ removeRegion removed (regionId_of instrument) (language instrument) = removed
  /\ (forall fs1 b,
        removeInstrument this instrument fs = Ok (fs1, b) ->
        removeInstrument this instrument fs1 = Ok (fs1, false)).
Proof.
  intros Hid Hfile Hbol removed. subst removed. unfold removeRegion.
  change (region_pattern (language instrument) (regionId_of instrument))
    with (pattern_of instrument).
  assert (Hidem : replace (pattern_of instrument)
                    (replace (pattern_of instrument) content)
                  = replace (pattern_of instrument) content).
  { apply replace_idempotent;
      auto using plain_identifier_region, pattern_of_open_nonempty,
        pattern_of_close_line, pattern_of_close_nonempty. }
  split; [|split].
  - intros Hocc.
    assert (E : replace (pattern_of instrument) content = content).
    { apply replace_settled. now apply settled_not_occurs. }
    split; [exact E|]. eapply removeInstrument_unchanged; eauto.
  - exact Hidem.
  - intros fs1 b H1.
    pose proof (removeInstrument_Ok _ _ _ _ _ _ _ Hfile H1) as Hfs1.
    eapply removeInstrument_unchanged; eauto.
Qed.

(** ** Adding an instrument to its file *)

Lemma addInstrument_valid (this : Instrumenter) (instrument : Instrument)
    (fs : filesystem) (content : string) :
  fs !! file instrument = Some (RegularFile content true) ->
  (1 <= line instrument <= Z.of_nat (length (split_lines content)) + 1)%Z ->
  addInstrument this instrument fs
  = Ok (<[file instrument :=
            RegularFile
              (join_lines
                 (splice (split_lines content) (Z.to_nat (line instrument - 1))
                    (split_lines (generateInstrumentCode this instrument))))
              true]> fs).
Proof.
  intros H Hl. unfold addInstrument, existsSync, readFileSync. rewrite H.
  cbn [negb bind].
  replace (line instrument <? 1)%Z with false by lia.
  replace (line instrument >? Z.of_nat (length (split_lines content)) + 1)%Z
    with false by lia.
  cbn [orb]. unfold writeFileSync. now rewrite H.
Qed.

Section RoundTrip.
Variable this : Instrumenter.
Variable instrument : Instrument.
Variable fs : filesystem.
Variable content : string.
Hypothesis Hemb : embeddable instrument = true.
Hypothesis Hfile : fs !! file instrument = Some (RegularFile content true).
Hypothesis Hfresh : occurs (open_marker (pattern_of instrument)) content = false.

Let p := pattern_of instrument.
Let code := generateInstrumentCode this instrument.

Lemma generated_marked (x y : string) : occurs (open_marker p) (x +:+ code +:+ y) = true.
Proof.
  apply occurs_append_r. subst code. rewrite generated_delimited, delimited_eq.
  rewrite !append_assoc. apply occurs_here.
Qed.

Lemma spliced_marked (k : nat) :
  occurs (open_marker p)
    (join_lines (splice (split_lines content) k (split_lines code))) = true.
Proof.
  unfold splice.
  rewrite join_lines_app by (destruct (split_lines code) eqn:E;
    [now apply split_lines_nonempty in E | discriminate]).
  destruct (drop k (split_lines content)) as [|d ds] eqn:E.
  - rewrite app_nil_r, join_split.
    rewrite <- (append_nil_r code). apply generated_marked.
  - rewrite join_lines_app by discriminate.
    rewrite (terminated_join _ (split_lines_nonempty code)), join_split.
    rewrite append_assoc. apply generated_marked.
Qed.

(** The files after the block was inserted before an existing line: any
    Instrumenter removes the block and the files are as before. *)
Lemma remove_after_insert (that : Instrumenter) :
  (1 <= line instrument <= Z.of_nat (length (split_lines content)))%Z ->
  removeInstrument that instrument
    (<[file instrument :=
         RegularFile
           (join_lines
              (splice (split_lines content) (Z.to_nat (line instrument - 1))
                 (split_lines code)))
           true]> fs)
  = Ok (fs, true).
Proof using Hemb Hfile Hfresh.
  intros Hl.
  set (k := Z.to_nat (line instrument - 1)).
  set (text1 := join_lines (splice (split_lines content) k (split_lines code))).
  assert (E : replace p text1 = content).
  { apply insert_remove_inside; [exact Hemb | exact Hfresh | subst k; lia]. }
  rewrite (removeInstrument_changed that instrument _ text1).
  - fold p. rewrite E, insert_insert_eq. now rewrite insert_id.
  - apply lookup_insert_eq.
  - fold p. rewrite E. intros Heq.
    pose proof (spliced_marked k) as Hm. fold text1 in Hm.
    rewrite <- Heq in Hm. fold p in Hfresh. congruence.
Qed.

(** X2: inserting the block of an instrument before an existing line of
    a writable file that does not hold its opening marker, and removing the
    instrument at once, gives the files back as they were. *)
Theorem insert_then_remove_restores :
  (1 <= line instrument <= Z.of_nat (length (split_lines content)))%Z ->
  exists fs1,
    addInstrument this instrument fs = Ok fs1
    /\ removeInstrument this instrument fs1 = Ok (fs, true).
Proof using Hemb Hfile Hfresh.
  intros Hl. eexists. split; [apply addInstrument_valid; [exact Hfile | lia]|].
  now apply remove_after_insert.
Qed.

(** Inserting after the last line and removing at once leaves one more
    newline at the end of the file. *)
Theorem insert_last_then_remove :
  line instrument = (Z.of_nat (length (split_lines content)) + 1)%Z ->
  exists fs1,
    addInstrument this instrument fs = Ok fs1
    /\ removeInstrument this instrument fs1
       = Ok (<[file instrument := RegularFile (content +:+ NL) true]> fs, true).
Proof using Hemb Hfile Hfresh.
  intros Hl. eexists. split; [apply addInstrument_valid; [exact Hfile | lia]|].
  replace (Z.to_nat (line instrument - 1)) with (length (split_lines content))
    by lia.
  set (text1 := join_lines (splice (split_lines content)
                              (length (split_lines content)) (split_lines code))).
  assert (E : replace p text1 = content +:+ NL).
  { apply insert_remove_last; [exact Hemb | exact Hfresh]. }
  rewrite (removeInstrument_changed this instrument _ text1).
  - fold p. now rewrite E, insert_insert_eq.
  - apply lookup_insert_eq.
  - fold p. rewrite E. intros Heq.
    pose proof (spliced_marked (length (split_lines content))) as Hm.
    fold text1 in Hm. rewrite <- Heq in Hm. unfold p in Hm.
    rewrite <- (append_nil_r (content +:+ NL)), append_assoc in Hm.
    rewrite (occurs_line _ (pattern_of_open_line _ Hemb)
               (pattern_of_open_nonempty _)) in Hm.
    rewrite Hfresh in Hm.
    now rewrite (occurs_nil _ (pattern_of_open_nonempty instrument)) in Hm.
Qed.
End RoundTrip.

(** C1 fails on the code: an instrument added after the last line of a file
    ([line = lineCount + 1], which [addInstrument] accepts) and removed at
    once leaves the file one newline longer.  Here the file holds two lines
    without a final newline and the instrument goes to line 3. *)
Theorem C1_append_then_remove_leaves_newline :
  exists fs1 fs2,
    addInstrument example_instrumenter appended_instrument two_line_file = Ok fs1
    /\ removeInstrument example_instrumenter appended_instrument fs1 = Ok (fs2, true)
    /\ two_line_file !! "/w/a.js" = Some (RegularFile ("a" +:+ NL +:+ "b") true)
    /\ fs2 !! "/w/a.js" = Some (RegularFile ("a" +:+ NL +:+ "b" +:+ NL) true).
Proof.
  destruct (insert_last_then_remove example_instrumenter appended_instrument
              two_line_file two_lines) as (fs1 & H1 & H2);
    try (vm_compute; reflexivity).
  exists fs1. eexists. split; [exact H1|]. split; [exact H2|].
  split; [reflexivity|]. now rewrite lookup_insert_eq.
Qed.

Lemma C3_witness :
  plain_identifier (id inserted_instrument) = true
  /\ instrumented_file !! file inserted_instrument
     = Some (RegularFile instrumented_text true)
  /\ marker_at_bol (open_marker (pattern_of inserted_instrument)) true
       instrumented_text = true
  /\ removeRegion
       (removeRegion instrumented_text (regionId_of inserted_instrument) javascript)
       (regionId_of inserted_instrument) javascript
     = removeRegion instrumented_text (regionId_of inserted_instrument) javascript.
Proof.
  assert (H1 : plain_identifier (id inserted_instrument) = true)
    by (vm_compute; reflexivity).
  assert (H2 : instrumented_file !! file inserted_instrument
               = Some (RegularFile instrumented_text true))
    by (vm_compute; reflexivity).
  assert (H3 : marker_at_bol (open_marker (pattern_of inserted_instrument)) true
                 instrumented_text = true)
    by (vm_compute; reflexivity).
  split; [exact H1|]. split; [exact H2|]. split; [exact H3|].
  exact (proj1 (proj2 (C3_removal_absent_and_repeated example_instrumenter
                         inserted_instrument instrumented_file instrumented_text
                         true H1 H2 H3))).
Defined.

(** ** Bulk removal *)

Lemma removeAll_file (this : Instrumenter) (path : string) (fs : filesystem)
    (content newContent : string) (count : nat) :
  fs !! path = Some (RegularFile content true) ->
  remove_all_with wildcard_patterns content = (newContent, count) ->
  removeAllInstrumentsFromFile this path fs
  = Ok (match count with
        | O => fs
        | S _ => <[path := RegularFile newContent true]> fs
        end, count).
Proof.
  intros H E. unfold removeAllInstrumentsFromFile, existsSync, readFileSync.
  rewrite H. cbn [negb bind]. rewrite E.
  destruct count as [|n]; [reflexivity|].
  cbn [Nat.ltb Nat.leb]. unfold writeFileSync. now rewrite H.
Qed.



(** ** The block of an instrument is a well-formed region *)

Lemma region_of_text (this : Instrumenter) (instrument : Instrument) :
  join_lines (region_lines (region_of this instrument))
  = generateInstrumentCode this instrument.
Proof.
  unfold generateInstrumentCode, region_of, region_lines, payload, regionId_of.
  destruct (language instrument); reflexivity.
Qed.

Lemma lacks_newline_string_of_uint (d : Decimal.uint) :
  lacks newline (NilEmpty.string_of_uint d) = true.
Proof. induction d; simpl; auto. Qed.

Lemma lacks_newline_show_Z (z : Z) : lacks newline (show_Z z) = true.
Proof.
  unfold show_Z, NilZero.string_of_int, NilZero.string_of_uint.
  destruct (Z.to_int z) as [d|d]; destruct d; simpl;
    auto using lacks_newline_string_of_uint.
Qed.

Lemma payload_lines (this : Instrumenter) (instrument : Instrument) :
  line_embeddable instrument = true ->
  forallb (lacks newline) (payload this instrument) = true.
Proof.
  unfold line_embeddable. intros H.
  apply andb_prop in H as [H Hc]. apply andb_prop in H as [He Hf].
  apply embeddable_parts in He as (Hi & _).
  assert (Hjs : forall v, lacks newline v = true -> lacks newline (js_capture v) = true).
  { intros v Hv. unfold js_capture. rewrite !lacks_append, !Hv. reflexivity. }
  assert (Hpy : forall v, lacks newline v = true -> lacks newline (py_capture v) = true).
  { intros v Hv. unfold py_capture. rewrite !lacks_append, !Hv. reflexivity. }
  unfold payload, js_payload, py_payload.
  destruct (language instrument); cbn [forallb];
    destruct (capture instrument) as [|v vs] eqn:E;
    rewrite ?lacks_append, ?Hi, ?Hf, ?lacks_newline_show_Z;
    try reflexivity;
    rewrite lacks_join; try reflexivity;
    (apply forallb_map_lacks; [assumption | exact Hc]).
Qed.

Lemma forallb_Forall_negb_occurs (q : string) (ls : list string) :
  Forall (fun l => occurs q l = false) ls ->
  forallb (fun l => negb (occurs q l)) ls = true.
Proof.
  induction 1 as [|l ls Hl _ IH]; [reflexivity|].
  cbn [forallb]. now rewrite Hl, IH.
Qed.

Lemma payload_lacks_hash (this : Instrumenter) (instrument : Instrument) :
  embeddable instrument = true ->
  forallb (lacks hash) (payload this instrument) = true.
Proof.
  intros H. unfold payload.
  destruct (language instrument); auto using js_payload_lacks, py_payload_lacks.
Qed.

Lemma lacks_hash_unmarked (d : Dialect) (ls : list string) :
  forallb (lacks hash) ls = true ->
  forallb (fun l => negb (occurs (open_marker (wildcard d)) l)) ls = true.
Proof.
  induction ls as [|l ls IH]; [reflexivity|]. cbn [forallb].
  intros H. apply andb_prop in H as [Hl Hls]. rewrite (IH Hls), andb_true_r.
  apply negb_true_iff. apply (occurs_lacks hash); [exact Hl | now destruct d].
Qed.

(** X5: the block generated for an instrument with a plain identifier
    and no [#] or newline in its file name and captured names is a
    well-formed region: its delimiter lines and its payload are single
    lines, the payload does not hold the closing marker, and no line holds
    the opening marker of the other dialect. *)
Theorem generated_region_well_formed (this : Instrumenter) (instrument : Instrument) :
  line_embeddable instrument = true ->
  well_formed_region (region_of this instrument) = true.
Proof.
  intros Hle. pose proof Hle as H. unfold line_embeddable in H.
  apply andb_prop in H as [H _]. apply andb_prop in H as [Hemb _].
  destruct (embeddable_parts _ Hemb) as (Hn & Hh & _).
  unfold well_formed_region.
  cbn [region_of opening_rest closing_rest interior dialect].
  rewrite Hn, (payload_lines _ _ Hle). cbn [andb].
  assert (Hrest : lacks newline (" " +:+ regionId_of instrument) = true).
  { unfold regionId_of. rewrite !lacks_append, Hn. reflexivity. }
  rewrite Hrest. cbn [andb].
  assert (Hclosed : forallb
            (fun l => negb (occurs (close_marker (wildcard (dialect_of (language instrument)))) l))
            (payload this instrument) = true).
  { apply forallb_Forall_negb_occurs.
    pose proof (payload_closed this instrument Hemb) as Hp.
    unfold pattern_of in Hp. now destruct (language instrument). }
  rewrite Hclosed. cbn [andb].
  unfold region_lines. cbn [region_of opening_rest closing_rest interior dialect forallb].
  rewrite forallb_app.
  rewrite (lacks_hash_unmarked _ _ (payload_lacks_hash this instrument Hemb)).
  cbn [forallb andb]. rewrite andb_true_r.
  assert (Hid : forall q, lacks hash q = false -> occurs q (id instrument) = false).
  { intros q Hq. now apply (occurs_lacks hash). }
  unfold regionId_of.
  destruct (language instrument); cbn -[occurs];
    rewrite !negb_true_iff || idtac;
    apply andb_true_intro; split; apply negb_true_iff;
    cbn; apply Hid; reflexivity.
Qed.

(** ** The tools without a session *)

(** C9: while no session is active, [list_instruments] answers with an
    empty listing that is not an error, and [read_debug_logs],
    [add_instrument], [remove_instruments] and [clear_debug_logs] answer
    with a no-active-session error; none of them changes anything. *)
Theorem C9_inactive_session_tools
    (rt : Runtime) (env : Env) (w : World)
    (format path : option string) (line : option Z)
    (capture : option (list string)) :
  session (sessionManager w) = None ->
  call_tool rt env list_instruments w = (success "No active instruments.", w)
  /\ call_tool rt env (read_debug_logs format) w
     = (failure "No active debug session.", w)
  /\ call_tool rt env (add_instrument path line capture) w
     = (failure "No active debug session. Start one first with start_debug_session.", w)
  /\ call_tool rt env (remove_instruments path) w
     = (failure "No active debug session.", w)
  /\ call_tool rt env clear_debug_logs w
     = (failure "No active debug session.", w).
Proof.
  intros H.
  unfold call_tool, handle, mbind, get_manager, get_instrumenter, ret,
    Session.isActive, Session.getInstruments.
  rewrite H. cbn [negb]. repeat split.
Qed.

Lemma C9_witness :
  session (sessionManager (idle two_files)) = None
  /\ call_tool example_runtime first_env list_instruments (idle two_files)
     = (success "No active instruments.", idle two_files)
  /\ call_tool example_runtime first_env (read_debug_logs None) (idle two_files)
     = (failure "No active debug session.", idle two_files).
Proof.
  pose proof (C9_inactive_session_tools example_runtime first_env
                (idle two_files) None None None None eq_refl) as H.
  split; [reflexivity|]. split; [exact (proj1 H) | exact (proj1 (proj2 H))].
Defined.

(** ** Reading the logs *)

(** C10: in an active session whose log file does not exist, [readLogs]
    returns the empty string and does not throw, and [read_debug_logs]
    answers that no logs were collected. *)
Theorem C10_missing_log_reads_empty
    (rt : Runtime) (env : Env) (w : World) (s : DebugSession)
    (format : option string) :
  session (sessionManager w) = Some s ->
  files w !! logFile s = None ->
  Session.readLogs w = (Ok EmptyString, w)
  /\ call_tool rt env (read_debug_logs format) w
     = (success
          "No logs collected yet. Make sure to reproduce the bug to trigger the instruments.",
        w).
Proof.
  intros Hs Hf.
  assert (E : Session.readLogs w = (Ok EmptyString, w)).
  { unfold Session.readLogs, mbind, get_manager, get_files, ret, existsSync.
    now rewrite Hs, Hf. }
  split; [exact E|].
  unfold call_tool, handle, mbind, get_manager, Session.isActive.
  rewrite Hs. cbn [negb]. now rewrite E.
Qed.

Lemma C10_witness :
  exists s,
    session (sessionManager (without_file "/w/debug.log" started)) = Some s
    /\ files (without_file "/w/debug.log" started) !! logFile s = None
    /\ Session.readLogs (without_file "/w/debug.log" started)
       = (Ok EmptyString, without_file "/w/debug.log" started).
Proof.
  eexists. split; [vm_compute; reflexivity|].
  split; [vm_compute; reflexivity|].
  refine (proj1 (C10_missing_log_reads_empty example_runtime first_env
                   (without_file "/w/debug.log" started) _ None _ _));
    vm_compute; reflexivity.
Defined.

(** ** Adding an instrument that the Instrumenter rejects *)

(** A line number of 0 is refused before anything is touched. *)
Lemma add_line_zero (rt : Runtime) (env : Env) (w : World)
    (path : option string) (capture : option (list string)) :
  Session.isActive (sessionManager w) = true ->
  isError (fst (call_tool rt env (add_instrument path (Some 0%Z) capture) w)) = true
  /\ snd (call_tool rt env (add_instrument path (Some 0%Z) capture) w) = w.
Proof.
  intros H. unfold call_tool, handle, mbind, get_manager, get_instrumenter, ret.
  rewrite H. destruct (instrumenter w); [|now split].
  destruct (truthy path); now split.
Qed.

(** Whenever the Instrumenter throws (file not found, line out of range),
    the tool answers with the error and the files are as before, but the
    instrument has already been put into the session's map and stays. *)
Lemma rejected_add_registers (rt : Runtime) (env : Env) (w : World)
    (s : DebugSession) (i : Instrumenter) (path : string) (line : Z)
    (capture : option (list string)) (message : string) :
  session (sessionManager w) = Some s ->
  instrumenter w = Some i ->
  path <> EmptyString ->
  line <> 0%Z ->
  addInstrument i (requested rt env (sessionManager w) path line capture) (files w)
  = Throw message ->
  call_tool rt env (add_instrument (Some path) (Some line) capture) w
  = (failure ("Error: " +:+ message),
     {| sessionManager :=
          registered (sessionManager w) s
            (requested rt env (sessionManager w) path line capture);
        instrumenter := Some i;
        files := files w |}).
Proof.
  intros Hs Hi Hp Hl Hadd.
  unfold call_tool, handle, mbind, get_manager, get_instrumenter, ret,
    Session.isActive.
  rewrite Hs, Hi. cbn [truthy].
  destruct path as [|c path]; [congruence|]. cbn [truthy].
  replace (line =? 0)%Z with false by lia.
  unfold Session.addInstrument, mbind, get_manager, set_manager, ret.
  cbn [sessionManager]. rewrite Hs.
  cbn [sessionManager instrumenter files].
  unfold write_files, on_files. cbn [files sessionManager instrumenter].
  cbn [options_file options_line options_capture].
  unfold requested in Hadd. rewrite Hadd. cbn [bind]. rewrite Hi. reflexivity.
Qed.

(** C4 fails on the code: with a session started and [a.js] of two lines,
    [add_instrument] for line 5 answers with an error and leaves the file
    as it was, but the instrument is in the session's map afterwards. *)
Theorem C4_rejected_add_stays_registered :
  let result :=
    call_tool example_runtime first_env
      (add_instrument (Some "a.js") (Some 5%Z) None) started in
  fst result = failure "Error: Line 5 is out of range (file has 2 lines)"
  /\ files (snd result) = files started
  /\ Session.getInstruments (sessionManager started) = []
  /\ Session.getInstruments (sessionManager (snd result))
     = [ {| id := "dbg-1a2b3c4d"; file := "/w/a.js"; line := 5;
            language := javascript; capture := []; createdAt := 1000 |} ].
Proof. vm_compute. repeat split. Qed.

(** ** Stopping a session *)

(** A stop that answers without an error has ended the session: no
    session, no Log Collector, no Instrumenter, no instrument. *)
Lemma stop_completes (rt : Runtime) (env : Env) (w w' : World)
    (s : DebugSession) (r : ToolResult) :
  session (sessionManager w) = Some s ->
  call_tool rt env stop_debug_session w = (r, w') ->
  isError r = false ->
  session (sessionManager w') = None
  /\ server (sessionManager w') = None
  /\ instrumenter w' = None
  /\ Session.getInstruments (sessionManager w') = [].
Proof.
  intros Hs. unfold call_tool, handle, mbind at 1, get_manager, Session.isActive.
  rewrite Hs. cbn [negb]. unfold mbind at 1, get_instrumenter.
  unfold mbind at 1.
  destruct (match instrumenter w with
            | Some i => _
            | None => ret tt
            end w) as [[[]|m] w1].
  - unfold Session.stopSession, mbind, get_manager, set_manager,
      set_instrumenter, ret.
    cbn [sessionManager instrumenter files].
    intros [= <- <-] _. unfold Session.getInstruments.
    cbn [sessionManager instrumenter].
    destruct (server (sessionManager w1)) eqn:E; cbn; rewrite ?E; auto.
  - intros [= <- <-]. discriminate.
Qed.

(** Whenever the removal of the first instrument throws, the stop ends
    there: the answer is the error and nothing has changed, the session, the
    Log Collector and the other instruments' blocks included. *)
Lemma stop_aborts_at_first_throw (rt : Runtime) (env : Env) (w : World)
    (s : DebugSession) (i : Instrumenter) (first : Instrument)
    (others : list Instrument) (message : string) :
  session (sessionManager w) = Some s ->
  instrumenter w = Some i ->
  map_values (instruments s) = first :: others ->
  removeInstrument i first (files w) = Throw message ->
  call_tool rt env stop_debug_session w = (failure ("Error: " +:+ message), w).
Proof.
  intros Hs Hi Hl Hthrow.
  unfold call_tool, handle, mbind, get_manager, get_instrumenter,
    Session.isActive, Session.getInstruments.
  rewrite Hs. cbn [negb]. rewrite Hi, Hl. cbn [for_each].
  unfold mbind, on_files. now rewrite Hthrow.
Qed.

(** C5 fails on the code: the session holds an instrument in [a.js] and one
    in [b.js], and [a.js] has become read-only.  [stop_debug_session]
    answers with the error of the first removal; the removal from [b.js] is
    not attempted (its markers are still there), the Log Collector still
    listens and the session still holds both instruments. *)
Theorem C5_stop_gives_up_at_first_failure :
  let before := write_protect "/w/a.js" instrumented in
  let result := call_tool example_runtime second_env stop_debug_session before in
  fst result = failure "Error: EACCES: permission denied, open '/w/a.js'"
  /\ files (snd result) = files before
  /\ hasInstruments example_instrumenter "/w/b.js" (files (snd result)) = Ok true
  /\ Session.isActive (sessionManager (snd result)) = true
  /\ server (sessionManager (snd result)) = Some example_server
  /\ map id (Session.getInstruments (sessionManager (snd result)))
     = ["dbg-1a2b3c4d"; "dbg-5e6f7a8b"].
Proof. vm_compute. repeat split. Qed.

(** With both files writable the same stop removes both blocks and ends
    the session. *)
Example stop_removes_all :
  let result := call_tool example_runtime second_env stop_debug_session instrumented in
  fst result = success "Debug session stopped. Removed 2 instrument(s) from code."
  /\ files (snd result) !! "/w/a.js" = Some (RegularFile two_lines true)
  /\ files (snd result) !! "/w/b.js" = Some (RegularFile two_lines true)
  /\ sessionManager (snd result)
     = {| session := None; server := None; workingDirectory := "/w" |}.
Proof. vm_compute. repeat split. Qed.

(** ** Starting a session *)

Lemma start_while_active (rt : Runtime) (env : Env) (port : option Z)
    (w : World) (s : DebugSession) :
  session (sessionManager w) = Some s ->
  call_tool rt env (start_debug_session port) w
  = (failure "Error: Debug session already active. Stop it first.", w).
Proof.
  intros Hs. unfold call_tool, handle, mbind, Session.startSession, mbind,
    get_manager, throw.
  now rewrite Hs.
Qed.

Lemma start_when_inactive (rt : Runtime) (env : Env) (port : option Z) (w : World) :
  session (sessionManager w) = None ->
  port_free env = true ->
  files w !! resolve rt (workingDirectory (sessionManager w)) "debug.log"
    <> Some Directory ->
  exists message,
    call_tool rt env (start_debug_session port) w
    = (success message, fresh_world rt env port w).
Proof.
  intros Hs Hp Hd.
  unfold call_tool, handle.
  unfold Session.startSession, mbind, get_manager, get_files. rewrite Hs.
  set (logPath := resolve rt (workingDirectory (sessionManager w)) "debug.log") in *.
  unfold existsSync, write_files, on_files, unlinkSync, ret.
  unfold fresh_world, fresh_session. fold logPath. cbn [logFile].
  unfold writeFileSync, LogServer.start, LogServer.create,
    set_manager, get_manager, set_instrumenter, ret.
  destruct (files w !! logPath) as [[content writable|]|] eqn:E;
    [| congruence |].
  - repeat (cbn [bind files sessionManager instrumenter server_port
                 server_logFile fst snd isError success];
            rewrite ?E, ?lookup_delete_eq, ?Hp).
    rewrite insert_delete_eq. eexists. reflexivity.
  - repeat (cbn [bind files sessionManager instrumenter server_port
                 server_logFile fst snd isError success];
            rewrite ?E, ?Hp).
    eexists. reflexivity.
Qed.

(** C6: while a session is active, starting another one answers with an
    error and changes nothing; after a stop, and when the port can be bound
    and the log path is not a directory, the start succeeds and the log
    store is empty. *)
Theorem C6_start_guard_and_restart
    (rt : Runtime) (env0 env : Env) (port : option Z)
    (w w1 : World) (s : DebugSession) (r1 : ToolResult) :
  session (sessionManager w) = Some s ->
  call_tool rt env0 stop_debug_session w = (r1, w1) ->
  isError r1 = false ->
  port_free env = true ->
  files w1 !! resolve rt (workingDirectory (sessionManager w1)) "debug.log"
    <> Some Directory ->
  let restarted := call_tool rt env (start_debug_session port) w1 in
  call_tool rt env (start_debug_session port) w
  = (failure "Error: Debug session already active. Stop it first.", w)
  /\ isError (fst restarted) = false
  /\ Session.isActive (sessionManager (snd restarted)) = true
  /\ Session.readLogs (snd restarted) = (Ok EmptyString, snd restarted)
  /\ files (snd restarted)
       !! resolve rt (workingDirectory (sessionManager w1)) "debug.log"
     = Some (RegularFile EmptyString true).
Proof.
  intros Hs Hstop Hok Hp Hd restarted.
  split; [now apply (start_while_active rt env port w s)|].
  destruct (stop_completes rt env0 w w1 s r1 Hs Hstop Hok) as (Hnone & _).
  destruct (start_when_inactive rt env port w1 Hnone Hp Hd) as [message Hw].
  subst restarted. rewrite Hw. cbn [fst snd]. split; [reflexivity|].
  split; [reflexivity|].
  unfold Session.readLogs, mbind, get_manager, get_files, ret, existsSync,
    read_files, on_files, readFileSync, fresh_world, fresh_session.
  repeat (cbn [sessionManager session logFile files instrumenter negb bind];
          rewrite ?lookup_insert_eq).
  split; reflexivity.
Qed.

Lemma C6_witness :
  let stopped := call_tool example_runtime second_env stop_debug_session instrumented in
  let restarted :=
    call_tool example_runtime second_env (start_debug_session (Some 9000%Z))
      (snd stopped) in
  session (sessionManager instrumented) <> None
  /\ isError (fst stopped) = false
  /\ port_free second_env = true
  /\ call_tool example_runtime second_env (start_debug_session (Some 9000%Z))
       instrumented
     = (failure "Error: Debug session already active. Stop it first.", instrumented)
  /\ isError (fst restarted) = false
  /\ Session.readLogs (snd restarted) = (Ok EmptyString, snd restarted).
Proof.
  intros stopped restarted.
  assert (H1 : exists s, session (sessionManager instrumented) = Some s)
    by (eexists; vm_compute; reflexivity).
  destruct H1 as [s Hs].
  assert (H2 : isError (fst stopped) = false) by (vm_compute; reflexivity).
  assert (H3 : files (snd stopped)
                 !! resolve example_runtime
                      (workingDirectory (sessionManager (snd stopped))) "debug.log"
               <> Some Directory) by (vm_compute; discriminate).
  pose proof (C6_start_guard_and_restart example_runtime second_env second_env
                (Some 9000%Z) instrumented (snd stopped) s (fst stopped) Hs
                (surjective_pairing _) H2 eq_refl H3) as H.
  cbv zeta in H. destruct H as (Ha & Hb & _ & Hc & _).
  split; [rewrite Hs; discriminate|]. split; [exact H2|].
  split; [reflexivity|]. split; [exact Ha|]. split; [exact Hb | exact Hc].
Defined.

(** ** The Log Collector *)

Lemma map_get_set {V : Type} (key : string) (value : V) (m : list (string * V)) :
  map_get key (map_set key value m) = Some value.
Proof.
  induction m as [|[k v] m IH]; simpl.
  - now rewrite String.eqb_refl.
  - destruct (String.eqb k key) eqn:E; simpl; now rewrite E.
Qed.

(** Setting a key leaves every other member where it was. *)
Lemma map_delete_set {V : Type} (key : string) (value : V) (m : list (string * V)) :
  map_delete key (map_set key value m) = map_delete key m.
Proof.
  induction m as [|[k v] m IH]; simpl.
  - now rewrite String.eqb_refl.
  - destruct (String.eqb k key) eqn:E; simpl; rewrite E; [reflexivity|].
    now rewrite IH.
Qed.

Lemma escape_char_one_line (c : ascii) : lacks newline (escape_char c) = true.
Proof.
  destruct c as [[] [] [] [] [] [] [] []]; vm_compute; reflexivity.
Qed.

Lemma escape_one_line (s : string) : lacks newline (escape s) = true.
Proof.
  induction s as [|c s IH]; [reflexivity|]. cbn [escape].
  now rewrite lacks_append, escape_char_one_line, IH.
Qed.

Lemma quote_one_line (s : string) : lacks newline (quote s) = true.
Proof.
  unfold quote. cbn [lacks]. rewrite lacks_append, escape_one_line. reflexivity.
Qed.

(** The text of a document holds no newline: it is one line. *)
Fixpoint stringify_one_line (v : json) {struct v} :
  one_line v = true -> lacks newline (JSON_stringify v) = true.
Proof.
  destruct v as [|b|repr|s|items|members]; cbn [one_line JSON_stringify].
  - reflexivity.
  - now destruct b.
  - auto.
  - intros _. apply quote_one_line.
  - intros H. rewrite !lacks_append, lacks_join; [reflexivity | reflexivity |].
    induction items as [|x xs IH]; [reflexivity|].
    cbn [forallb map] in *. apply andb_prop in H as [Hx Hxs].
    now rewrite (stringify_one_line x Hx), IH.
  - intros H. rewrite !lacks_append, lacks_join; [reflexivity | reflexivity |].
    induction members as [|[k x] xs IH]; [reflexivity|].
    cbn [forallb map fst snd] in *. apply andb_prop in H as [Hx Hxs].
    rewrite !lacks_append, quote_one_line, (stringify_one_line x Hx), IH by assumption.
    reflexivity.
Qed.

Lemma one_line_set (key repr : string) (members : list (string * json)) :
  lacks newline repr = true ->
  forallb (fun kv => one_line (snd kv)) members = true ->
  forallb (fun kv => one_line (snd kv)) (map_set key (JNumber repr) members) = true.
Proof.
  intros Hr. induction members as [|[k v] m IH]; cbn [map_set forallb snd].
  - intros _. cbn. now rewrite Hr.
  - intros H. apply andb_prop in H as [Hv Hm].
    destruct (String.eqb k key); cbn [forallb snd one_line].
    + now rewrite Hr, Hm.
    + now rewrite Hv, IH.
Qed.

(** C7 as the specification states it fails: the body [42] is valid JSON,
    the answer is 200, and the line that is appended holds [receivedAt] and
    nothing of the posted document; it is the line that the body [{}]
    gives. *)
Lemma C7_counterexample :
  JSON_parse example_runtime "42" = Some (JNumber "42")
  /\ Collector.handleRequest example_runtime example_server first_env
       (log_request ["42"]) (files started)
     = (Collector.json_response 200 (JObject [("success", JBool true)]),
        <["/w/debug.log" :=
            RegularFile ("{" +:+ quote "receivedAt" +:+ ":1000}" +:+ NL) true]>
          (files started))
  /\ Collector.logged (JNumber "42") 1000 = Collector.logged (JObject []) 1000.
Proof. vm_compute. repeat split. Qed.

(** C7 (amended): for every POST to [/log] whose body parses as a JSON
    object, with a log file that can be appended to, the answer is 200 with
    the body [{"success":true}]; exactly one line is appended to the log
    store, and it is the text of the posted object with [receivedAt] set to
    the number of the time of receipt, every other member as posted and in
    its place. *)
Theorem C7_object_logged
    (rt : Runtime) (this : DebugLogServer) (env : Env) (req : Request)
    (fs : filesystem) (members : list (string * json)) (content : string) :
  method req = "POST" ->
  url req = "/log" ->
  JSON_parse rt (String.concat EmptyString (chunks req)) = Some (JObject members) ->
  one_line (JObject members) = true ->
  fs !! server_logFile this = Some (RegularFile content true) ->
  let entry := Collector.logged (JObject members) (now env) in
  let logLine := JSON_stringify entry in
  Collector.handleRequest rt this env req fs
  = (Collector.json_response 200 (JObject [("success", JBool true)]),
     <[server_logFile this := RegularFile (content +:+ logLine +:+ NL) true]> fs)
  /\ body (Collector.json_response 200 (JObject [("success", JBool true)]))
     = "{" +:+ quote "success" +:+ ":true}"
  /\ lacks newline logLine = true
  /\ (exists logged_members,
        entry = JObject logged_members
        /\ map_get "receivedAt" logged_members = Some (JNumber (show_Z (now env)))
        /\ map_delete "receivedAt" logged_members = map_delete "receivedAt" members).
Proof.
  intros Hm Hu Hparse Hone Hfile entry logLine.
  split; [|split; [reflexivity | split]].
  - unfold Collector.handleRequest. rewrite Hm, Hu. cbn [String.eqb andb].
    change (String.eqb "POST" "OPTIONS") with false.
    change (String.eqb "POST" "GET") with false.
    change (String.eqb "POST" "POST") with true.
    change (String.eqb "/log" "/log") with true.
    cbn [andb]. rewrite Hparse.
    unfold Collector.writeLog, appendFileSync. now rewrite Hfile.
  - apply stringify_one_line. subst entry. unfold Collector.logged.
    cbn [one_line spread] in *. apply one_line_set; [|exact Hone].
    apply lacks_newline_show_Z.
  - eexists. split; [reflexivity|]. cbn [spread].
    split; [apply map_get_set | apply map_delete_set].
Qed.

Lemma C7_witness :
  let req := log_request [JSON_stringify example_entry] in
  JSON_parse example_runtime (String.concat EmptyString (chunks req))
  = Some example_entry
  /\ files started !! server_logFile example_server
     = Some (RegularFile EmptyString true)
  /\ Collector.handleRequest example_runtime example_server first_env req
       (files started)
     = (Collector.json_response 200 (JObject [("success", JBool true)]),
        <["/w/debug.log" :=
            RegularFile
              (JSON_stringify
                 (JObject [("id", JString "x"); ("location", JString "a.js:1");
                           ("timestamp", JNumber "123");
                           ("data", JObject [("a", JNumber "1")]);
                           ("receivedAt", JNumber "1000")]) +:+ NL) true]>
          (files started)).
Proof.
  intros req.
  assert (H1 : JSON_parse example_runtime (String.concat EmptyString (chunks req))
               = Some example_entry) by (vm_compute; reflexivity).
  assert (H2 : files started !! server_logFile example_server
               = Some (RegularFile EmptyString true)) by (vm_compute; reflexivity).
  split; [exact H1|]. split; [exact H2|].
  exact (proj1 (C7_object_logged example_runtime example_server first_env req
                  (files started) _ EmptyString eq_refl eq_refl H1 eq_refl H2)).
Defined.

(** C8: for every POST to [/log] whose body is not valid JSON the answer
    is 400 with the body [{"error":"Invalid JSON"}], and the files, the log
    store among them, are as before. *)
Theorem C8_invalid_json_rejected
    (rt : Runtime) (this : DebugLogServer) (env : Env) (req : Request)
    (fs : filesystem) :
  method req = "POST" ->
  url req = "/log" ->
  JSON_parse rt (String.concat EmptyString (chunks req)) = None ->
  Collector.handleRequest rt this env req fs
  = (Collector.json_response 400 (JObject [("error", JString "Invalid JSON")]), fs)
  /\ status (fst (Collector.handleRequest rt this env req fs)) = 400
  /\ body (fst (Collector.handleRequest rt this env req fs))
     = "{" +:+ quote "error" +:+ ":" +:+ quote "Invalid JSON" +:+ "}"
  /\ snd (Collector.handleRequest rt this env req fs) = fs.
Proof.
  intros Hm Hu Hparse.
  assert (E : Collector.handleRequest rt this env req fs
              = (Collector.json_response 400
                   (JObject [("error", JString "Invalid JSON")]), fs)).
  { unfold Collector.handleRequest. rewrite Hm, Hu.
    change (String.eqb "POST" "OPTIONS") with false.
    change (String.eqb "POST" "GET") with false.
    change (String.eqb "POST" "POST") with true.
    change (String.eqb "/log" "/log") with true.
    cbn [andb]. now rewrite Hparse. }
  rewrite E. repeat split.
Qed.

Lemma C8_witness :
  JSON_parse example_runtime
    (String.concat EmptyString (chunks (log_request ["not "; "json"]))) = None
  /\ Collector.handleRequest example_runtime example_server first_env
       (log_request ["not "; "json"]) (files started)
     = (Collector.json_response 400 (JObject [("error", JString "Invalid JSON")]),
        files started).
Proof.
  assert (H : JSON_parse example_runtime
                (String.concat EmptyString (chunks (log_request ["not "; "json"])))
              = None) by (vm_compute; reflexivity).
  split; [exact H|].
  exact (proj1 (C8_invalid_json_rejected example_runtime example_server first_env
                  (log_request ["not "; "json"]) (files started)
                  eq_refl eq_refl H)).
Defined.

(** * Further properties of the code *)

(** ** Insertion and the lines of the file *)

Lemma split_lines_line (l : string) :
  lacks newline l = true -> split_lines l = [l].
Proof.
  induction l as [|c l IH]; [reflexivity|]. simpl. intros H.
  apply andb_prop in H as [Hc Hl]. apply negb_true_iff in Hc.
  now rewrite Hc, (IH Hl).
Qed.

Lemma split_lines_cons (l rest : string) :
  lacks newline l = true ->
  split_lines (l +:+ NL +:+ rest) = l :: split_lines rest.
Proof.
  induction l as [|c l IH]; [reflexivity|]. intros H.
  change (String c l +:+ NL +:+ rest) with (String c (l +:+ NL +:+ rest)).
  cbn [split_lines]. simpl in H.
  apply andb_prop in H as [Hc Hl]. apply negb_true_iff in Hc.
  now rewrite Hc, (IH Hl).
Qed.

(** [join('\n')] and [split('\n')] undo each other on lines. *)
Lemma split_join (ls : list string) :
  ls <> [] ->
  Forall (fun l => lacks newline l = true) ls ->
  split_lines (join_lines ls) = ls.
Proof.
  intros Hne H. induction H as [|l ls Hl Hls IH]; [congruence|].
  destruct ls as [|l' ls].
  - now apply split_lines_line.
  - rewrite join_lines_cons, (split_lines_cons _ _ Hl).
    f_equal. apply IH. discriminate.
Qed.

Lemma splice_lines (lines items : list string) (k : nat) :
  Forall (fun l => lacks newline l = true) lines ->
  Forall (fun l => lacks newline l = true) items ->
  Forall (fun l => lacks newline l = true) (splice lines k items).
Proof.
  intros H1 H2. unfold splice.
  apply Forall_app. split; [now apply Forall_take|].
  apply Forall_app. split; [assumption | now apply Forall_drop].
Qed.

(** X1: [addInstrument] with a line between 1 and the line count plus one
    succeeds on a writable file; the lines of the file are then the lines
    before the target line, the lines of the generated block, and the lines
    from the target line on, and no other file has changed. *)
Theorem addInstrument_lines
    (this : Instrumenter) (instrument : Instrument) (fs : filesystem)
    (content : string) :
  fs !! file instrument = Some (RegularFile content true) ->
  (1 <= line instrument <= Z.of_nat (length (split_lines content)) + 1)%Z ->
  exists fs' content',
    addInstrument this instrument fs = Ok fs'
    /\ fs' !! file instrument = Some (RegularFile content' true)
    /\ split_lines content'
       = take (Z.to_nat (line instrument - 1)) (split_lines content)
         ++ split_lines (generateInstrumentCode this instrument)
         ++ drop (Z.to_nat (line instrument - 1)) (split_lines content)
    /\ (forall path, path <> file instrument -> fs' !! path = fs !! path).
Proof.
  intros Hfile Hline. eexists. eexists.
  split; [apply (addInstrument_valid _ _ _ content); assumption|].
  split; [apply lookup_insert_eq|]. split.
  - apply split_join.
    + unfold splice. intros E. apply app_eq_nil in E as [_ E].
      apply app_eq_nil in E as [E _]. exact (split_lines_nonempty _ E).
    + apply splice_lines; apply split_lines_lacks.
  - intros path Hp. now apply lookup_insert_ne.
Qed.

Lemma addInstrument_lines_witness :
  two_line_file !! file inserted_instrument = Some (RegularFile two_lines true)
  /\ exists fs' content',
       addInstrument example_instrumenter inserted_instrument two_line_file = Ok fs'
       /\ fs' !! file inserted_instrument = Some (RegularFile content' true)
       /\ split_lines content'
          = ["a"] ++ split_lines
                       (generateInstrumentCode example_instrumenter inserted_instrument)
            ++ ["b"].
Proof.
  assert (H1 : two_line_file !! file inserted_instrument
               = Some (RegularFile two_lines true)) by (vm_compute; reflexivity).
  split; [exact H1|].
  destruct (addInstrument_lines example_instrumenter inserted_instrument
              two_line_file two_lines H1 ltac:(vm_compute; split; discriminate))
    as (fs' & content' & Ha & Hb & Hc & _).
  exists fs', content'. repeat split; assumption.
Defined.

(** An instrument inserted before line 2 of a two-line file and removed
    at once. *)
Lemma insert_then_remove_restores_witness :
  embeddable inserted_instrument = true
  /\ two_line_file !! file inserted_instrument = Some (RegularFile two_lines true)
  /\ occurs (open_marker (pattern_of inserted_instrument)) two_lines = false
  /\ exists fs1,
       addInstrument example_instrumenter inserted_instrument two_line_file = Ok fs1
       /\ removeInstrument example_instrumenter inserted_instrument fs1
          = Ok (two_line_file, true).
Proof.
  assert (H1 : embeddable inserted_instrument = true) by (vm_compute; reflexivity).
  assert (H2 : two_line_file !! file inserted_instrument
               = Some (RegularFile two_lines true)) by (vm_compute; reflexivity).
  assert (H3 : occurs (open_marker (pattern_of inserted_instrument)) two_lines = false)
    by (vm_compute; reflexivity).
  split; [exact H1|]. split; [exact H2|]. split; [exact H3|].
  exact (insert_then_remove_restores example_instrumenter inserted_instrument
           two_line_file two_lines H1 H2 H3 ltac:(vm_compute; split; discriminate)).
Defined.

(** [addInstrument] returns only for a writable regular file and a line in
    range, and then it has written the spliced text. *)
Lemma addInstrument_Ok_inv (this : Instrumenter) (instrument : Instrument)
    (fs fs' : filesystem) :
  addInstrument this instrument fs = Ok fs' ->
  exists content,
    fs !! file instrument = Some (RegularFile content true)
    /\ (1 <= line instrument <= Z.of_nat (length (split_lines content)) + 1)%Z
    /\ fs' = <[file instrument :=
                 RegularFile
                   (join_lines
                      (splice (split_lines content)
                         (Z.to_nat (line instrument - 1))
                         (split_lines (generateInstrumentCode this instrument))))
                   true]> fs.
Proof.
  unfold addInstrument, existsSync, readFileSync, writeFileSync.
  destruct (fs !! file instrument) as [[content writable|]|] eqn:E;
    cbn [negb bind]; try discriminate.
  destruct (line instrument <? 1)%Z eqn:E1; [discriminate|].
  destruct (line instrument >? Z.of_nat (length (split_lines content)) + 1)%Z
    eqn:E2; [discriminate|].
  cbn [orb]. destruct writable; [|discriminate].
  intros [= <-]. exists content. repeat split; try reflexivity; lia.
Qed.

Lemma occurs_middle (q x y : string) : occurs q (x +:+ q +:+ y) = true.
Proof. apply occurs_append_r, occurs_here. Qed.

(** The spliced text holds the block as it was generated. *)
Lemma spliced_holds_code (lines : list string) (k : nat) (code : string) :
  exists x y, join_lines (splice lines k (split_lines code)) = x +:+ code +:+ y.
Proof.
  unfold splice. exists (terminated (take k lines)).
  rewrite join_lines_app by (destruct (split_lines code) eqn:E;
    [now apply split_lines_nonempty in E | discriminate]).
  destruct (drop k lines) as [|d ds] eqn:E.
  - exists EmptyString. now rewrite app_nil_r, join_split, append_nil_r.
  - exists (NL +:+ join_lines (d :: ds)).
    rewrite join_lines_app by discriminate.
    rewrite (terminated_join _ (split_lines_nonempty code)), join_split.
    now rewrite !append_assoc.
Qed.

Lemma generated_has_marker (this : Instrumenter) (instrument : Instrument) :
  exists x y,
    generateInstrumentCode this instrument
    = x +:+ (match language instrument with
             | python => python_probe
             | _ => c_probe
             end) +:+ y.
Proof.
  rewrite generated_delimited, delimited_eq. unfold pattern_of, regionId_of.
  destruct (language instrument); cbn [region_pattern js_pattern py_pattern open_marker].
  - exists "// ". eexists. rewrite !append_assoc. reflexivity.
  - exists "// ". eexists. rewrite !append_assoc. reflexivity.
  - exists EmptyString. eexists. rewrite !append_assoc. reflexivity.
Qed.

(** X3: after an [addInstrument] that returned, [hasInstruments] answers
    [true] for the instrument's file, whatever the file held before and
    whatever the language. *)
Theorem add_then_hasInstruments
    (this that : Instrumenter) (instrument : Instrument) (fs fs' : filesystem) :
  addInstrument this instrument fs = Ok fs' ->
  hasInstruments that (file instrument) fs' = Ok true.
Proof.
  intros H. apply addInstrument_Ok_inv in H as (content & _ & _ & ->).
  unfold hasInstruments, existsSync, readFileSync.
  rewrite lookup_insert_eq. cbn [negb bind]. f_equal.
  change ("#region " +:+ REGION_PREFIX +:+ "-") with c_probe.
  change ("# region " +:+ REGION_PREFIX +:+ "-") with python_probe.
  destruct (spliced_holds_code (split_lines content)
              (Z.to_nat (line instrument - 1))
              (generateInstrumentCode this instrument)) as (x & y & ->).
  destruct (generated_has_marker this instrument) as (u & v & ->).
  assert (E : forall q, x +:+ (u +:+ q +:+ v) +:+ y = (x +:+ u) +:+ q +:+ (v +:+ y))
    by (intros q; now rewrite !append_assoc).
  rewrite E.
  destruct (language instrument); rewrite occurs_middle;
    [reflexivity | reflexivity | apply orb_true_r].
Qed.

Lemma add_then_hasInstruments_witness :
  exists fs',
    addInstrument example_instrumenter appended_instrument two_line_file = Ok fs'
    /\ hasInstruments example_instrumenter "/w/a.js" fs' = Ok true.
Proof.
  pose proof (addInstrument_valid example_instrumenter appended_instrument
                two_line_file two_lines ltac:(vm_compute; reflexivity)
                ltac:(vm_compute; split; discriminate)) as Ha.
  eexists. split; [exact Ha|].
  exact (add_then_hasInstruments example_instrumenter example_instrumenter
           appended_instrument two_line_file _ Ha).
Defined.

(** ** The generated block *)

Lemma region_of_lines (this : Instrumenter) (instrument : Instrument) :
  line_embeddable instrument = true ->
  Forall (fun l => lacks newline l = true) (region_lines (region_of this instrument)).
Proof.
  intros Hle. pose proof (payload_lines this instrument Hle) as Hp.
  unfold line_embeddable in Hle.
  apply andb_prop in Hle as [H _]. apply andb_prop in H as [Hemb _].
  destruct (embeddable_parts _ Hemb) as (Hn & _).
  unfold region_lines. cbn [region_of dialect opening_rest interior closing_rest].
  constructor.
  - rewrite lacks_append, Hn, wildcard_open_line. reflexivity.
  - apply Forall_app. split.
    + apply List.Forall_forall. intros l Hl.
      exact (proj1 (forallb_forall _ _) Hp l Hl).
    + constructor; [|constructor]. unfold regionId_of.
      rewrite !lacks_append, Hn, wildcard_close_line. reflexivity.
Qed.

(** X4: the block generated for an instrument with a plain identifier and
    no [#] or newline in its file name and captured names is made of the
    opening delimiter line, the payload and the closing delimiter line: 12
    lines for JavaScript and TypeScript, 15 for Python. *)
Theorem generated_block_lines (this : Instrumenter) (instrument : Instrument) :
  line_embeddable instrument = true ->
  split_lines (generateInstrumentCode this instrument)
  = region_lines (region_of this instrument)
  /\ length (split_lines (generateInstrumentCode this instrument))
     = match language instrument with python => 15 | _ => 12 end.
Proof.
  intros Hle.
  assert (E : split_lines (generateInstrumentCode this instrument)
              = region_lines (region_of this instrument)).
  { rewrite <- region_of_text. apply split_join; [discriminate|].
    now apply region_of_lines. }
  split; [exact E|]. rewrite E.
  unfold region_lines, region_of, payload. cbn [interior].
  destruct (language instrument); reflexivity.
Qed.

Lemma generated_block_lines_witness :
  line_embeddable python_instrument = true
  /\ length (split_lines (generateInstrumentCode example_instrumenter python_instrument))
     = 15.
Proof.
  assert (H : line_embeddable python_instrument = true) by (vm_compute; reflexivity).
  split; [exact H|].
  exact (proj2 (generated_block_lines example_instrumenter python_instrument H)).
Defined.

(** The block of the instrument of the examples. *)
Lemma generated_region_well_formed_witness :
  line_embeddable inserted_instrument = true
  /\ well_formed_region (region_of example_instrumenter inserted_instrument) = true.
Proof.
  assert (H : line_embeddable inserted_instrument = true) by (vm_compute; reflexivity).
  split; [exact H|].
  exact (generated_region_well_formed example_instrumenter inserted_instrument H).
Defined.

(** ** Removing one instrument among others *)

Lemma strip_prefix_same_length (a b : string) :
  String.length a = String.length b -> a <> b -> strip_prefix a b = None.
Proof.
  intros Hlen Hne. destruct (strip_prefix a b) as [r|] eqn:E; [|reflexivity].
  apply strip_prefix_Some in E. subst b. rewrite length_append in Hlen.
  destruct r; [now rewrite append_nil_r in Hne | simpl in Hlen; lia].
Qed.

Lemma pattern_of_open_hash (instrument : Instrument) :
  lacks hash (open_marker (pattern_of instrument)) = false.
Proof. unfold pattern_of. now destruct (language instrument). Qed.

(** The block of an instrument does not hold the opening marker of another
    instrument whose identifier has the same length. *)
Lemma other_block_unmarked (that : Instrumenter) (a b : Instrument) :
  embeddable a = true ->
  embeddable b = true ->
  String.length (id a) = String.length (id b) ->
  id a <> id b ->
  occurs (open_marker (pattern_of a)) (generateInstrumentCode that b) = false.
Proof.
  intros Ha Hb Hlen Hne.
  pose proof (strip_prefix_same_length _ _ Hlen Hne) as Hstrip.
  destruct (embeddable_parts _ Hb) as (_ & Hhb & _).
  assert (Hid : occurs (open_marker (pattern_of a)) (id b) = false).
  { apply (occurs_lacks hash); [exact Hhb | apply pattern_of_open_hash]. }
  rewrite generated_delimited. unfold delimited.
  apply (occurs_join_lines _ (pattern_of_open_line _ Ha) (pattern_of_open_nonempty _)).
  constructor; [|apply Forall_app; split; [|constructor; [|constructor]]].
  - rewrite append_nil_r. revert Hid. unfold pattern_of, regionId_of.
    destruct (language a), (language b);
      cbn -[occurs]; intros Hid; cbn; rewrite ?Hstrip; cbn; exact Hid.
  - pose proof (payload_lacks_hash that b Hb) as Hp.
    apply List.Forall_forall. intros l Hl.
    apply (occurs_lacks hash); [|apply pattern_of_open_hash].
    exact (proj1 (forallb_forall _ _) Hp l Hl).
  - revert Hid. unfold pattern_of, regionId_of.
    destruct (language a), (language b);
      cbn -[occurs]; intros Hid; cbn; exact Hid.
Qed.

Lemma remove_between (p : RegionPattern) (code : string)
    (pre rest : list string) :
  lacks newline (open_marker p) = true ->
  open_marker p <> EmptyString ->
  (forall x, exec p (code +:+ NL +:+ x) = Some x) ->
  Forall (fun l => occurs (open_marker p) l = false) pre ->
  Forall (fun l => occurs (open_marker p) l = false) rest ->
  rest <> [] ->
  replace p (join_lines (pre ++ code :: rest)) = join_lines (pre ++ rest).
Proof.
  intros Ho Hon Hexec Hpre Hrest Hne.
  rewrite !join_lines_app by (assumption || discriminate).
  rewrite (replace_terminated p Ho Hon _ _ Hpre). f_equal.
  destruct rest as [|r rest]; [congruence|].
  rewrite join_lines_cons, (exec_replace _ _ _ (Hexec _)).
  apply replace_settled, settled_not_occurs.
  now apply (occurs_join_lines _ Ho Hon).
Qed.

(** X6: in a text that holds the blocks of two instruments whose
    identifiers differ and have the same length, removing the first one
    deletes its block and its newline and leaves the rest, the block of the
    other instrument included, as it is. *)
Theorem remove_keeps_other
    (this that : Instrumenter) (a b : Instrument) (pre mid post : list string) :
  embeddable a = true ->
  embeddable b = true ->
  String.length (id a) = String.length (id b) ->
  id a <> id b ->
  forallb (fun l => negb (occurs (open_marker (pattern_of a)) l))
    (pre ++ mid ++ post) = true ->
  removeRegion
    (join_lines (pre ++ generateInstrumentCode this a
                   :: mid ++ generateInstrumentCode that b :: post))
    (regionId_of a) (language a)
  = join_lines (pre ++ mid ++ generateInstrumentCode that b :: post).
Proof.
  intros Ha Hb Hlen Hne Hfree.
  apply forallb_negb_occurs in Hfree.
  apply Forall_app in Hfree as [Hpre Hfree].
  apply Forall_app in Hfree as [Hmid Hpost].
  unfold removeRegion.
  change (region_pattern (language a) (regionId_of a)) with (pattern_of a).
  apply remove_between;
    auto using pattern_of_open_line, pattern_of_open_nonempty, exec_generated.
  - apply Forall_app. split; [exact Hmid|].
    constructor; [now apply other_block_unmarked | exact Hpost].
  - now destruct mid.
Qed.

Lemma remove_keeps_other_witness :
  embeddable inserted_instrument = true
  /\ embeddable python_instrument = true
  /\ removeRegion
       (join_lines (["a"] ++ generateInstrumentCode example_instrumenter inserted_instrument
                      :: ["b"] ++ generateInstrumentCode example_instrumenter python_instrument
                      :: ["c"]))
       (regionId_of inserted_instrument) javascript
     = join_lines (["a"] ++ ["b"]
                     ++ generateInstrumentCode example_instrumenter python_instrument
                     :: ["c"]).
Proof.
  assert (H1 : embeddable inserted_instrument = true) by (vm_compute; reflexivity).
  assert (H2 : embeddable python_instrument = true) by (vm_compute; reflexivity).
  split; [exact H1|]. split; [exact H2|].
  exact (remove_keeps_other example_instrumenter example_instrumenter
           inserted_instrument python_instrument ["a"] ["b"] ["c"] H1 H2 eq_refl
           ltac:(vm_compute; discriminate) ltac:(vm_compute; reflexivity)).
Defined.

(** ** The language of a file and the identifier of an instrument *)

Lemma split_on_no_sep (sep : ascii) (s : string) :
  lacks sep s = true -> split_on sep s = [s].
Proof.
  induction s as [|c s IH]; [reflexivity|]. simpl. intros H.
  apply andb_prop in H as [Hc Hs]. apply negb_true_iff in Hc.
  now rewrite Hc, (IH Hs).
Qed.

Lemma split_on_nonempty (sep : ascii) (s : string) : split_on sep s <> [].
Proof.
  induction s as [|c s IH]; simpl; [discriminate|].
  destruct (Ascii.eqb c sep); [discriminate|].
  destruct (split_on sep s); congruence.
Qed.

Lemma last_cons_nonempty {A : Type} (x d : A) (l : list A) :
  l <> [] -> List.last (x :: l) d = List.last l d.
Proof. destruct l; [congruence | reflexivity]. Qed.

Lemma split_on_two (sep : ascii) (s : string) :
  lacks sep s = false -> exists a b rest, split_on sep s = a :: b :: rest.
Proof.
  induction s as [|c s IH]; [discriminate|]. simpl.
  destruct (Ascii.eqb c sep) eqn:Ec; simpl.
  - intros _. pose proof (split_on_nonempty sep s).
    destruct (split_on sep s) as [|b rest]; [congruence|]. eauto.
  - intros H. destruct (IH H) as (a & b & rest & ->). eauto.
Qed.

(** [path.split('.').pop()] is what follows the last dot. *)
Lemma extension_after_dot (stem ext : string) :
  lacks dot ext = true ->
  List.last (split_on dot (stem +:+ "." +:+ ext)) EmptyString = ext.
Proof.
  intros H. induction stem as [|c stem IH].
  - change (EmptyString +:+ "." +:+ ext) with (String dot ext).
    cbn [split_on]. rewrite Ascii.eqb_refl, (split_on_no_sep _ _ H). reflexivity.
  - change (String c stem +:+ "." +:+ ext) with (String c (stem +:+ "." +:+ ext)).
    cbn [split_on].
    assert (Hd : lacks dot (stem +:+ "." +:+ ext) = false).
    { rewrite lacks_append. cbn. apply andb_false_r. }
    destruct (split_on_two _ _ Hd) as (a & b & rest & E). rewrite E in *.
    destruct (Ascii.eqb c dot); exact IH.
Qed.

Lemma lower_idempotent (c : ascii) : lower (lower c) = lower c.
Proof. destruct c as [[] [] [] [] [] [] [] []]; vm_compute; reflexivity. Qed.

Lemma lower_dot (c : ascii) : Ascii.eqb (lower c) dot = Ascii.eqb c dot.
Proof. destruct c as [[] [] [] [] [] [] [] []]; vm_compute; reflexivity. Qed.

Lemma toLowerCase_idempotent (s : string) :
  toLowerCase (toLowerCase s) = toLowerCase s.
Proof.
  induction s as [|c s IH]; [reflexivity|]. simpl.
  now rewrite lower_idempotent, IH.
Qed.

Lemma toLowerCase_lacks_dot (s : string) :
  lacks dot (toLowerCase s) = lacks dot s.
Proof.
  induction s as [|c s IH]; [reflexivity|]. simpl.
  now rewrite lower_dot, IH.
Qed.

Lemma detectLanguage_no_dot (name : string) :
  lacks dot name = true ->
  Session.detectLanguage name
  = let ext := toLowerCase name in
    if String.eqb ext "ts" || String.eqb ext "tsx" then typescript
    else if String.eqb ext "js" || String.eqb ext "jsx"
            || String.eqb ext "mjs" || String.eqb ext "cjs" then javascript
    else if String.eqb ext "py" then python
    else javascript.
Proof.
  intros H. unfold Session.detectLanguage.
  now rewrite (split_on_no_sep _ _ H).
Qed.

(** X7: the language of a file is decided by what follows the last dot of
    its name, whatever the case of the letters: [py] gives Python, [ts] and
    [tsx] give TypeScript, everything else JavaScript.  A name without any
    dot counts as its own extension. *)
Theorem detectLanguage_by_extension (stem ext : string) :
  lacks dot ext = true ->
  let detected := Session.detectLanguage (stem +:+ "." +:+ ext) in
  detected = Session.detectLanguage ext
  /\ detected = Session.detectLanguage (toLowerCase ext)
  /\ (detected = python <-> toLowerCase ext = "py")
  /\ (detected = typescript
      <-> toLowerCase ext = "ts" \/ toLowerCase ext = "tsx").
Proof.
  intros H detected.
  assert (E : detected
              = let e := toLowerCase ext in
                if String.eqb e "ts" || String.eqb e "tsx" then typescript
                else if String.eqb e "js" || String.eqb e "jsx"
                        || String.eqb e "mjs" || String.eqb e "cjs" then javascript
                else if String.eqb e "py" then python
                else javascript).
  { subst detected. unfold Session.detectLanguage.
    now rewrite (extension_after_dot _ _ H). }
  split; [now rewrite detectLanguage_no_dot|].
  split.
  { rewrite detectLanguage_no_dot by now rewrite toLowerCase_lacks_dot.
    now rewrite toLowerCase_idempotent. }
  rewrite E. cbv zeta.
  destruct (String.eqb_spec (toLowerCase ext) "ts") as [->|H1];
    [split; split; (discriminate || auto)|].
  destruct (String.eqb_spec (toLowerCase ext) "tsx") as [->|H2];
    [split; split; (discriminate || auto)|].
  cbn [orb].
  destruct (String.eqb (toLowerCase ext) "js" || String.eqb (toLowerCase ext) "jsx"
            || String.eqb (toLowerCase ext) "mjs" || String.eqb (toLowerCase ext) "cjs")
    eqn:Ejs.
  - split; split; try discriminate; [|intros [?|?]; congruence].
    intros Hpy. rewrite Hpy in Ejs. discriminate.
  - destruct (String.eqb_spec (toLowerCase ext) "py") as [Hpy|Hpy].
    + split; split; try discriminate; auto. intros [?|?]; congruence.
    + split; split; try discriminate; try congruence. intros [?|?]; congruence.
Qed.

Lemma detectLanguage_by_extension_witness :
  lacks dot "PY" = true
  /\ Session.detectLanguage ("src/app.test" +:+ "." +:+ "PY") = python.
Proof.
  assert (H : lacks dot "PY" = true) by reflexivity.
  split; [exact H|].
  exact (proj2 (proj1 (proj2 (proj2 (detectLanguage_by_extension "src/app.test" "PY" H))))
           eq_refl).
Defined.

(** ** What the Log Collector does to the files *)

Lemma appendFileSync_frame (fs fs' : filesystem) (path data : string) :
  appendFileSync fs path data = Ok fs' ->
  (forall other, other <> path -> fs' !! other = fs !! other)
  /\ (forall content writable,
        fs !! path = Some (RegularFile content writable) ->
        fs' !! path = Some (RegularFile (content +:+ data) writable)).
Proof.
  unfold appendFileSync.
  destruct (fs !! path) as [[content [|]|]|] eqn:E; try discriminate;
    intros [= <-]; (split; [intros other Ho; now rewrite lookup_insert_ne|]);
    intros c w [= <- <-]; apply lookup_insert_eq.
Qed.

(** X8: whatever the request, the answer of the Log Collector carries the
    three CORS headers; no file but the log file is touched; the text that
    the log file held is still there, at the start of the text it holds
    afterwards; a request that is not a POST to [/log] changes no file;
    and the status is 204 exactly for the method OPTIONS, whatever the
    path. *)
Theorem handleRequest_frame
    (rt : Runtime) (this : DebugLogServer) (env : Env) (req : Request)
    (fs : filesystem) :
  let answer := Collector.handleRequest rt this env req fs in
  (forall h, In h Collector.cors -> In h (headers (fst answer)))
  /\ (forall path, path <> server_logFile this -> snd answer !! path = fs !! path)
  /\ (forall content writable,
        fs !! server_logFile this = Some (RegularFile content writable) ->
        exists more,
          snd answer !! server_logFile this
          = Some (RegularFile (content +:+ more) writable))
  /\ (String.eqb (method req) "POST" && String.eqb (url req) "/log" = false ->
      snd answer = fs)
  /\ (status (fst answer) = 204 <-> method req = "OPTIONS").
Proof.
  intros answer. subst answer. unfold Collector.handleRequest.
  assert (Hsame : forall content writable,
            fs !! server_logFile this = Some (RegularFile content writable) ->
            exists more,
              fs !! server_logFile this
              = Some (RegularFile (content +:+ more) writable)).
  { intros content writable H. exists EmptyString. now rewrite append_nil_r. }
  assert (Hin : forall code v h,
            In h Collector.cors -> In h (headers (Collector.json_response code v))).
  { intros code v h H. unfold Collector.json_response. cbn [headers].
    apply in_or_app. now left. }
  destruct (String.eqb_spec (method req) "OPTIONS") as [Ho|Ho].
  { cbn [fst snd headers status]. repeat split; auto. }
  destruct (String.eqb (method req) "GET" && String.eqb (url req) "/health").
  { cbn [fst snd status Collector.json_response].
    repeat split; auto; try discriminate; intros; tauto. }
  destruct (String.eqb (method req) "POST" && String.eqb (url req) "/log").
  2:{ cbn [fst snd status Collector.json_response].
      repeat split; auto; try discriminate; intros; tauto. }
  destruct (JSON_parse rt _) as [logEntry|].
  2:{ cbn [fst snd status Collector.json_response].
      repeat split; auto; try discriminate; intros; tauto. }
  unfold Collector.writeLog.
  destruct (appendFileSync fs _ _) as [fs'|message] eqn:E.
  2:{ cbn [fst snd status Collector.json_response].
      repeat split; auto; try discriminate; intros; tauto. }
  destruct (appendFileSync_frame _ _ _ _ E) as [Hother Hlog].
  cbn [fst snd status Collector.json_response].
  split; [auto|]. split; [exact Hother|]. split.
  - intros content writable H. eexists. exact (Hlog _ _ H).
  - split; [discriminate|]. split; [discriminate | tauto].
Qed.

(** ** The log store between the Log Collector and the tools *)

Lemma blank_append (a b : string) : blank (a +:+ b) = blank a && blank b.
Proof.
  induction a as [|c a IH]; [reflexivity|].
  change (String c a +:+ b) with (String c (a +:+ b)). cbn [blank].
  now rewrite IH, andb_assoc.
Qed.

Lemma logged_not_blank (entry : json) (receivedAt : Z) :
  blank (JSON_stringify (Collector.logged entry receivedAt)) = false.
Proof. reflexivity. Qed.

(** X9: what is posted to the Log Collector of the session is what the
    session reads: after a POST to [/log] whose body parses, [readLogs]
    returns the text that the log file held followed by the line of the
    entry, and [read_debug_logs] in the raw format answers with that
    text. *)
Theorem posted_entry_read_back
    (rt : Runtime) (env env' : Env) (w : World) (s : DebugSession)
    (srv : DebugLogServer) (req : Request) (entry : json) (content : string) :
  session (sessionManager w) = Some s ->
  server (sessionManager w) = Some srv ->
  server_logFile srv = logFile s ->
  files w !! logFile s = Some (RegularFile content true) ->
  method req = "POST" ->
  url req = "/log" ->
  JSON_parse rt (String.concat EmptyString (chunks req)) = Some entry ->
  let w' := with_files w (snd (Collector.handleRequest rt srv env req (files w))) in
  let logs := content +:+ JSON_stringify (Collector.logged entry (now env)) +:+ NL in
  Session.readLogs w' = (Ok logs, w')
  /\ call_tool rt env' (read_debug_logs (Some "raw")) w' = (success logs, w').
Proof.
  intros Hs Hsrv Hlog Hfile Hm Hu Hparse w' logs.
  assert (Hw : w' = with_files w (<[logFile s := RegularFile logs true]> (files w))).
  { subst w'. f_equal. unfold Collector.handleRequest. rewrite Hm, Hu.
    change (String.eqb "POST" "OPTIONS") with false.
    change (String.eqb "POST" "GET") with false.
    change (String.eqb "POST" "POST") with true.
    change (String.eqb "/log" "/log") with true.
    cbn [andb]. rewrite Hparse.
    unfold Collector.writeLog, appendFileSync. now rewrite Hlog, Hfile. }
  assert (E : Session.readLogs w' = (Ok logs, w')).
  { rewrite Hw.
    unfold Session.readLogs, mbind, get_manager, get_files, ret, existsSync,
      read_files, on_files, readFileSync, with_files.
    cbn [sessionManager files instrumenter]. rewrite Hs.
    repeat (cbn [negb bind files sessionManager instrumenter];
            rewrite ?lookup_insert_eq).
    reflexivity. }
  split; [exact E|].
  unfold call_tool, handle, mbind at 1, get_manager, Session.isActive.
  assert (Hs' : session (sessionManager w') = Some s) by exact Hs.
  rewrite Hs'. cbn [negb truthy]. unfold mbind. rewrite E.
  subst logs. rewrite !blank_append, logged_not_blank, andb_false_r.
  reflexivity.
Qed.

Lemma posted_entry_read_back_witness :
  let w' :=
    with_files started
      (snd (Collector.handleRequest example_runtime example_server first_env
              (log_request [JSON_stringify example_entry]) (files started))) in
  server (sessionManager started) = Some example_server
  /\ Session.readLogs w'
     = (Ok (JSON_stringify (Collector.logged example_entry 1000) +:+ NL), w').
Proof.
  intros w'.
  assert (H1 : exists s, session (sessionManager started) = Some s
                         /\ logFile s = "/w/debug.log")
    by (eexists; split; vm_compute; reflexivity).
  destruct H1 as (s & Hs & Hl).
  assert (H2 : server (sessionManager started) = Some example_server)
    by (vm_compute; reflexivity).
  assert (H3 : files started !! logFile s = Some (RegularFile EmptyString true))
    by (rewrite Hl; vm_compute; reflexivity).
  assert (H4 : JSON_parse example_runtime
                 (String.concat EmptyString
                    (chunks (log_request [JSON_stringify example_entry])))
               = Some example_entry) by (vm_compute; reflexivity).
  split; [exact H2|].
  exact (proj1 (posted_entry_read_back example_runtime first_env second_env started
                  s example_server (log_request [JSON_stringify example_entry])
                  example_entry EmptyString Hs H2 (eq_sym Hl) H3 eq_refl eq_refl H4)).
Defined.

(** X10: in an active session whose log file can be written (or is not
    there), [clear_debug_logs] answers without an error and changes nothing
    but the log file, which is empty afterwards: [readLogs] returns the empty
    text and [read_debug_logs] answers that no logs were collected. *)
Theorem clear_then_read
    (rt : Runtime) (env env' : Env) (w : World) (s : DebugSession)
    (format : option string) :
  session (sessionManager w) = Some s ->
  files w !! logFile s <> Some Directory ->
  (forall content, files w !! logFile s <> Some (RegularFile content false)) ->
  let cleared := call_tool rt env clear_debug_logs w in
  cleared
  = (success "Debug logs cleared.",
     with_files w (<[logFile s := RegularFile EmptyString true]> (files w)))
  /\ Session.readLogs (snd cleared) = (Ok EmptyString, snd cleared)
  /\ call_tool rt env' (read_debug_logs format) (snd cleared)
     = (success
          "No logs collected yet. Make sure to reproduce the bug to trigger the instruments.",
        snd cleared).
Proof.
  intros Hs Hd Hro cleared.
  assert (E : cleared
              = (success "Debug logs cleared.",
                 with_files w (<[logFile s := RegularFile EmptyString true]> (files w)))).
  { subst cleared.
    unfold call_tool, handle, mbind, get_manager, Session.isActive,
      Session.clearLogs, mbind, get_manager, write_files, on_files, writeFileSync.
    rewrite Hs. cbn [negb]. cbv beta iota. rewrite Hs. unfold ret.
    destruct (files w !! logFile s) as [[content [|]|]|] eqn:Ef;
      [reflexivity | now destruct (Hro content) | congruence | reflexivity]. }
  split; [exact E|]. rewrite E. cbn [snd].
  assert (R : Session.readLogs
                (with_files w (<[logFile s := RegularFile EmptyString true]> (files w)))
              = (Ok EmptyString,
                 with_files w (<[logFile s := RegularFile EmptyString true]> (files w)))).
  { unfold Session.readLogs, mbind, get_manager, get_files, ret, existsSync,
      read_files, on_files, readFileSync, with_files.
    cbn [sessionManager files instrumenter]. rewrite Hs.
    repeat (cbn [negb bind files sessionManager instrumenter];
            rewrite ?lookup_insert_eq).
    reflexivity. }
  split; [exact R|].
  unfold call_tool, handle, mbind at 1, get_manager, Session.isActive.
  cbn [with_files sessionManager]. rewrite Hs. cbn [negb].
  unfold mbind. fold (with_files w (<[logFile s := RegularFile EmptyString true]> (files w))).
  rewrite R. reflexivity.
Qed.

Lemma clear_then_read_witness :
  Session.readLogs posted
  = (Ok (JSON_stringify (Collector.logged example_entry 1000) +:+ NL), posted)
  /\ Session.readLogs (snd (call_tool example_runtime second_env clear_debug_logs posted))
     = (Ok EmptyString,
        snd (call_tool example_runtime second_env clear_debug_logs posted)).
Proof.
  assert (H1 : exists s, session (sessionManager posted) = Some s
                         /\ logFile s = "/w/debug.log")
    by (eexists; split; vm_compute; reflexivity).
  destruct H1 as (s & Hs & Hl).
  assert (H2 : files posted !! logFile s <> Some Directory)
    by (rewrite Hl; vm_compute; discriminate).
  assert (H3 : forall content,
             files posted !! logFile s <> Some (RegularFile content false))
    by (intros content; rewrite Hl; vm_compute; discriminate).
  split; [vm_compute; reflexivity|].
  exact (proj1 (proj2 (clear_then_read example_runtime second_env second_env posted
                         s None Hs H2 H3))).
Defined.

(** * What every tool keeps *)

Lemma with_files_same (w : World) : with_files w (files w) = w.
Proof. now destruct w. Qed.

Lemma invariant_ret {A : Type} (P : World -> Prop) (a : A) : invariant P (ret a).
Proof. intros w H. exact H. Qed.

Lemma invariant_throw {A : Type} (P : World -> Prop) (message : string) :
  invariant P (throw (A := A) message).
Proof. intros w H. exact H. Qed.

Lemma invariant_bind {A B : Type} (P : World -> Prop) (m : M A) (k : A -> M B) :
  invariant P m -> (forall a, invariant P (k a)) -> invariant P (mbind m k).
Proof.
  intros Hm Hk w H. unfold mbind. specialize (Hm w H).
  destruct (m w) as [[a|e] w1]; cbn [snd] in *; [now apply Hk | exact Hm].
Qed.

Lemma invariant_for_each {A : Type} (P : World -> Prop) (items : list A)
    (body : A -> M unit) :
  (forall x, invariant P (body x)) -> invariant P (for_each items body).
Proof.
  intros Hb. induction items as [|x rest IH]; cbn [for_each].
  - apply invariant_ret.
  - apply invariant_bind; [apply Hb | intros _; exact IH].
Qed.

Lemma invariant_get_manager (P : World -> Prop) : invariant P get_manager.
Proof. intros w H. exact H. Qed.

Lemma invariant_get_instrumenter (P : World -> Prop) : invariant P get_instrumenter.
Proof. intros w H. exact H. Qed.

Lemma invariant_get_files (P : World -> Prop) : invariant P get_files.
Proof. intros w H. exact H. Qed.

Section Tools.
Variable P : World -> Prop.
Hypothesis P_files : forall w fs, P w -> P (with_files w fs).
Hypothesis P_add :
  forall rt env options, invariant P (Session.addInstrument rt env options).
Hypothesis P_remove : forall key, invariant P (Session.removeInstrument key).
Hypothesis P_clear : invariant P Session.clearInstruments.

Lemma invariant_on_files {A : Type} (f : filesystem -> result (filesystem * A)) :
  invariant P (on_files f).
Proof using P_files.
  intros w H. unfold on_files. destruct (f (files w)) as [[fs' a]|e]; cbn [snd].
  - exact (P_files w fs' H).
  - exact H.
Qed.

Lemma invariant_readLogs : invariant P Session.readLogs.
Proof using P_files.
  unfold Session.readLogs. apply invariant_bind; [apply invariant_get_manager|].
  intros this. destruct (session this); [|apply invariant_throw].
  apply invariant_bind; [apply invariant_get_files|]. intros fs.
  destruct (negb _); [apply invariant_ret | apply invariant_on_files].
Qed.

Lemma invariant_clearLogs : invariant P Session.clearLogs.
Proof using P_files.
  unfold Session.clearLogs. apply invariant_bind; [apply invariant_get_manager|].
  intros this. destruct (session this); [|apply invariant_throw].
  apply invariant_on_files.
Qed.

(** The tools that neither begin nor end a session. *)
Lemma invariant_handle (rt : Runtime) (env : Env) (call : ToolCall) :
  lifecycle call = false -> invariant P (handle rt env call).
Proof using P_files P_add P_remove P_clear.
  destruct call as [port| |path line capture|path| |format| |name];
    try discriminate; intros _; cbn [handle].
  - apply invariant_bind; [apply invariant_get_manager|]. intros this.
    apply invariant_bind; [apply invariant_get_instrumenter|]. intros current.
    destruct (Session.isActive this); [|apply invariant_ret].
    destruct current as [i|]; [|apply invariant_ret].
    destruct (truthy path) as [p|]; [|apply invariant_ret].
    destruct line as [l|]; [|apply invariant_ret].
    destruct (l =? 0)%Z; [apply invariant_ret|].
    apply invariant_bind; [apply P_add|]. intros instrument.
    apply invariant_bind; [apply invariant_on_files|]. intros _.
    apply invariant_ret.
  - apply invariant_bind; [apply invariant_get_manager|]. intros this.
    apply invariant_bind; [apply invariant_get_instrumenter|]. intros current.
    destruct (Session.isActive this); [|apply invariant_ret].
    destruct current as [i|]; [|apply invariant_ret].
    destruct (truthy path) as [p|].
    + apply invariant_bind; [|intros _; apply invariant_ret].
      apply invariant_for_each. intros instrument.
      apply invariant_bind; [apply invariant_on_files|]. intros _.
      apply invariant_bind; [apply P_remove|]. intros _. apply invariant_ret.
    + apply invariant_bind.
      * apply invariant_for_each. intros instrument.
        apply invariant_bind; [apply invariant_on_files|]. intros _.
        apply invariant_ret.
      * intros _. apply invariant_bind; [apply P_clear|]. intros _.
        apply invariant_ret.
  - apply invariant_bind; [apply invariant_get_manager|]. intros this.
    destruct (Session.getInstruments this); apply invariant_ret.
  - apply invariant_bind; [apply invariant_get_manager|]. intros this.
    destruct (negb _); [apply invariant_ret|].
    apply invariant_bind; [apply invariant_readLogs|]. intros logs.
    destruct (blank logs); [apply invariant_ret|].
    destruct (String.eqb _ _); apply invariant_ret.
  - apply invariant_bind; [apply invariant_get_manager|]. intros this.
    destruct (negb _); [apply invariant_ret|].
    apply invariant_bind; [apply invariant_clearLogs|]. intros _.
    apply invariant_ret.
  - apply invariant_ret.
Qed.

Lemma call_tool_snd (rt : Runtime) (env : Env) (call : ToolCall) (w : World) :
  snd (call_tool rt env call w) = snd (handle rt env call w).
Proof. unfold call_tool. now destruct (handle rt env call w) as [[r|e] w']. Qed.

Lemma invariant_call (rt : Runtime) (env : Env) (call : ToolCall) (w : World) :
  lifecycle call = false -> P w -> P (snd (call_tool rt env call w)).
Proof using P_files P_add P_remove P_clear.
  intros Hc H. rewrite call_tool_snd. now apply invariant_handle.
Qed.

(** The loop of [stop_debug_session] and of [remove_instruments] without a
    file: the Instrumenter is asked to remove each instrument. *)
Lemma invariant_remove_loop (i : Instrumenter) (items : list Instrument) :
  invariant P
    (for_each items
       (fun instrument =>
          let! _ := on_files (removeInstrument i instrument) in ret tt)).
Proof using P_files.
  apply invariant_for_each. intros instrument.
  apply invariant_bind; [apply invariant_on_files | intros _; apply invariant_ret].
Qed.
End Tools.

(** ** The setting of a session *)

Lemma same_session_refl (a : option DebugSession) : same_session a a.
Proof. destruct a; cbn; auto. Qed.

Lemma same_setting_refl (w : World) : same_setting w w.
Proof. unfold same_setting. auto using same_session_refl. Qed.

Lemma same_setting_files (w0 w : World) (fs : filesystem) :
  same_setting w0 w -> same_setting w0 (with_files w fs).
Proof. intros H. exact H. Qed.

(** Putting other instruments into the session of a world. *)
Lemma same_setting_instruments (w0 w : World) (s : DebugSession)
    (m : list (string * Instrument)) :
  same_setting w0 w ->
  session (sessionManager w) = Some s ->
  same_setting w0
    {| sessionManager :=
         Session.set_session (sessionManager w)
           (Some {| session_id := session_id s;
                    session_port := session_port s;
                    startedAt := startedAt s;
                    logFile := logFile s;
                    instruments := m |});
       instrumenter := instrumenter w;
       files := files w |}.
Proof.
  unfold same_setting. intros (H1 & H2 & H3 & H4) Hs.
  cbn [sessionManager instrumenter Session.set_session session server
       workingDirectory].
  rewrite Hs in H1. repeat split; assumption.
Qed.

Lemma same_setting_add (w0 : World) (rt : Runtime) (env : Env)
    (options : InstrumentOptions) :
  invariant (same_setting w0) (Session.addInstrument rt env options).
Proof.
  intros w H. unfold Session.addInstrument, mbind, get_manager, set_manager, ret.
  destruct (session (sessionManager w)) as [s|] eqn:Hs; [|exact H].
  cbn [snd sessionManager instrumenter files].
  now apply same_setting_instruments.
Qed.

Lemma same_setting_remove (w0 : World) (key : string) :
  invariant (same_setting w0) (Session.removeInstrument key).
Proof.
  intros w H. unfold Session.removeInstrument, mbind, get_manager, set_manager, ret.
  destruct (session (sessionManager w)) as [s|] eqn:Hs; [|exact H].
  cbn [snd sessionManager instrumenter files].
  now apply same_setting_instruments.
Qed.

Lemma same_setting_clear (w0 : World) :
  invariant (same_setting w0) Session.clearInstruments.
Proof.
  intros w H. unfold Session.clearInstruments, mbind, get_manager, set_manager, ret.
  destruct (session (sessionManager w)) as [s|] eqn:Hs; [|exact H].
  cbn [snd sessionManager instrumenter files].
  now apply same_setting_instruments.
Qed.

(** X11: a tool other than [start_debug_session] and [stop_debug_session]
    never begins, ends or replaces the session, whether it answers with an
    error or not: afterwards the session is active exactly if it was, with
    the identifier, port, start time and log file it had, and the Log
    Collector, the working directory and the Instrumenter are the same. *)
Theorem tools_keep_setting (rt : Runtime) (env : Env) (call : ToolCall) (w : World) :
  lifecycle call = false ->
  same_setting w (snd (call_tool rt env call w)).
Proof.
  intros Hc.
  apply (invariant_call (same_setting w)); auto using same_setting_refl,
    same_setting_files, same_setting_add, same_setting_remove, same_setting_clear.
Qed.

Lemma tools_keep_setting_witness :
  lifecycle (remove_instruments None) = false
  /\ same_setting instrumented
       (snd (call_tool example_runtime first_env (remove_instruments None)
               instrumented)).
Proof.
  split; [reflexivity|].
  exact (tools_keep_setting example_runtime first_env (remove_instruments None)
           instrumented eq_refl).
Defined.

(** ** What the two other tools leave *)

Lemma stop_outcome (rt : Runtime) (env : Env) (w : World) :
  let w' := snd (handle rt env stop_debug_session w) in
  (exists fs, w' = with_files w fs)
  \/ (session (sessionManager w') = None
      /\ instrumenter w' = None
      /\ workingDirectory (sessionManager w')
         = workingDirectory (sessionManager w)).
Proof.
  intros w'. assert (E : w' = snd (handle rt env stop_debug_session w)) by reflexivity.
  clearbody w'. revert E.
  unfold handle, mbind at 1, get_manager. cbv beta iota.
  destruct (Session.isActive (sessionManager w)); cbn [negb].
  2:{ intros ->. left. exists (files w). cbn [ret snd]. now rewrite with_files_same. }
  unfold mbind at 1, get_instrumenter. unfold mbind at 1.
  assert (Hloop : exists fs,
            snd ((match instrumenter w with
                  | Some i =>
                      for_each (Session.getInstruments (sessionManager w))
                        (fun instrument =>
                           let! _ := on_files (removeInstrument i instrument) in
                           ret tt)
                  | None => ret tt
                  end) w) = with_files w fs).
  { destruct (instrumenter w) as [i|].
    - apply (invariant_remove_loop (fun w' => exists fs, w' = with_files w fs)).
      + intros w1 fs1 [fs ->]. now exists fs1.
      + exists (files w). now rewrite with_files_same.
    - exists (files w). cbn [ret snd]. now rewrite with_files_same. }
  destruct Hloop as [fs Hfs].
  destruct (match instrumenter w with
            | Some i => _
            | None => ret tt
            end w) as [[[]|m] w1]; cbn [snd] in Hfs; subst w1.
  - intros ->. right.
    unfold Session.stopSession, mbind, get_manager, set_manager,
      set_instrumenter, ret.
    cbn [snd sessionManager instrumenter files with_files].
    destruct (server (sessionManager w)); cbn; auto.
  - intros ->. left. now exists fs.
Qed.

(** The world that a start leaves when the port cannot be bound. *)
Lemma start_outcome (rt : Runtime) (env : Env) (port : option Z) (w : World) :
  let w' := snd (handle rt env (start_debug_session port) w) in
  w' = w
  \/ (session (sessionManager w) = None /\ w' = fresh_world rt env port w)
  \/ (session (sessionManager w) = None
      /\ session (sessionManager w') = None
      /\ instrumenter w' = instrumenter w
      /\ workingDirectory (sessionManager w')
         = workingDirectory (sessionManager w)).
Proof.
  intros w'.
  assert (E : w' = snd (handle rt env (start_debug_session port) w)) by reflexivity.
  clearbody w'. revert E. unfold handle.
  unfold Session.startSession, mbind, get_manager, get_files.
  destruct (session (sessionManager w)) as [s|] eqn:Hs; [intros ->; now left|].
  set (logPath := resolve rt (workingDirectory (sessionManager w)) "debug.log") in *.
  unfold existsSync, write_files, on_files, unlinkSync, ret.
  unfold fresh_world, fresh_session. fold logPath. cbn [logFile].
  unfold writeFileSync, LogServer.start, LogServer.create,
    set_manager, get_manager, set_instrumenter, ret.
  destruct (files w !! logPath) as [[content writable|]|] eqn:E.
  - destruct (port_free env) eqn:Hp.
    + repeat (cbn [bind files sessionManager instrumenter server_port
                   server_logFile fst snd];
              rewrite ?E, ?lookup_delete_eq, ?Hp).
      rewrite insert_delete_eq. intros ->. right; left. now split.
    + repeat (cbn [bind files sessionManager instrumenter server_port
                   server_logFile fst snd];
              rewrite ?E, ?lookup_delete_eq, ?Hp).
      intros ->. right; right. cbn. auto.
  - repeat (cbn [bind files sessionManager instrumenter fst snd]; rewrite ?E).
    intros ->. now left.
  - destruct (port_free env) eqn:Hp.
    + repeat (cbn [bind files sessionManager instrumenter server_port
                   server_logFile fst snd];
              rewrite ?E, ?Hp).
      intros ->. right; left. now split.
    + repeat (cbn [bind files sessionManager instrumenter server_port
                   server_logFile fst snd];
              rewrite ?E, ?Hp).
      intros ->. right; right. cbn. auto.
Qed.

(** ** The Instrumenter, the Log Collector and the session agree *)

Lemma coherent_same_setting (rt : Runtime) (w w' : World) :
  coherent rt w -> same_setting w w' -> coherent rt w'.
Proof.
  unfold coherent, same_setting. intros H (H1 & H2 & H3 & H4).
  destruct (session (sessionManager w)) as [s|],
    (session (sessionManager w')) as [s'|]; cbn in H1; try contradiction.
  - destruct H1 as (_ & Hp & _ & Hl), H as (Hi & Hsrv & Hlog).
    rewrite H2, H3, H4, Hp, Hl. auto.
  - congruence.
Qed.

Lemma coherent_call (rt : Runtime) (env : Env) (call : ToolCall) (w : World) :
  coherent rt w ->
  coherent rt (snd (call_tool rt env call w))
  /\ workingDirectory (sessionManager (snd (call_tool rt env call w)))
     = workingDirectory (sessionManager w).
Proof.
  intros H. destruct (lifecycle call) eqn:Hc.
  - rewrite call_tool_snd.
    destruct call as [port| |path line capture|path| |format| |name];
      try discriminate.
    + pose proof (start_outcome rt env port w) as Ho. cbv zeta in Ho.
      destruct Ho as [-> | [(Hs & ->) | (Hs & Hs' & Hi & Hwd)]].
      * now split.
      * split; [|reflexivity]. unfold coherent, fresh_world, fresh_session.
        cbn. auto.
      * split; [|exact Hwd]. unfold coherent in *. rewrite Hs', Hi.
        now rewrite Hs in H.
    + pose proof (stop_outcome rt env w) as Ho. cbv zeta in Ho.
      destruct Ho as [[fs ->] | (Hs & Hi & Hwd)].
      * now split.
      * split; [|exact Hwd]. unfold coherent. now rewrite Hs.
  - assert (Hk : same_setting w (snd (call_tool rt env call w)))
      by (apply (invariant_call (same_setting w));
          auto using same_setting_refl, same_setting_files, same_setting_add,
            same_setting_remove, same_setting_clear).
    split; [now apply (coherent_same_setting rt w) | apply Hk].
Qed.

(** X12: from a world in which the Instrumenter, the Log Collector and the
    session agree (the process before any call is one), every sequence of
    tool calls, answered with errors or not, leaves such a world: there is
    an Instrumenter exactly while a session is active; its blocks post to
    the port of the session, on which the Log Collector listens; the Log
    Collector appends to the log file of the session, which is [debug.log]
    in the working directory; and the working directory never changes. *)
Theorem coherent_run (rt : Runtime) (calls : list (Env * ToolCall)) (w : World) :
  coherent rt w ->
  coherent rt (run rt calls w)
  /\ workingDirectory (sessionManager (run rt calls w))
     = workingDirectory (sessionManager w).
Proof.
  revert w. induction calls as [|[env call] rest IH]; intros w H; cbn [run].
  - now split.
  - destruct (coherent_call rt env call w H) as [H1 H2].
    destruct (IH _ H1) as [H3 H4]. split; [exact H3 | congruence].
Qed.

Lemma coherent_run_witness :
  let calls :=
    [ (first_env, start_debug_session (Some 9000%Z));
      (first_env, add_instrument (Some "a.js") (Some 5%Z) None);
      (second_env, add_instrument (Some "b.js") (Some 1%Z) (Some ["x"]));
      (second_env, remove_instruments (Some "a.js")) ] in
  coherent example_runtime (idle two_files)
  /\ instrumenter (run example_runtime calls (idle two_files))
     = Some {| port := 9000 |}
  /\ coherent example_runtime (run example_runtime calls (idle two_files)).
Proof.
  intros calls.
  assert (H : coherent example_runtime (idle two_files)) by reflexivity.
  split; [exact H|]. split; [vm_compute; reflexivity|].
  exact (proj1 (coherent_run example_runtime calls (idle two_files) H)).
Defined.

(** ** The map of the instruments *)

Lemma map_has_keys {V : Type} (key : string) (m : list (string * V)) :
  map_has key m = true <-> In key (map fst m).
Proof.
  induction m as [|[k v] m IH]; cbn [map_has map fst In].
  - split; [discriminate | contradiction].
  - destruct (String.eqb_spec k key) as [->|Hne]; cbn [orb].
    + split; auto.
    + destruct IH as [IH1 IH2]. split; [auto|].
      intros [?|?]; [contradiction | auto].
Qed.

Lemma map_set_keys {V : Type} (key : string) (value : V) (m : list (string * V)) :
  map fst (map_set key value m)
  = if map_has key m then map fst m else map fst m ++ [key].
Proof.
  induction m as [|[k v] m IH]; cbn [map_set map_has map fst app]; [reflexivity|].
  destruct (String.eqb k key) eqn:E; cbn [orb map fst]; [reflexivity|].
  rewrite IH. now destruct (map_has key m).
Qed.

Lemma map_delete_keys {V : Type} (key k : string) (m : list (string * V)) :
  In k (map fst (map_delete key m)) -> In k (map fst m).
Proof.
  induction m as [|[k0 v] m IH]; cbn [map_delete map fst In]; [auto|].
  destruct (String.eqb k0 key); cbn [map fst In]; tauto.
Qed.

Lemma keyed_set (instrument : Instrument) (m : list (string * Instrument)) :
  keyed m -> keyed (map_set (id instrument) instrument m).
Proof.
  intros [Hn Hf]. split.
  - rewrite map_set_keys. destruct (map_has (id instrument) m) eqn:E; [exact Hn|].
    apply (proj2 (NoDup_app _ _)). split; [exact Hn|].
    split; [|apply NoDup_singleton].
    intros k Hk Hk'. apply list_elem_of_singleton in Hk'. subst k.
    apply list_elem_of_In, map_has_keys in Hk. congruence.
  - clear Hn. induction Hf as [|[k v] m Hk Hm IH]; cbn [map_set].
    + now constructor.
    + destruct (String.eqb_spec k (id instrument)) as [->|Hne].
      * constructor; [reflexivity | assumption].
      * constructor; [exact Hk | exact IH].
Qed.

Lemma keyed_delete (key : string) (m : list (string * Instrument)) :
  keyed m -> keyed (map_delete key m).
Proof.
  intros [Hn Hf]. split.
  - clear Hf. induction m as [|[k v] m IH]; cbn [map_delete]; [constructor|].
    cbn [map fst] in Hn. apply NoDup_cons in Hn as [Hk Hn].
    destruct (String.eqb k key); [exact Hn|].
    cbn [map fst]. apply (proj2 (NoDup_cons _ _)). split; [|auto].
    intros Hin. apply Hk. apply list_elem_of_In.
    apply list_elem_of_In in Hin. now apply map_delete_keys in Hin.
  - clear Hn. induction Hf as [|[k v] m Hk Hm IH]; cbn [map_delete].
    + constructor.
    + destruct (String.eqb k key); [exact Hm | now constructor].
Qed.

Lemma keyed_nil : keyed [].
Proof. split; constructor. Qed.

Lemma registry_add (rt : Runtime) (env : Env) (options : InstrumentOptions) :
  invariant registry_ok (Session.addInstrument rt env options).
Proof.
  intros w H. unfold Session.addInstrument, mbind, get_manager, set_manager, ret.
  unfold registry_ok in *.
  destruct (session (sessionManager w)) as [s|] eqn:Hs;
    cbn [snd sessionManager Session.set_session session instruments throw];
    [|now rewrite Hs].
  exact (keyed_set _ _ H).
Qed.

Lemma registry_remove (key : string) :
  invariant registry_ok (Session.removeInstrument key).
Proof.
  intros w H. unfold Session.removeInstrument, mbind, get_manager, set_manager, ret.
  unfold registry_ok in *.
  destruct (session (sessionManager w)) as [s|] eqn:Hs;
    cbn [snd sessionManager Session.set_session session instruments throw];
    [|now rewrite Hs].
  now apply keyed_delete.
Qed.

Lemma registry_clear : invariant registry_ok Session.clearInstruments.
Proof.
  intros w H. unfold Session.clearInstruments, mbind, get_manager, set_manager, ret.
  unfold registry_ok in *.
  destruct (session (sessionManager w)) as [s|] eqn:Hs;
    cbn [snd sessionManager Session.set_session session instruments];
    [|now rewrite Hs].
  apply keyed_nil.
Qed.

Lemma registry_call (rt : Runtime) (env : Env) (call : ToolCall) (w : World) :
  registry_ok w -> registry_ok (snd (call_tool rt env call w)).
Proof.
  intros H. destruct (lifecycle call) eqn:Hc.
  - rewrite call_tool_snd.
    destruct call as [port| |path line capture|path| |format| |name];
      try discriminate.
    + pose proof (start_outcome rt env port w) as Ho. cbv zeta in Ho.
      destruct Ho as [-> | [(Hs & ->) | (Hs & Hs' & _)]].
      * exact H.
      * unfold registry_ok, fresh_world, fresh_session. cbn. apply keyed_nil.
      * unfold registry_ok. now rewrite Hs'.
    + pose proof (stop_outcome rt env w) as Ho. cbv zeta in Ho.
      destruct Ho as [[fs ->] | (Hs & _)].
      * exact H.
      * unfold registry_ok. now rewrite Hs.
  - apply (invariant_call registry_ok);
      auto using registry_add, registry_remove, registry_clear.
Qed.

(** X13: in every world that tool calls reach from a world with this
    property (the process before any call is one), the map of the session
    holds every instrument under the instrument's own identifier and holds
    no identifier twice: [list_instruments] never shows two instruments of
    the same identifier. *)
Theorem registry_run (rt : Runtime) (calls : list (Env * ToolCall)) (w : World) :
  registry_ok w ->
  registry_ok (run rt calls w)
  /\ NoDup (map id (Session.getInstruments (sessionManager (run rt calls w)))).
Proof.
  intros H.
  assert (Hr : registry_ok (run rt calls w)).
  { revert w H. induction calls as [|[env call] rest IH]; intros w H; cbn [run].
    - exact H.
    - apply IH. now apply registry_call. }
  split; [exact Hr|].
  unfold registry_ok in Hr. unfold Session.getInstruments.
  destruct (session (sessionManager (run rt calls w))) as [s|]; [|constructor].
  destruct Hr as [Hn Hf]. unfold map_values.
  replace (map id (map snd (instruments s))) with (map fst (instruments s));
    [exact Hn|].
  rewrite map_map. apply map_ext_Forall. exact Hf.
Qed.

Lemma registry_run_witness :
  let calls :=
    [ (first_env, start_debug_session None);
      (first_env, add_instrument (Some "a.js") (Some 1%Z) None);
      (first_env, add_instrument (Some "b.js") (Some 1%Z) None) ] in
  registry_ok (idle two_files)
  /\ map id (Session.getInstruments
               (sessionManager (run example_runtime calls (idle two_files))))
     = ["dbg-1a2b3c4d"]
  /\ NoDup (map id (Session.getInstruments
                      (sessionManager (run example_runtime calls (idle two_files))))).
Proof.
  intros calls.
  assert (H : registry_ok (idle two_files)) by exact I.
  split; [exact H|]. split; [vm_compute; reflexivity|].
  exact (proj2 (registry_run example_runtime calls (idle two_files) H)).
Defined.

(** ** A start that fails *)



(** ** What the Instrumenter does to the files *)

Lemma writeFileSync_existing (fs fs' : filesystem) (path data : string) :
  is_Some (fs !! path) ->
  writeFileSync fs path data = Ok fs' ->
  fs' = <[path := RegularFile data true]> fs
  /\ (forall other, other <> path -> fs' !! other = fs !! other)
  /\ (forall other, is_Some (fs' !! other) <-> is_Some (fs !! other)).
Proof.
  intros Hex. unfold writeFileSync.
  destruct (fs !! path) as [[content [|]|]|] eqn:E; try discriminate;
    try (now destruct Hex).
  intros [= <-]. split; [reflexivity|].
  split; [intros other Ho; now rewrite lookup_insert_ne|].
  intros other. destruct (decide (other = path)) as [->|Ho].
  - rewrite lookup_insert_eq, E. split; eauto.
  - now rewrite lookup_insert_ne.
Qed.

(** X15: the Instrumenter reads and writes the file it is asked about and
    nothing else: whenever [addInstrument], [removeInstrument] or
    [removeAllInstrumentsFromFile] returns, every other file is as it was,
    and no file has been created or deleted; a removal that reports [false],
    and a bulk removal that counts 0, have written nothing at all. *)
Theorem instrumenter_frame
    (this : Instrumenter) (instrument : Instrument) (path : string)
    (fs : filesystem) :
  let same_elsewhere (target : string) (fs' : filesystem) :=
    (forall other, other <> target -> fs' !! other = fs !! other)
    /\ (forall other, is_Some (fs' !! other) <-> is_Some (fs !! other)) in
  (forall fs', addInstrument this instrument fs = Ok fs' ->
     same_elsewhere (file instrument) fs')
  /\ (forall fs' removed,
        removeInstrument this instrument fs = Ok (fs', removed) ->
        same_elsewhere (file instrument) fs' /\ (removed = false -> fs' = fs))
  /\ (forall fs' count,
        removeAllInstrumentsFromFile this path fs = Ok (fs', count) ->
        same_elsewhere path fs' /\ (count = 0 -> fs' = fs)).
Proof.
  intros same_elsewhere.
  assert (Hrefl : forall target, same_elsewhere target fs)
    by (intros target; split; [reflexivity | tauto]).
  split; [|split].
  - intros fs'. unfold addInstrument, existsSync, readFileSync.
    destruct (fs !! file instrument) as [[content writable|]|] eqn:E;
      cbn [negb bind]; try discriminate.
    destruct (_ || _)%Z; [discriminate|].
    intros H. apply writeFileSync_existing in H as (_ & H1 & H2);
      [now split | rewrite E; eauto].
  - intros fs' removed. unfold removeInstrument, existsSync, readFileSync.
    destruct (fs !! file instrument) as [[content writable|]|] eqn:E;
      cbn [negb bind]; try discriminate.
    + destruct (negb _).
      * destruct (writeFileSync fs _ _) as [fs1|] eqn:Ew; [|discriminate].
        cbn [bind]. intros [= <- <-].
        apply writeFileSync_existing in Ew as (_ & H1 & H2);
          [|rewrite E; eauto].
        split; [now split | discriminate].
      * intros [= <- <-]. split; [apply Hrefl | reflexivity].
    + intros [= <- <-]. split; [apply Hrefl | reflexivity].
  - intros fs' count. unfold removeAllInstrumentsFromFile, existsSync, readFileSync.
    destruct (fs !! path) as [[content writable|]|] eqn:E;
      cbn [negb bind]; try discriminate.
    + destruct (remove_all_with wildcard_patterns content) as [newContent n].
      destruct n as [|n]; cbn [Nat.ltb Nat.leb].
      * intros [= <- <-]. split; [apply Hrefl | reflexivity].
      * destruct (writeFileSync fs _ _) as [fs1|] eqn:Ew; [|discriminate].
        cbn [bind]. intros [= <- <-].
        apply writeFileSync_existing in Ew as (_ & H1 & H2);
          [|rewrite E; eauto].
        split; [now split | discriminate].
    + intros [= <- <-]. split; [apply Hrefl | reflexivity].
Qed.


(** ** Removing the instruments of a session *)

Lemma remove_loop_world (i : Instrumenter) (items : list Instrument) (w : World) :
  exists r fs,
    for_each items
      (fun instrument =>
         let! _ := on_files (removeInstrument i instrument) in ret tt) w
    = (r, with_files w fs).
Proof.
  pose proof (invariant_remove_loop (fun w' => exists fs, w' = with_files w fs)) as H.
  specialize (H (fun w1 fs1 '(ex_intro _ fs E) =>
                   ex_intro _ fs1 (f_equal (fun x => with_files x fs1) E))
                i items w (ex_intro _ (files w) (eq_sym (with_files_same w)))).
  destruct (for_each items _ w) as [r w1]. cbn [snd] in H.
  destruct H as [fs ->]. now exists r, fs.
Qed.

(** X17: [remove_instruments] without a file, in an active session.  When
    it answers without an error, the session holds no instrument any more
    and is still active, and the answer counts the instruments that were
    held.  When it answers with an error (a removal threw), the Session
    Manager is as it was: all instruments are still held, also those whose
    blocks were removed before the failure. *)
Theorem remove_all_outcome
    (rt : Runtime) (env : Env) (w : World) (s : DebugSession) (i : Instrumenter) :
  session (sessionManager w) = Some s ->
  instrumenter w = Some i ->
  let result := call_tool rt env (remove_instruments None) w in
  (isError (fst result) = false ->
   fst result
   = success ("Removed "
              +:+ show_nat (length (Session.getInstruments (sessionManager w)))
              +:+ " instrument(s) from all files")
   /\ Session.getInstruments (sessionManager (snd result)) = []
   /\ Session.isActive (sessionManager (snd result)) = true)
  /\ (isError (fst result) = true ->
      sessionManager (snd result) = sessionManager w)
  /\ instrumenter (snd result) = Some i.
Proof.
  intros Hs Hi result.
  assert (E : result = call_tool rt env (remove_instruments None) w) by reflexivity.
  clearbody result. revert E.
  unfold call_tool, handle, mbind at 1, get_manager. cbv beta iota.
  unfold mbind at 1, get_instrumenter. cbv beta iota.
  unfold Session.isActive. rewrite Hs, Hi. cbn [truthy].
  unfold mbind at 1.
  destruct (remove_loop_world i (Session.getInstruments (sessionManager w)) w)
    as (r & fs & ->).
  destruct r as [[]|e].
  - unfold Session.clearInstruments, mbind, get_manager, set_manager, ret.
    cbn [with_files sessionManager instrumenter files]. rewrite Hs.
    intros ->. cbn [fst snd isError success sessionManager instrumenter].
    split; [intros _; repeat split|]. split; [discriminate | exact Hi].
  - intros ->. cbn [fst snd isError failure with_files sessionManager instrumenter].
    split; [discriminate|]. split; [reflexivity | exact Hi].
Qed.

Lemma remove_all_outcome_witness :
  let result :=
    call_tool example_runtime first_env (remove_instruments None) instrumented in
  instrumenter instrumented = Some example_instrumenter
  /\ map id (Session.getInstruments (sessionManager instrumented))
     = ["dbg-1a2b3c4d"; "dbg-5e6f7a8b"]
  /\ isError (fst result) = false
  /\ Session.getInstruments (sessionManager (snd result)) = [].
Proof.
  intros result.
  assert (H1 : exists s, session (sessionManager instrumented) = Some s)
    by (eexists; vm_compute; reflexivity).
  destruct H1 as [s Hs].
  assert (H2 : instrumenter instrumented = Some example_instrumenter)
    by (vm_compute; reflexivity).
  assert (H3 : isError (fst result) = false) by (vm_compute; reflexivity).
  split; [exact H2|]. split; [vm_compute; reflexivity|]. split; [exact H3|].
  exact (proj1 (proj2 (proj1 (remove_all_outcome example_runtime first_env
                                instrumented s example_instrumenter Hs H2) H3))).
Defined.

Lemma filter_absent {V : Type} (key : string) (m : list (string * V)) :
  ~ In key (map fst m) ->
  List.filter (fun kv => negb (String.eqb (fst kv) key)) m = m.
Proof.
  induction m as [|[k v] m IH]; cbn [List.filter map fst In]; [reflexivity|].
  intros H. destruct (String.eqb_spec k key) as [->|Hne]; [tauto|].
  cbn [negb]. rewrite IH by tauto. reflexivity.
Qed.

Lemma map_delete_filter {V : Type} (key : string) (m : list (string * V)) :
  NoDup (map fst m) ->
  map_delete key m = List.filter (fun kv => negb (String.eqb (fst kv) key)) m.
Proof.
  induction m as [|[k v] m IH]; cbn [map_delete List.filter map fst];
    [reflexivity|].
  intros Hn. apply NoDup_cons in Hn as [Hk Hks].
  assert (Hk' : ~ In k (map fst m)) by (intros Hin; now apply Hk, list_elem_of_In).
  destruct (String.eqb_spec k key) as [->|Hne]; cbn [negb].
  - now rewrite filter_absent.
  - now rewrite IH.
Qed.

Lemma filter_and {A : Type} (f g : A -> bool) (l : list A) :
  List.filter g (List.filter f l) = List.filter (fun x => f x && g x) l.
Proof.
  induction l as [|x l IH]; cbn [List.filter]; [reflexivity|].
  destruct (f x); cbn [List.filter andb]; [|exact IH].
  destruct (g x); now rewrite IH.
Qed.

(** Deleting the identifiers of [items] one after the other. *)
Lemma fold_delete_filter (items : list Instrument) (m : list (string * Instrument)) :
  keyed m ->
  fold_left (fun m x => map_delete (id x) m) items m
  = List.filter
      (fun kv => forallb (fun x => negb (String.eqb (fst kv) (id x))) items) m.
Proof.
  revert m. induction items as [|x items IH]; intros m Hk; cbn [fold_left forallb].
  - induction m as [|kv m IHm]; cbn [List.filter]; [reflexivity|].
    rewrite <- IHm at 1; [reflexivity|].
    destruct Hk as [Hn Hf]. apply NoDup_cons in Hn as [_ Hn].
    inversion Hf; subst. now split.
  - rewrite IH by now apply keyed_delete.
    rewrite map_delete_filter by exact (proj1 Hk). apply filter_and.
Qed.

Lemma NoDup_fst_inj {V : Type} (m : list (string * V)) (a b : string * V) :
  NoDup (map fst m) -> In a m -> In b m -> fst a = fst b -> a = b.
Proof.
  induction m as [|kv m IH]; cbn [map In]; [contradiction|].
  intros Hn Ha Hb E. apply NoDup_cons in Hn as [Hk Hks].
  destruct Ha as [->|Ha], Hb as [->|Hb]; auto.
  - exfalso. apply Hk, list_elem_of_In. rewrite E. now apply in_map.
  - exfalso. apply Hk, list_elem_of_In. rewrite <- E. now apply in_map.
Qed.

Lemma filter_snd {V : Type} (f : V -> bool) (m : list (string * V)) :
  map snd (List.filter (fun kv => f (snd kv)) m) = List.filter f (map snd m).
Proof.
  induction m as [|[k v] m IH]; cbn [List.filter map snd]; [reflexivity|].
  destruct (f v); cbn [map snd]; now rewrite IH.
Qed.

(** In a keyed map, deleting the identifiers of the instruments of one
    file leaves the instruments of the other files. *)
Lemma delete_file_instruments (target : string) (m : list (string * Instrument)) :
  keyed m ->
  map snd
    (fold_left (fun m x => map_delete (id x) m)
       (List.filter (fun x => String.eqb (file x) target) (map snd m)) m)
  = List.filter (fun x => negb (String.eqb (file x) target)) (map snd m).
Proof.
  intros Hk. rewrite fold_delete_filter by exact Hk.
  rewrite <- (filter_snd (fun x => negb (String.eqb (file x) target)) m).
  f_equal. apply filter_ext_in.
  intros kv Hkv. destruct Hk as [Hn Hf].
  pose proof (proj1 (List.Forall_forall _ _) Hf) as Hid. cbv beta in Hid.
  destruct (String.eqb (file (snd kv)) target) eqn:E; cbn [negb].
  - apply not_true_is_false. intros Hall.
    pose proof (proj1 (forallb_forall _ _) Hall (snd kv)) as H.
    rewrite (Hid kv Hkv), String.eqb_refl in H. cbn in H.
    assert (Hin : In (snd kv)
                    (List.filter (fun x => String.eqb (file x) target) (map snd m)))
      by (apply filter_In; split; [now apply in_map | exact E]).
    specialize (H Hin). discriminate.
  - apply forallb_forall. intros x Hx. apply filter_In in Hx as [Hx Hfile].
    apply in_map_iff in Hx as (kv' & <- & Hkv').
    apply negb_true_iff, String.eqb_neq. intros Heq.
    rewrite <- (Hid kv' Hkv') in Heq.
    pose proof (NoDup_fst_inj m kv kv' Hn Hkv Hkv' Heq) as ->. congruence.
Qed.

Lemma session_remove_step (key : string) (w : World) (s : DebugSession) :
  session (sessionManager w) = Some s ->
  Session.removeInstrument key w
  = (Ok (map_has key (instruments s)),
     {| sessionManager :=
          Session.set_session (sessionManager w)
            (Some {| session_id := session_id s;
                     session_port := session_port s;
                     startedAt := startedAt s;
                     logFile := logFile s;
                     instruments := map_delete key (instruments s) |});
        instrumenter := instrumenter w;
        files := files w |}).
Proof.
  intros Hs. unfold Session.removeInstrument, mbind, get_manager, set_manager, ret.
  cbv beta iota. now rewrite Hs.
Qed.

(** The loop of [remove_instruments] with a file, when it does not throw. *)
Lemma remove_by_file_loop (i : Instrumenter) (items : list Instrument)
    (w w' : World) (s : DebugSession) :
  session (sessionManager w) = Some s ->
  for_each items
    (fun instrument =>
       let! _ := on_files (removeInstrument i instrument) in
       let! _ := Session.removeInstrument (id instrument) in
       ret tt) w = (Ok tt, w') ->
  exists s',
    session (sessionManager w') = Some s'
    /\ instruments s' = fold_left (fun m x => map_delete (id x) m) items (instruments s)
    /\ workingDirectory (sessionManager w') = workingDirectory (sessionManager w).
Proof.
  revert w s. induction items as [|x items IH]; intros w s Hs; cbn [for_each fold_left].
  - intros [= <-]. now exists s.
  - unfold mbind at 1. unfold mbind at 1. unfold on_files at 1.
    destruct (removeInstrument i x (files w)) as [[fs' removed]|e]; [|discriminate].
    unfold mbind at 1.
    rewrite (session_remove_step (id x) _ s) by exact Hs.
    cbn [ret sessionManager instrumenter files].
    intros H. eapply IH in H; [|reflexivity].
    destruct H as (s' & H1 & H2 & H3). exists s'. auto.
Qed.

(** X18: [remove_instruments] with a file, in an active session whose map
    holds every instrument under its own identifier (as it always does).
    When the tool answers without an error, the session holds exactly the
    instruments of the other files, in the order they had; none is left for
    the file; and the answer counts the instruments that were held for the
    file. *)
Theorem remove_by_file_outcome
    (rt : Runtime) (env : Env) (w : World) (s : DebugSession) (i : Instrumenter)
    (path : string) :
  session (sessionManager w) = Some s ->
  instrumenter w = Some i ->
  path <> EmptyString ->
  keyed (instruments s) ->
  let result := call_tool rt env (remove_instruments (Some path)) w in
  let target := resolve rt (workingDirectory (sessionManager w)) path in
  isError (fst result) = false ->
  fst result
  = success ("Removed "
             +:+ show_nat (length (Session.getInstrumentsByFile rt (sessionManager w) path))
             +:+ " instrument(s) from " +:+ path)
  /\ Session.getInstruments (sessionManager (snd result))
     = List.filter (fun x => negb (String.eqb (file x) target))
         (Session.getInstruments (sessionManager w))
  /\ Session.getInstrumentsByFile rt (sessionManager (snd result)) path = [].
Proof.
  intros Hs Hi Hp Hk result target.
  assert (E : result = call_tool rt env (remove_instruments (Some path)) w)
    by reflexivity.
  clearbody result. revert E.
  unfold call_tool, handle, mbind at 1, get_manager. cbv beta iota.
  unfold mbind at 1, get_instrumenter. cbv beta iota.
  unfold Session.isActive. rewrite Hs, Hi.
  destruct path as [|c path]; [congruence|]. cbn [truthy].
  set (name := String c path) in *.
  unfold mbind at 1.
  destruct (for_each (Session.getInstrumentsByFile rt (sessionManager w) name) _ w)
    as [[[]|e] w'] eqn:Eloop.
  2:{ intros ->. discriminate. }
  intros -> _. cbn [ret fst snd]. split; [reflexivity|].
  destruct (remove_by_file_loop _ _ _ _ s Hs Eloop) as (s' & Hs' & Hm & Hwd).
  assert (Hleft : Session.getInstruments (sessionManager w')
                  = List.filter (fun x => negb (String.eqb (file x) target))
                      (Session.getInstruments (sessionManager w))).
  { unfold Session.getInstruments. rewrite Hs', Hs. unfold map_values. rewrite Hm.
    unfold Session.getInstrumentsByFile, Session.getInstruments. rewrite Hs.
    fold target. unfold map_values. now apply delete_file_instruments. }
  split; [exact Hleft|].
  unfold Session.getInstrumentsByFile. rewrite Hleft, Hwd. fold target.
  rewrite filter_and. clear Hleft.
  induction (Session.getInstruments (sessionManager w)) as [|x xs IH];
    cbn [List.filter]; [reflexivity|].
  destruct (String.eqb (file x) target); cbn [negb andb]; exact IH.
Qed.

Lemma remove_by_file_outcome_witness :
  let result :=
    call_tool example_runtime first_env (remove_instruments (Some "a.js"))
      instrumented in
  map id (Session.getInstruments (sessionManager instrumented))
  = ["dbg-1a2b3c4d"; "dbg-5e6f7a8b"]
  /\ isError (fst result) = false
  /\ Session.getInstruments (sessionManager (snd result))
     = List.filter (fun x => negb (String.eqb (file x) "/w/a.js"))
         (Session.getInstruments (sessionManager instrumented))
  /\ map id (Session.getInstruments (sessionManager (snd result)))
     = ["dbg-5e6f7a8b"].
Proof.
  intros result.
  assert (H1 : exists s, session (sessionManager instrumented) = Some s
                         /\ keyed (instruments s)).
  { eexists. split; [vm_compute; reflexivity|].
    split; [|repeat constructor].
    apply (proj2 (NoDup_cons _ _)). split; [|apply NoDup_singleton].
    intros H. apply list_elem_of_singleton in H. discriminate. }
  destruct H1 as (s & Hs & Hk).
  assert (H2 : isError (fst result) = false) by (vm_compute; reflexivity).
  split; [vm_compute; reflexivity|]. split; [exact H2|].
  split; [|vm_compute; reflexivity].
  exact (proj1 (proj2 (remove_by_file_outcome example_runtime first_env instrumented
                         s example_instrumenter "a.js" Hs eq_refl
                         ltac:(discriminate) Hk H2))).
Defined.

(** ** Adding an instrument and removing it, through the tools *)

Lemma map_set_absent {V : Type} (key : string) (value : V) (m : list (string * V)) :
  map_has key m = false -> map_set key value m = m ++ [(key, value)].
Proof.
  induction m as [|[k v] m IH]; cbn [map_has map_set app]; [reflexivity|].
  intros H. apply orb_false_iff in H as [H1 H2]. rewrite H1. now rewrite IH.
Qed.

Lemma map_delete_absent_app {V : Type} (key : string) (value : V)
    (m : list (string * V)) :
  map_has key m = false -> map_delete key (m ++ [(key, value)]) = m.
Proof.
  induction m as [|[k v] m IH]; cbn [map_has map_delete app].
  - intros _. now rewrite String.eqb_refl.
  - intros H. apply orb_false_iff in H as [H1 H2]. rewrite H1. now rewrite IH.
Qed.

(** Whenever the Instrumenter returns, the tool answers without an error;
    the instrument is in the session's map and the files are those that
    the Instrumenter wrote. *)
Lemma accepted_add (rt : Runtime) (env : Env) (w : World)
    (s : DebugSession) (i : Instrumenter) (path : string) (line : Z)
    (capture : option (list string)) (fs1 : filesystem) :
  session (sessionManager w) = Some s ->
  instrumenter w = Some i ->
  path <> EmptyString ->
  line <> 0%Z ->
  addInstrument i (requested rt env (sessionManager w) path line capture) (files w)
  = Ok fs1 ->
  exists message,
    call_tool rt env (add_instrument (Some path) (Some line) capture) w
    = (success message,
       {| sessionManager :=
            registered (sessionManager w) s
              (requested rt env (sessionManager w) path line capture);
          instrumenter := Some i;
          files := fs1 |}).
Proof.
  intros Hs Hi Hp Hl Hadd.
  unfold call_tool, handle, mbind, get_manager, get_instrumenter, ret,
    Session.isActive.
  rewrite Hs, Hi. cbn [truthy].
  destruct path as [|c path]; [congruence|]. cbn [truthy].
  replace (line =? 0)%Z with false by lia.
  unfold Session.addInstrument, mbind, get_manager, set_manager, ret.
  cbn [sessionManager]. rewrite Hs.
  cbn [sessionManager instrumenter files].
  unfold write_files, on_files. cbn [files sessionManager instrumenter].
  cbn [options_file options_line options_capture].
  unfold requested in Hadd. rewrite Hadd. cbn [bind]. rewrite Hi.
  eexists. reflexivity.
Qed.

(** X19: adding an instrument with [add_instrument] and removing it with
    [remove_instruments] for the same file gives back the world as it was:
    the files, the session and its map are those before the two calls.  The
    line is an existing line of a writable file that does not hold the
    opening marker of the instrument; the instrument has a plain identifier
    that the session does not hold yet and no [#] in its file and captured
    names; and the session holds no other instrument for the file. *)
Theorem add_then_remove_by_file
    (rt : Runtime) (env env' : Env) (w : World) (s : DebugSession)
    (i : Instrumenter) (path : string) (at_line : Z)
    (capture : option (list string)) (content : string) :
  session (sessionManager w) = Some s ->
  instrumenter w = Some i ->
  path <> EmptyString ->
  let instrument := requested rt env (sessionManager w) path at_line capture in
  files w !! file instrument = Some (RegularFile content true) ->
  (1 <= at_line <= Z.of_nat (length (split_lines content)))%Z ->
  embeddable instrument = true ->
  occurs (open_marker (pattern_of instrument)) content = false ->
  map_has (id instrument) (instruments s) = false ->
  Session.getInstrumentsByFile rt (sessionManager w) path = [] ->
  let added := call_tool rt env (add_instrument (Some path) (Some at_line) capture) w in
  let removed := call_tool rt env' (remove_instruments (Some path)) (snd added) in
  isError (fst added) = false
  /\ Session.getInstruments (sessionManager (snd added))
     = Session.getInstruments (sessionManager w) ++ [instrument]
  /\ fst removed = success ("Removed 1 instrument(s) from " +:+ path)
  /\ snd removed = w.
Proof.
  intros Hs Hi Hp instrument Hfile Hl Hemb Hfresh Hnew Hnone added removed.
  assert (Hline : line instrument = at_line) by reflexivity.
  pose proof (addInstrument_valid i instrument (files w) content Hfile
                ltac:(rewrite Hline; lia)) as Hadd.
  destruct (accepted_add rt env w s i path at_line capture _ Hs Hi Hp
              ltac:(lia) Hadd) as [message Ha].
  fold instrument in Ha.
  assert (Hset : map_set (id instrument) instrument (instruments s)
                 = instruments s ++ [(id instrument, instrument)])
    by now apply map_set_absent.
  subst removed. subst added. rewrite Ha. cbn [fst snd isError success].
  split; [reflexivity|]. split.
  { unfold Session.getInstruments, registered.
    cbn [sessionManager Session.set_session session instruments]. rewrite Hs, Hset.
    unfold map_values. now rewrite map_app. }
  set (w1 := {| sessionManager := registered (sessionManager w) s instrument;
                instrumenter := Some i;
                files := <[file instrument :=
                             RegularFile
                               (join_lines
                                  (splice (split_lines content)
                                     (Z.to_nat (line instrument - 1))
                                     (split_lines (generateInstrumentCode i instrument))))
                               true]> (files w) |}).
  assert (Hby : Session.getInstrumentsByFile rt (sessionManager w1) path = [instrument]).
  { unfold Session.getInstrumentsByFile, Session.getInstruments in *.
    rewrite Hs in Hnone. subst w1. unfold registered.
    cbn [sessionManager Session.set_session session instruments workingDirectory].
    rewrite Hset. unfold map_values in *. rewrite map_app, List.filter_app, Hnone.
    cbn [map snd List.filter app].
    change (file instrument)
      with (resolve rt (workingDirectory (sessionManager w)) path).
    now rewrite String.eqb_refl. }
  set (s1 := {| session_id := session_id s;
                session_port := session_port s;
                startedAt := startedAt s;
                logFile := logFile s;
                instruments := map_set (id instrument) instrument (instruments s) |}).
  assert (Hs1 : session (sessionManager w1) = Some s1) by reflexivity.
  assert (Hi1 : instrumenter w1 = Some i) by reflexivity.
  assert (Hrm : removeInstrument i instrument (files w1) = Ok (files w, true)).
  { apply (remove_after_insert i instrument (files w) content Hemb Hfile Hfresh).
    rewrite Hline. lia. }
  assert (Hr : call_tool rt env' (remove_instruments (Some path)) w1
               = (success ("Removed 1 instrument(s) from " +:+ path), w)).
  { unfold call_tool, handle, mbind at 1, get_manager. cbv beta iota.
    unfold mbind at 1, get_instrumenter. cbv beta iota.
    unfold Session.isActive. rewrite Hs1, Hi1.
    destruct path as [|c path]; [congruence|]. cbn [truthy].
    set (name := String c path) in *.
    rewrite Hby. cbn [for_each length].
    unfold mbind at 1. unfold mbind at 1. unfold mbind at 1. unfold on_files at 1.
    rewrite Hrm. unfold mbind at 1.
    rewrite (session_remove_step (id instrument) _ s1) by exact Hs1.
    cbn [ret fst snd sessionManager instrumenter files]. f_equal.
    subst s1 w1.
    cbn [sessionManager instrumenter files session_id session_port
         startedAt logFile instruments registered Session.set_session
         workingDirectory server session].
    rewrite Hset, map_delete_absent_app by exact Hnew.
    destruct w as [[ses srv wd] ins fs]. cbn in Hs, Hi |- *. subst ses ins.
    now destruct s. }
  rewrite Hr. split; reflexivity.
Qed.

Lemma add_then_remove_by_file_witness :
  let added :=
    call_tool example_runtime first_env
      (add_instrument (Some "a.js") (Some 2%Z) (Some ["x"])) started in
  let removed :=
    call_tool example_runtime second_env (remove_instruments (Some "a.js"))
      (snd added) in
  files started !! "/w/a.js" = Some (RegularFile two_lines true)
  /\ map id (Session.getInstruments (sessionManager (snd added))) = ["dbg-1a2b3c4d"]
  /\ fst removed = success "Removed 1 instrument(s) from a.js"
  /\ snd removed = started.
Proof.
  intros added removed.
  assert (H1 : exists s, session (sessionManager started) = Some s
                         /\ instruments s = [])
    by (eexists; split; vm_compute; reflexivity).
  destruct H1 as (s & Hs & Hm).
  assert (H2 : files started
                 !! file (requested example_runtime first_env (sessionManager started)
                            "a.js" 2 (Some ["x"]))
               = Some (RegularFile two_lines true)) by (vm_compute; reflexivity).
  destruct (add_then_remove_by_file example_runtime first_env second_env started s
              example_instrumenter "a.js" 2 (Some ["x"]) two_lines Hs
              ltac:(vm_compute; reflexivity) ltac:(discriminate) H2
              ltac:(vm_compute; split; discriminate)
              ltac:(vm_compute; reflexivity) ltac:(vm_compute; reflexivity)
              ltac:(rewrite Hm; reflexivity) ltac:(vm_compute; reflexivity))
    as (_ & _ & Hc & Hd).
  split; [vm_compute; reflexivity|]. split; [vm_compute; reflexivity|].
  split; [exact Hc | exact Hd].
Defined.

(** ** A stop that succeeds *)

Lemma removeInstrument_removable (i : Instrumenter) (x : Instrument)
    (fs : filesystem) :
  removable fs x = true ->
  exists fs1 removed,
    removeInstrument i x fs = Ok (fs1, removed)
    /\ (forall y, removable fs y = true -> removable fs1 y = true)
    /\ (forall path, path <> file x -> fs1 !! path = fs !! path).
Proof.
  unfold removable at 1, removeInstrument, existsSync, readFileSync.
  destruct (fs !! file x) as [[content [|]|]|] eqn:E; try discriminate; intros _;
    cbn [negb bind].
  - destruct (negb _).
    + unfold writeFileSync. rewrite E. cbn [bind]. eexists _, _.
      split; [reflexivity|]. split.
      * intros y Hy. unfold removable in *.
        destruct (decide (file y = file x)) as [->|Hne].
        -- now rewrite lookup_insert_eq.
        -- now rewrite lookup_insert_ne.
      * intros path Hp. now rewrite lookup_insert_ne.
    + eexists _, _. split; [reflexivity|]. auto.
  - eexists _, _. split; [reflexivity|]. auto.
Qed.

Lemma remove_loop_succeeds (i : Instrumenter) (items : list Instrument) (w : World) :
  forallb (removable (files w)) items = true ->
  exists fs',
    for_each items
      (fun instrument =>
         let! _ := on_files (removeInstrument i instrument) in ret tt) w
    = (Ok tt, with_files w fs')
    /\ (forall path, Forall (fun x => file x <> path) items ->
          fs' !! path = files w !! path).
Proof.
  revert w. induction items as [|x items IH]; intros w H; cbn [for_each forallb] in *.
  - exists (files w). now rewrite with_files_same.
  - apply andb_prop in H as [Hx Hitems].
    destruct (removeInstrument_removable i x (files w) Hx)
      as (fs1 & removed & E & Hkeep & Hframe).
    unfold mbind at 1. unfold mbind at 1. unfold on_files at 1. rewrite E.
    cbn [ret].
    destruct (IH (with_files w fs1)) as (fs' & Eloop & Hrest).
    { cbn [with_files files]. apply forallb_forall. intros y Hy.
      apply Hkeep. exact (proj1 (forallb_forall _ _) Hitems y Hy). }
    exists fs'. split; [exact Eloop|].
    intros path Hp. inversion Hp as [|x' xs Hx' Hxs]; subst.
    rewrite (Hrest path Hxs). cbn [with_files files]. apply Hframe. congruence.
Qed.

(** X20: when the file of every instrument of the session is missing or
    is a regular file that can be written, [stop_debug_session] answers
    without an error: there is no session, no Log Collector and no
    Instrumenter afterwards, the answer counts the instruments, and the
    files that hold no instrument of the session are as they were. *)
Theorem stop_succeeds
    (rt : Runtime) (env : Env) (w : World) (s : DebugSession) (i : Instrumenter) :
  session (sessionManager w) = Some s ->
  instrumenter w = Some i ->
  forallb (removable (files w)) (Session.getInstruments (sessionManager w)) = true ->
  let result := call_tool rt env stop_debug_session w in
  fst result
  = success ("Debug session stopped. Removed "
             +:+ show_nat (length (Session.getInstruments (sessionManager w)))
             +:+ " instrument(s) from code.")
  /\ sessionManager (snd result)
     = {| session := None; server := None;
          workingDirectory := workingDirectory (sessionManager w) |}
  /\ instrumenter (snd result) = None
  /\ (forall path,
        Forall (fun x => file x <> path) (Session.getInstruments (sessionManager w)) ->
        files (snd result) !! path = files w !! path).
Proof.
  intros Hs Hi Hok result.
  assert (E : result = call_tool rt env stop_debug_session w) by reflexivity.
  clearbody result. revert E.
  unfold call_tool, handle, mbind at 1, get_manager. cbv beta iota.
  unfold Session.isActive at 1. rewrite Hs. cbn [negb].
  unfold mbind at 1, get_instrumenter. cbv beta iota. rewrite Hi.
  unfold mbind at 1.
  destruct (remove_loop_succeeds i _ w Hok) as (fs' & -> & Hframe).
  unfold Session.stopSession, mbind, get_manager, set_manager, set_instrumenter, ret.
  cbn [with_files sessionManager instrumenter files].
  intros ->. cbn [fst snd sessionManager instrumenter files].
  split; [reflexivity|]. split; [|split; [reflexivity | exact Hframe]].
  unfold Session.set_session, Session.set_server.
  destruct (server (sessionManager w)) eqn:Esrv;
    cbn [session server workingDirectory]; rewrite ?Esrv; reflexivity.
Qed.

Lemma stop_succeeds_witness :
  let result := call_tool example_runtime second_env stop_debug_session instrumented in
  forallb (removable (files instrumented))
    (Session.getInstruments (sessionManager instrumented)) = true
  /\ fst result = success "Debug session stopped. Removed 2 instrument(s) from code."
  /\ sessionManager (snd result)
     = {| session := None; server := None; workingDirectory := "/w" |}.
Proof.
  intros result.
  assert (H1 : exists s, session (sessionManager instrumented) = Some s)
    by (eexists; vm_compute; reflexivity).
  destruct H1 as [s Hs].
  assert (H2 : forallb (removable (files instrumented))
                 (Session.getInstruments (sessionManager instrumented)) = true)
    by (vm_compute; reflexivity).
  destruct (stop_succeeds example_runtime second_env instrumented s
              example_instrumenter Hs ltac:(vm_compute; reflexivity) H2)
    as (Ha & Hb & _).
  split; [exact H2|]. split; [exact Ha | exact Hb].
Defined.

(** ** [hasInstruments] and the removals *)






(** ** The instrument that the Session Manager makes *)

Lemma plain_substring (n m : nat) (s : string) :
  plain_identifier s = true -> plain_identifier (String.substring n m s) = true.
Proof.
  revert n m. induction s as [|c s IH]; intros n m H.
  - now destruct n, m.
  - cbn [plain_identifier] in H. apply andb_prop in H as [Hc Hs].
    destruct n as [|n]; [destruct m as [|m]|]; cbn [String.substring].
    + reflexivity.
    + cbn [plain_identifier]. now rewrite Hc, IH.
    + now apply IH.
Qed.

Lemma length_substring_0 (m : nat) (s : string) :
  String.length (String.substring 0 m s) = Nat.min m (String.length s).
Proof.
  revert m. induction s as [|c s IH]; intros [|m]; cbn [String.substring String.length Nat.min];
    try reflexivity.
  now rewrite IH.
Qed.

(** X22: in an active session [SessionManager.addInstrument] never throws.
    The instrument it returns is held by the session under its identifier;
    its file is the resolved path and its language the one detected from the
    name.  When [randomUUID()] is made of letters, digits and dashes, the
    identifier is plain, so that it stands for itself in the region
    expression, and it has 4 characters more than the first 8 of the UUID:
    all identifiers have the same length. *)
Theorem session_addInstrument_identifier
    (rt : Runtime) (env : Env) (options : InstrumentOptions) (w : World)
    (s : DebugSession) :
  session (sessionManager w) = Some s ->
  plain_identifier (uuid env) = true ->
  exists instrument s',
    fst (Session.addInstrument rt env options w) = Ok instrument
    /\ session (sessionManager (snd (Session.addInstrument rt env options w)))
       = Some s'
    /\ map_get (id instrument) (instruments s') = Some instrument
    /\ file instrument
       = resolve rt (workingDirectory (sessionManager w)) (options_file options)
    /\ language instrument = Session.detectLanguage (options_file options)
    /\ plain_identifier (id instrument) = true
    /\ String.length (id instrument) = 4 + Nat.min 8 (String.length (uuid env)).
Proof.
  intros Hs Hu.
  unfold Session.addInstrument, mbind, get_manager, set_manager, ret.
  cbv beta iota. rewrite Hs. cbn [fst snd sessionManager Session.set_session session].
  eexists _, _. split; [reflexivity|]. split; [reflexivity|].
  cbn [id file language instruments].
  split; [apply map_get_set|]. split; [reflexivity|]. split; [reflexivity|].
  split.
  - change ("dbg-" +:+ String.substring 0 8 (uuid env))
      with (String "d" (String "b" (String "g" (String "-"
              (String.substring 0 8 (uuid env)))))).
    cbn [plain_identifier]. rewrite plain_substring by exact Hu. reflexivity.
  - change ("dbg-" +:+ String.substring 0 8 (uuid env))
      with (String "d" (String "b" (String "g" (String "-"
              (String.substring 0 8 (uuid env)))))).
    cbn [String.length]. now rewrite length_substring_0.
Qed.

Lemma session_addInstrument_identifier_witness :
  plain_identifier (uuid first_env) = true
  /\ exists instrument,
       fst (Session.addInstrument example_runtime first_env
              {| options_file := "lib/x.PY"; options_line := 1;
                 options_capture := [] |} started) = Ok instrument
       /\ id instrument = "dbg-1a2b3c4d"
       /\ language instrument = python
       /\ plain_identifier (id instrument) = true.
Proof.
  assert (H1 : exists s, session (sessionManager started) = Some s)
    by (eexists; vm_compute; reflexivity).
  destruct H1 as [s Hs].
  assert (H2 : plain_identifier (uuid first_env) = true) by reflexivity.
  split; [exact H2|].
  destruct (session_addInstrument_identifier example_runtime first_env
              {| options_file := "lib/x.PY"; options_line := 1;
                 options_capture := [] |} started s Hs H2)
    as (instrument & s' & Ha & _ & _ & _ & Hl & Hp & _).
  exists instrument. split; [exact Ha|].
  assert (E : fst (Session.addInstrument example_runtime first_env
                     {| options_file := "lib/x.PY"; options_line := 1;
                        options_capture := [] |} started)
              = Ok {| id := "dbg-1a2b3c4d"; file := "/w/lib/x.PY"; line := 1;
                      language := python; capture := []; createdAt := 1000 |})
    by (vm_compute; reflexivity).
  rewrite E in Ha. injection Ha as <-. repeat split.
Defined.

(** ** The tools that only read *)

(** X23: [list_instruments], [read_debug_logs] and a call of an unknown
    tool change nothing, whatever the state and whatever they answer: the
    session, the Log Collector, the Instrumenter and all files are as
    before. *)
Theorem reading_tools_change_nothing
    (rt : Runtime) (env : Env) (w : World) (format : option string)
    (name : string) :
  snd (call_tool rt env list_instruments w) = w
  /\ snd (call_tool rt env (read_debug_logs format) w) = w
  /\ call_tool rt env (unknown_tool name) w
     = (failure ("Unknown tool: " +:+ name), w).
Proof.
  split; [|split; [|reflexivity]].
  - rewrite call_tool_snd. unfold handle, mbind, get_manager.
    now destruct (Session.getInstruments (sessionManager w)).
  - rewrite call_tool_snd. unfold handle, mbind at 1, get_manager. cbv beta iota.
    destruct (Session.isActive (sessionManager w)) eqn:Ha; cbn [negb];
      [|reflexivity].
    unfold mbind at 1.
    assert (Hr : exists r, Session.readLogs w = (r, w)).
    { unfold Session.readLogs, mbind, get_manager, get_files. cbv beta iota.
      destruct (session (sessionManager w)) as [s|]; [|now eexists].
      destruct (negb _); [now eexists|].
      unfold read_files, on_files, readFileSync.
      destruct (files w !! logFile s) as [[content writable|]|]; cbn [bind];
        eexists; try reflexivity.
      f_equal. now destruct w. }
    destruct Hr as [r ->]. destruct r as [logs|e]; [|reflexivity].
    destruct (blank logs); [reflexivity|].
    now destruct (String.eqb _ _).
Qed.

(** ** A session from start to stop *)

(** X24: a session that is started and stopped at once leaves one trace:
    an empty [debug.log] in the working directory.  The start succeeds when
    the port can be bound and the log path is not a directory; the stop
    then removes nothing and answers without an error; there is no session,
    no Log Collector and no Instrumenter afterwards, and every other file
    is as it was. *)
Theorem start_then_stop
    (rt : Runtime) (env env' : Env) (port : option Z) (w : World) :
  session (sessionManager w) = None ->
  port_free env = true ->
  let logPath := resolve rt (workingDirectory (sessionManager w)) "debug.log" in
  files w !! logPath <> Some Directory ->
  let started := call_tool rt env (start_debug_session port) w in
  let stopped := call_tool rt env' stop_debug_session (snd started) in
  isError (fst started) = false
  /\ fst stopped
     = success "Debug session stopped. Removed 0 instrument(s) from code."
  /\ snd stopped
     = {| sessionManager :=
            {| session := None; server := None;
               workingDirectory := workingDirectory (sessionManager w) |};
          instrumenter := None;
          files := <[logPath := RegularFile EmptyString true]> (files w) |}.
Proof.
  intros Hs Hp logPath Hd started stopped.
  destruct (start_when_inactive rt env port w Hs Hp Hd) as [message E].
  subst stopped. subst started. rewrite E. cbn [fst snd isError success].
  split; [reflexivity|]. split; reflexivity.
Qed.

Lemma start_then_stop_witness :
  let started :=
    call_tool example_runtime first_env (start_debug_session None) (idle two_files) in
  let stopped := call_tool example_runtime second_env stop_debug_session (snd started) in
  port_free first_env = true
  /\ snd stopped
     = idle (<["/w/debug.log" := RegularFile EmptyString true]> two_files).
Proof.
  intros started stopped.
  assert (H : files (idle two_files)
                !! resolve example_runtime
                     (workingDirectory (sessionManager (idle two_files))) "debug.log"
              <> Some Directory) by (vm_compute; discriminate).
  split; [reflexivity|].
  exact (proj2 (proj2 (start_then_stop example_runtime first_env second_env None
                         (idle two_files) eq_refl eq_refl H))).
Defined.

(** ** Bulk removal, twice *)

Lemma kept_lines_well_formed (pieces : list Piece) :
  forallb well_formed_piece pieces = true ->
  forallb well_formed_piece (map Plain (kept_lines pieces)) = true.
Proof.
  induction pieces as [|x rest IH]; [reflexivity|].
  cbn [forallb]. intros H. apply andb_prop in H as [Hx Hr].
  destruct x as [l|r].
  - cbn [kept_lines map forallb]. now rewrite Hx, IH.
  - destruct rest as [|y rest]; [reflexivity|].
    change (kept_lines (Instrumented r :: y :: rest)) with (kept_lines (y :: rest)).
    now apply IH.
Qed.

Lemma kept_lines_plain (ls : list string) : kept_lines (map Plain ls) = ls.
Proof.
  induction ls as [|l ls IH]; [reflexivity|]. cbn [map kept_lines]. now rewrite IH.
Qed.

Lemma count_regions_plain (ls : list string) : count_regions (map Plain ls) = 0.
Proof.
  unfold count_regions. induction ls as [|l ls IH]; [reflexivity|]. exact IH.
Qed.

(** X25: the bulk removal leaves nothing for a second one.  In a writable
    file whose text is made of lines that hold no opening marker and of
    regions of either dialect, a second [removeAllInstrumentsFromFile]
    right after the first counts 0 and writes nothing. *)
Theorem bulk_removal_twice
    (this : Instrumenter) (path : string) (fs : filesystem) (pieces : list Piece) :
  forallb well_formed_piece pieces = true ->
  fs !! path = Some (RegularFile (document_text pieces) true) ->
  exists fs1,
    removeAllInstrumentsFromFile this path fs = Ok (fs1, count_regions pieces)
    /\ removeAllInstrumentsFromFile this path fs1 = Ok (fs1, 0).
Proof.
  intros Hwf Hfile.
  pose proof (remove_all_two c_family pieces Hwf) as H1.
  pose proof (remove_all_two c_family _ (kept_lines_well_formed pieces Hwf)) as H2.
  rewrite document_text_plain, kept_lines_plain, count_regions_plain in H2.
  eexists. split.
  - apply (removeAll_file _ _ _ (document_text pieces)); [exact Hfile | exact H1].
  - pose proof (removeAll_file this path fs _ _ _ Hfile H1) as H.
    destruct (count_regions pieces) as [|n] eqn:En.
    + exact H.
    + apply (removeAll_file _ _ _ (join_lines (kept_lines pieces))
               (join_lines (kept_lines pieces)) 0);
        [apply lookup_insert_eq | exact H2].
Qed.

Lemma bulk_removal_twice_witness :
  forallb well_formed_piece mixed_pieces = true
  /\ exists fs1,
       removeAllInstrumentsFromFile example_instrumenter "/w/a.js" mixed_file
       = Ok (fs1, 2)
       /\ removeAllInstrumentsFromFile example_instrumenter "/w/a.js" fs1
          = Ok (fs1, 0).
Proof.
  assert (H1 : forallb well_formed_piece mixed_pieces = true)
    by (vm_compute; reflexivity).
  assert (H2 : mixed_file !! "/w/a.js"
               = Some (RegularFile (document_text mixed_pieces) true))
    by (vm_compute; reflexivity).
  split; [exact H1|].
  exact (bulk_removal_twice example_instrumenter "/w/a.js" mixed_file mixed_pieces
           H1 H2).
Defined.

(** ** An identifier that the session already holds *)

Lemma map_get_has {V : Type} (key : string) (m : list (string * V)) (v : V) :
  map_get key m = Some v -> map_has key m = true.
Proof.
  induction m as [|[k x] m IH]; cbn [map_get map_has]; [discriminate|].
  destruct (String.eqb k key); cbn [orb]; auto.
Qed.

(** X26: the identifier of an instrument is made of the first 8
    characters of a UUID, and nothing checks that it is new.  When
    [add_instrument] makes an identifier that the session already holds and
    the Instrumenter writes the block, the new instrument takes the place
    of the one that was held: the session holds as many instruments as
    before and the earlier one is no longer among them, while its file,
    when it is another file, still holds what it held. *)
Theorem add_same_identifier
    (rt : Runtime) (env : Env) (w : World) (s : DebugSession) (i : Instrumenter)
    (path : string) (at_line : Z) (capture : option (list string))
    (fs1 : filesystem) (held : Instrument) :
  session (sessionManager w) = Some s ->
  instrumenter w = Some i ->
  path <> EmptyString ->
  at_line <> 0%Z ->
  let instrument := requested rt env (sessionManager w) path at_line capture in
  map_get (id instrument) (instruments s) = Some held ->
  addInstrument i instrument (files w) = Ok fs1 ->
  let added := call_tool rt env (add_instrument (Some path) (Some at_line) capture) w in
  isError (fst added) = false
  /\ length (Session.getInstruments (sessionManager (snd added)))
     = length (Session.getInstruments (sessionManager w))
  /\ (exists s',
        session (sessionManager (snd added)) = Some s'
        /\ map_get (id instrument) (instruments s') = Some instrument)
  /\ (file held <> file instrument ->
      files (snd added) !! file held = files w !! file held).
Proof.
  intros Hs Hi Hp Hl instrument Hheld Hadd added.
  destruct (accepted_add rt env w s i path at_line capture fs1 Hs Hi Hp Hl Hadd)
    as [message E].
  subst added. rewrite E. cbn [fst snd isError success sessionManager files].
  split; [reflexivity|]. split; [|split].
  - unfold Session.getInstruments, registered.
    cbn [Session.set_session session instruments]. rewrite Hs.
    unfold map_values. rewrite !length_map.
    rewrite <- (length_map fst (map_set _ _ _)), <- (length_map fst (instruments s)).
    fold instrument. rewrite map_set_keys.
    now rewrite (map_get_has _ _ _ Hheld).
  - eexists. split; [reflexivity|]. cbn [instruments]. apply map_get_set.
  - intros Hne. apply addInstrument_Ok_inv in Hadd as (content & _ & _ & ->).
    now rewrite lookup_insert_ne.
Qed.

Lemma add_same_identifier_witness :
  let before :=
    snd (call_tool example_runtime first_env
           (add_instrument (Some "a.js") (Some 1%Z) None) started) in
  let added :=
    call_tool example_runtime first_env
      (add_instrument (Some "b.js") (Some 1%Z) None) before in
  map file (Session.getInstruments (sessionManager before)) = ["/w/a.js"]
  /\ isError (fst added) = false
  /\ map file (Session.getInstruments (sessionManager (snd added))) = ["/w/b.js"]
  /\ length (Session.getInstruments (sessionManager (snd added)))
     = length (Session.getInstruments (sessionManager before)).
Proof.
  intros before added.
  assert (H1 : exists s held,
             session (sessionManager before) = Some s
             /\ map_get
                  (id (requested example_runtime first_env (sessionManager before)
                         "b.js" 1 None))
                  (instruments s) = Some held)
    by (eexists _, _; split; vm_compute; reflexivity).
  destruct H1 as (s & held & Hs & Hheld).
  assert (H2 : exists fs1,
             addInstrument example_instrumenter
               (requested example_runtime first_env (sessionManager before)
                  "b.js" 1 None) (files before) = Ok fs1)
    by (eexists; vm_compute; reflexivity).
  destruct H2 as [fs1 Hadd].
  destruct (add_same_identifier example_runtime first_env before s
              example_instrumenter "b.js" 1 None fs1 held Hs
              ltac:(vm_compute; reflexivity) ltac:(discriminate)
              ltac:(discriminate) Hheld Hadd) as (Ha & Hb & _).
  split; [vm_compute; reflexivity|]. split; [exact Ha|].
  split; [vm_compute; reflexivity | exact Hb].
Defined.
